(** * Issues and merge requests of soft-serve: store, state machine, merge executor

    A shallow embedding of the issue / merge-request engine:
    - [pkg/db/models]: the row types and the integer state constants;
    - the migrations ([issues], [merge_requests], [issue_dependencies]): the
      tables, their primary keys, foreign keys, unique and check constraints;
    - [pkg/store/database]: every SQL statement of the issue store and of the
      merge-request store, as a function on the tables;
    - [pkg/backend]: the facade, in an error-and-state monad over the
      database and the git working trees;
    - [pkg/ssh/cmd]: the parsers of the state filters.

    [CURRENT_TIMESTAMP] is the explicit argument [now] of each statement. *)

From Stdlib Require Import ZArith List String Bool Lia Sorted Permutation.
Import ListNotations.
Local Open Scope string_scope.
Local Open Scope Z_scope.

(** ** Errors *)

(** The error values the engine produces.  [ErrNoRows] is [sql.ErrNoRows];
    [ErrConstraint c] is the engine's refusal of a statement that violates the
    schema constraint named [c]; [ErrUserNotFound] is [proto.ErrUserNotFound];
    [ErrorString] is [errors.New] / [fmt.Errorf] without a wrapped cause and
    [ErrorWrap] is [fmt.Errorf("...: %w", err)]. *)
Inductive error : Type :=
| ErrNoRows
| ErrConstraint (c : string)
| ErrUserNotFound
| ErrRepoNotFound
| ErrorString (msg : string)
| ErrorWrap (msg : string) (cause : error).

(** A Go [(T, error)] return. *)
Inductive Result (A : Type) : Type :=
| Ok (a : A)
| Err (e : error).
Arguments Ok {A} a.
Arguments Err {A} e.

(** ** Models ([pkg/db/models]) *)

(** [type IssueState int], [iota] constants. *)
Definition IssueState := Z.
Definition IssueStateOpen : IssueState := 0.
Definition IssueStateClosed : IssueState := 1.

(** [type MergeRequestState int], [iota] constants. *)
Definition MergeRequestState := Z.
Definition MergeRequestStateOpen : MergeRequestState := 0.
Definition MergeRequestStateMerged : MergeRequestState := 1.
Definition MergeRequestStateClosed : MergeRequestState := 2.

(** [func (s IssueState) String() string]. *)
Definition IssueState_String (s : IssueState) : string :=
  if s =? IssueStateOpen then "open"
  else if s =? IssueStateClosed then "closed"
  else "unknown".

(** [func (s MergeRequestState) String() string]. *)
Definition MergeRequestState_String (s : MergeRequestState) : string :=
  if s =? MergeRequestStateOpen then "open"
  else if s =? MergeRequestStateMerged then "merged"
  else if s =? MergeRequestStateClosed then "closed"
  else "unknown".

(** [models.Issue]; [sql.NullInt64] and [sql.NullTime] are options. *)
Record Issue : Type := mkIssue {
  iID : Z;
  iRepoID : Z;
  iTitle : string;
  iDescription : string;
  iState : IssueState;
  iAuthorID : Z;
  iClosedBy : option Z;
  iClosedAt : option Z;
  iCreatedAt : Z;
  iUpdatedAt : Z
}.

(** [models.IssueDependency]: issue [dIssueID] depends on [dDependsOnID]. *)
Record IssueDependency : Type := mkIssueDependency {
  dID : Z;
  dIssueID : Z;
  dDependsOnID : Z;
  dCreatedAt : Z
}.

(** [models.MergeRequest]. *)
Record MergeRequest : Type := mkMergeRequest {
  mID : Z;
  mRepoID : Z;
  mTitle : string;
  mDescription : string;
  mSourceBranch : string;
  mTargetBranch : string;
  mState : MergeRequestState;
  mAuthorID : Z;
  mMergedBy : option Z;
  mMergedAt : option Z;
  mClosedBy : option Z;
  mClosedAt : option Z;
  mCreatedAt : Z;
  mUpdatedAt : Z
}.

(** The rows of [repos] and [users] the engine refers to: the key the foreign
    keys point at, and the name the facade resolves. *)
Record Repo : Type := mkRepo { rID : Z; rName : string }.
Record User : Type := mkUser { uID : Z; uUsername : string }.

(** ** The database *)

(** The five tables, rows in insertion order, and the [AUTOINCREMENT]
    counters of the three tables the engine inserts into. *)
Record DB : Type := mkDB {
  repos : list Repo;
  users : list User;
  issues : list Issue;
  merge_requests : list MergeRequest;
  issue_dependencies : list IssueDependency;
  seq_issues : Z;
  seq_merge_requests : Z;
  seq_issue_dependencies : Z
}.

Definition with_issues (db : DB) (t : list Issue) (s : Z) : DB :=
  mkDB (repos db) (users db) t (merge_requests db) (issue_dependencies db)
       s (seq_merge_requests db) (seq_issue_dependencies db).

Definition with_merge_requests (db : DB) (t : list MergeRequest) (s : Z) : DB :=
  mkDB (repos db) (users db) (issues db) t (issue_dependencies db)
       (seq_issues db) s (seq_issue_dependencies db).

Definition with_issue_dependencies (db : DB) (t : list IssueDependency) (s : Z) : DB :=
  mkDB (repos db) (users db) (issues db) (merge_requests db) t
       (seq_issues db) (seq_merge_requests db) s.

(** [x IN (SELECT id FROM t)]. *)
Definition mem (x : Z) (ids : list Z) : bool := existsb (Z.eqb x) ids.

Definition repo_exists (db : DB) (r : Z) : bool := mem r (map rID (repos db)).
Definition user_exists (db : DB) (u : Z) : bool := mem u (map uID (users db)).
Definition issue_exists (db : DB) (i : Z) : bool := mem i (map iID (issues db)).

(** [UPDATE t SET ... WHERE p]: the rows that satisfy [p] are rewritten by
    [f], in place. *)
Definition update_where {A : Type} (p : A -> bool) (f : A -> A) (t : list A) : list A :=
  map (fun r => if p r then f r else r) t.

(** The number of rows a [WHERE] clause matches. *)
Definition rows_matched {A : Type} (p : A -> bool) (t : list A) : Z :=
  Z.of_nat (List.length (filter p t)).

(** [DELETE FROM t WHERE p]. *)
Definition delete_where {A : Type} (p : A -> bool) (t : list A) : list A :=
  filter (fun r => negb (p r)) t.

(** [ORDER BY key DESC]: the rows by decreasing [key].  SQL leaves the order
    of rows with equal keys to the engine; here they keep their table order. *)
Fixpoint insert_desc {A : Type} (key : A -> Z) (x : A) (t : list A) : list A :=
  match t with
  | [] => [x]
  | y :: t' => if key y <=? key x then x :: y :: t' else y :: insert_desc key x t'
  end.

Definition order_by_desc {A : Type} (key : A -> Z) (t : list A) : list A :=
  fold_right (insert_desc key) [] t.

(** ** The issue store ([pkg/store/database], [issueStore]) *)

(** [WHERE repo_id = ? AND id = ?]. *)
Definition issue_at (repoID id : Z) (i : Issue) : bool :=
  (iRepoID i =? repoID) && (iID i =? id).

(** [WHERE repo_id = ? AND id = ? AND state = ?]. *)
Definition issue_at_state (repoID id : Z) (st : IssueState) (i : Issue) : bool :=
  (iRepoID i =? repoID) && (iID i =? id) && (iState i =? st).

(** [GetIssueByID]: [SELECT * FROM issues WHERE repo_id = ? AND id = ?] read
    with [GetContext], which fails with [sql.ErrNoRows] on an empty result. *)
Definition GetIssueByID (db : DB) (repoID id : Z) : Result Issue :=
  match find (issue_at repoID id) (issues db) with
  | Some i => Ok i
  | None => Err ErrNoRows
  end.

(** [CreateIssue]: [INSERT INTO issues (repo_id, author_id, title, description,
    state, updated_at) VALUES (?, ?, ?, ?, IssueStateOpen, CURRENT_TIMESTAMP)];
    [closed_by] and [closed_at] take their default [NULL], [created_at] its
    default [CURRENT_TIMESTAMP], [id] the next [AUTOINCREMENT] value, which is
    what [LastInsertId] returns.  The insert is refused when [repo_id_fk] or
    [author_id_fk] has no referenced row. *)
Definition CreateIssue (db : DB) (repoID authorID : Z) (title description : string)
    (now : Z) : Result Z * DB :=
  if negb (repo_exists db repoID) then (Err (ErrConstraint "repo_id_fk"), db)
  else if negb (user_exists db authorID) then (Err (ErrConstraint "author_id_fk"), db)
  else
    let id := seq_issues db + 1 in
    let row := mkIssue id repoID title description IssueStateOpen authorID
                       None None now now in
    (Ok id, with_issues db (issues db ++ [row]) id).

Definition set_issue_text (title description : string) (now : Z) (i : Issue) : Issue :=
  mkIssue (iID i) (iRepoID i) title description (iState i) (iAuthorID i)
          (iClosedBy i) (iClosedAt i) (iCreatedAt i) now.

(** [UpdateIssue]: [UPDATE issues SET title = ?, description = ?, updated_at =
    CURRENT_TIMESTAMP WHERE repo_id = ? AND id = ?].  The [sql.Result] (and
    with it the affected-row count) is discarded: [_, err := h.ExecContext]. *)
Definition UpdateIssue (db : DB) (repoID id : Z) (title description : string)
    (now : Z) : option error * DB :=
  (None,
   with_issues db
     (update_where (issue_at repoID id) (set_issue_text title description now) (issues db))
     (seq_issues db)).

Definition set_issue_closed (closedBy now : Z) (i : Issue) : Issue :=
  mkIssue (iID i) (iRepoID i) (iTitle i) (iDescription i) IssueStateClosed (iAuthorID i)
          (Some closedBy) (Some now) (iCreatedAt i) now.

(** [CloseIssue]: [UPDATE issues SET state = IssueStateClosed, closed_by = ?,
    closed_at = CURRENT_TIMESTAMP, updated_at = CURRENT_TIMESTAMP WHERE
    repo_id = ? AND id = ? AND state = IssueStateOpen].  A rewritten row must
    satisfy [closed_by_fk]; the row count is discarded. *)
Definition CloseIssue (db : DB) (repoID id closedBy now : Z) : option error * DB :=
  let guard := issue_at_state repoID id IssueStateOpen in
  if existsb guard (issues db) && negb (user_exists db closedBy)
  then (Some (ErrConstraint "closed_by_fk"), db)
  else (None,
        with_issues db (update_where guard (set_issue_closed closedBy now) (issues db))
                    (seq_issues db)).

Definition set_issue_open (now : Z) (i : Issue) : Issue :=
  mkIssue (iID i) (iRepoID i) (iTitle i) (iDescription i) IssueStateOpen (iAuthorID i)
          None None (iCreatedAt i) now.

(** [ReopenIssue]: [UPDATE issues SET state = IssueStateOpen, closed_by = NULL,
    closed_at = NULL, updated_at = CURRENT_TIMESTAMP WHERE repo_id = ? AND
    id = ? AND state = IssueStateClosed]; the row count is discarded. *)
Definition ReopenIssue (db : DB) (repoID id now : Z) : option error * DB :=
  (None,
   with_issues db
     (update_where (issue_at_state repoID id IssueStateClosed) (set_issue_open now)
                   (issues db))
     (seq_issues db)).

(** Removing issues cascades to the edges that name one of them
    ([issue_id_fk] and [depends_on_id_fk], both [ON DELETE CASCADE]). *)
Definition delete_issues_where (p : Issue -> bool) (db : DB) : DB :=
  let gone := map iID (filter p (issues db)) in
  mkDB (repos db) (users db)
       (delete_where p (issues db))
       (merge_requests db)
       (delete_where (fun d => mem (dIssueID d) gone || mem (dDependsOnID d) gone)
                     (issue_dependencies db))
       (seq_issues db) (seq_merge_requests db) (seq_issue_dependencies db).

(** [DeleteIssue]: [DELETE FROM issues WHERE repo_id = ? AND id = ?]. *)
Definition DeleteIssue (db : DB) (repoID id : Z) : option error * DB :=
  (None, delete_issues_where (issue_at repoID id) db).

(** [WHERE issue_id = ? AND depends_on_id = ?]. *)
Definition edge_at (issueID dependsOnID : Z) (d : IssueDependency) : bool :=
  (dIssueID d =? issueID) && (dDependsOnID d =? dependsOnID).

(** [AddIssueDependency]: [SELECT COUNT( * ) FROM issues WHERE repo_id = ? AND
    (id = ? OR id = ?)] must be 2, else [sql.ErrNoRows]; then [INSERT INTO
    issue_dependencies (issue_id, depends_on_id) VALUES (?, ?)], which the
    schema refuses on [issue_id_fk], [depends_on_id_fk], [unique_dependency]
    and [no_self_dependency]. *)
Definition AddIssueDependency (db : DB) (repoID issueID dependsOnID now : Z)
    : option error * DB :=
  let count :=
    rows_matched (fun i => (iRepoID i =? repoID)
                           && ((iID i =? issueID) || (iID i =? dependsOnID)))
                 (issues db) in
  if negb (count =? 2) then (Some ErrNoRows, db)
  else if negb (issue_exists db issueID) then (Some (ErrConstraint "issue_id_fk"), db)
  else if negb (issue_exists db dependsOnID)
  then (Some (ErrConstraint "depends_on_id_fk"), db)
  else if existsb (edge_at issueID dependsOnID) (issue_dependencies db)
  then (Some (ErrConstraint "unique_dependency"), db)
  else if issueID =? dependsOnID then (Some (ErrConstraint "no_self_dependency"), db)
  else
    let id := seq_issue_dependencies db + 1 in
    (None,
     with_issue_dependencies db
       (issue_dependencies db ++ [mkIssueDependency id issueID dependsOnID now]) id).

(** [RemoveIssueDependency]: the issue must be in the repository
    ([COUNT( * )] not 0, else [sql.ErrNoRows]); then [DELETE FROM
    issue_dependencies WHERE issue_id = ? AND depends_on_id = ?]. *)
Definition RemoveIssueDependency (db : DB) (repoID issueID dependsOnID : Z)
    : option error * DB :=
  if rows_matched (issue_at repoID issueID) (issues db) =? 0 then (Some ErrNoRows, db)
  else (None,
        with_issue_dependencies db
          (delete_where (edge_at issueID dependsOnID) (issue_dependencies db))
          (seq_issue_dependencies db)).

(** [HasIssueDependency]: the same existence check, then [COUNT( * ) > 0] over
    the edges at [(issue_id, depends_on_id)]. *)
Definition HasIssueDependency (db : DB) (repoID issueID dependsOnID : Z) : Result bool :=
  if rows_matched (issue_at repoID issueID) (issues db) =? 0 then Err ErrNoRows
  else Ok (0 <? rows_matched (edge_at issueID dependsOnID) (issue_dependencies db)).

(** [GetIssuesByRepoID]: [SELECT * FROM issues WHERE repo_id = ? ORDER BY
    created_at DESC], read with [SelectContext] (no rows is the empty slice,
    not an error). *)
Definition GetIssuesByRepoID (db : DB) (repoID : Z) : Result (list Issue) :=
  Ok (order_by_desc iCreatedAt (filter (fun i => iRepoID i =? repoID) (issues db))).

(** [GetIssuesByRepoIDAndState]: [... WHERE repo_id = ? AND state = ? ORDER BY
    created_at DESC]. *)
Definition GetIssuesByRepoIDAndState (db : DB) (repoID : Z) (state : IssueState)
    : Result (list Issue) :=
  Ok (order_by_desc iCreatedAt
        (filter (fun i => (iRepoID i =? repoID) && (iState i =? state)) (issues db))).

(** [FROM issues i INNER JOIN issue_dependencies d ON on_ i d WHERE where_ i d]
    projected on [i.*]: one row for every pair of an issue row and an edge row
    that satisfies both conditions. *)
Definition join_issues_edges (on_where : Issue -> IssueDependency -> bool) (db : DB)
    : list Issue :=
  flat_map (fun i => map (fun _ => i) (filter (on_where i) (issue_dependencies db)))
           (issues db).

(** [GetIssueDependencies]: [SELECT i.* FROM issues i INNER JOIN
    issue_dependencies d ON i.id = d.depends_on_id WHERE d.issue_id = ? AND
    i.repo_id = ? ORDER BY i.created_at DESC]. *)
Definition GetIssueDependencies (db : DB) (repoID issueID : Z) : Result (list Issue) :=
  Ok (order_by_desc iCreatedAt
        (join_issues_edges
           (fun i d => (iID i =? dDependsOnID d) && (dIssueID d =? issueID)
                       && (iRepoID i =? repoID)) db)).

(** [GetIssueDependents]: [SELECT i.* FROM issues i INNER JOIN
    issue_dependencies d ON i.id = d.issue_id WHERE d.depends_on_id = ? AND
    i.repo_id = ? ORDER BY i.created_at DESC]. *)
Definition GetIssueDependents (db : DB) (repoID issueID : Z) : Result (list Issue) :=
  Ok (order_by_desc iCreatedAt
        (join_issues_edges
           (fun i d => (iID i =? dIssueID d) && (dDependsOnID d =? issueID)
                       && (iRepoID i =? repoID)) db)).

(** ** The merge-request store ([pkg/store/database], [mergeRequestStore]) *)

(** [WHERE repo_id = ? AND id = ?]. *)
Definition mr_at (repoID id : Z) (m : MergeRequest) : bool :=
  (mRepoID m =? repoID) && (mID m =? id).

(** [WHERE repo_id = ? AND id = ? AND state = ?]. *)
Definition mr_at_state (repoID id : Z) (st : MergeRequestState) (m : MergeRequest) : bool :=
  (mRepoID m =? repoID) && (mID m =? id) && (mState m =? st).

(** [GetMergeRequestByID]. *)
Definition GetMergeRequestByID (db : DB) (repoID id : Z) : Result MergeRequest :=
  match find (mr_at repoID id) (merge_requests db) with
  | Some m => Ok m
  | None => Err ErrNoRows
  end.

(** [CreateMergeRequest]: [INSERT INTO merge_requests (repo_id, author_id,
    title, description, source_branch, target_branch, state, updated_at)
    VALUES (?, ?, ?, ?, ?, ?, MergeRequestStateOpen, CURRENT_TIMESTAMP)]. *)
Definition CreateMergeRequest (db : DB) (repoID authorID : Z)
    (title description sourceBranch targetBranch : string) (now : Z) : Result Z * DB :=
  if negb (repo_exists db repoID) then (Err (ErrConstraint "repo_id_fk"), db)
  else if negb (user_exists db authorID) then (Err (ErrConstraint "author_id_fk"), db)
  else
    let id := seq_merge_requests db + 1 in
    let row := mkMergeRequest id repoID title description sourceBranch targetBranch
                              MergeRequestStateOpen authorID None None None None now now in
    (Ok id, with_merge_requests db (merge_requests db ++ [row]) id).

Definition set_mr_text (title description : string) (now : Z) (m : MergeRequest)
    : MergeRequest :=
  mkMergeRequest (mID m) (mRepoID m) title description (mSourceBranch m) (mTargetBranch m)
                 (mState m) (mAuthorID m) (mMergedBy m) (mMergedAt m)
                 (mClosedBy m) (mClosedAt m) (mCreatedAt m) now.

(** [UpdateMergeRequest]: [UPDATE merge_requests SET title = ?, description =
    ?, updated_at = CURRENT_TIMESTAMP WHERE repo_id = ? AND id = ?]; the row
    count is discarded. *)
Definition UpdateMergeRequest (db : DB) (repoID id : Z) (title description : string)
    (now : Z) : option error * DB :=
  (None,
   with_merge_requests db
     (update_where (mr_at repoID id) (set_mr_text title description now) (merge_requests db))
     (seq_merge_requests db)).

Definition set_mr_merged (mergedBy now : Z) (m : MergeRequest) : MergeRequest :=
  mkMergeRequest (mID m) (mRepoID m) (mTitle m) (mDescription m)
                 (mSourceBranch m) (mTargetBranch m)
                 MergeRequestStateMerged (mAuthorID m) (Some mergedBy) (Some now)
                 (mClosedBy m) (mClosedAt m) (mCreatedAt m) now.

(** [MergeMergeRequest]: [UPDATE merge_requests SET state =
    MergeRequestStateMerged, merged_by = ?, merged_at = CURRENT_TIMESTAMP,
    updated_at = CURRENT_TIMESTAMP WHERE repo_id = ? AND id = ? AND state =
    MergeRequestStateOpen].  A rewritten row must satisfy [merged_by_fk]; the
    row count is discarded. *)
Definition MergeMergeRequest (db : DB) (repoID id mergedBy now : Z) : option error * DB :=
  let guard := mr_at_state repoID id MergeRequestStateOpen in
  if existsb guard (merge_requests db) && negb (user_exists db mergedBy)
  then (Some (ErrConstraint "merged_by_fk"), db)
  else (None,
        with_merge_requests db
          (update_where guard (set_mr_merged mergedBy now) (merge_requests db))
          (seq_merge_requests db)).

Definition set_mr_closed (closedBy now : Z) (m : MergeRequest) : MergeRequest :=
  mkMergeRequest (mID m) (mRepoID m) (mTitle m) (mDescription m)
                 (mSourceBranch m) (mTargetBranch m)
                 MergeRequestStateClosed (mAuthorID m) (mMergedBy m) (mMergedAt m)
                 (Some closedBy) (Some now) (mCreatedAt m) now.

(** [CloseMergeRequest]: the guarded update [Open -> Closed], setting
    [closed_by], [closed_at] and [updated_at]. *)
Definition CloseMergeRequest (db : DB) (repoID id closedBy now : Z) : option error * DB :=
  let guard := mr_at_state repoID id MergeRequestStateOpen in
  if existsb guard (merge_requests db) && negb (user_exists db closedBy)
  then (Some (ErrConstraint "closed_by_fk"), db)
  else (None,
        with_merge_requests db
          (update_where guard (set_mr_closed closedBy now) (merge_requests db))
          (seq_merge_requests db)).

Definition set_mr_open (now : Z) (m : MergeRequest) : MergeRequest :=
  mkMergeRequest (mID m) (mRepoID m) (mTitle m) (mDescription m)
                 (mSourceBranch m) (mTargetBranch m)
                 MergeRequestStateOpen (mAuthorID m) (mMergedBy m) (mMergedAt m)
                 None None (mCreatedAt m) now.

(** [ReopenMergeRequest]: the guarded update [Closed -> Open], clearing
    [closed_by] and [closed_at]. *)
Definition ReopenMergeRequest (db : DB) (repoID id now : Z) : option error * DB :=
  (None,
   with_merge_requests db
     (update_where (mr_at_state repoID id MergeRequestStateClosed) (set_mr_open now)
                   (merge_requests db))
     (seq_merge_requests db)).

(** [DeleteMergeRequest]: [DELETE FROM merge_requests WHERE repo_id = ? AND
    id = ?]. *)
Definition DeleteMergeRequest (db : DB) (repoID id : Z) : option error * DB :=
  (None,
   with_merge_requests db (delete_where (mr_at repoID id) (merge_requests db))
                       (seq_merge_requests db)).

(** [GetMergeRequestsByRepoID]: [SELECT * FROM merge_requests WHERE repo_id = ?
    ORDER BY created_at DESC]. *)
Definition GetMergeRequestsByRepoID (db : DB) (repoID : Z) : Result (list MergeRequest) :=
  Ok (order_by_desc mCreatedAt (filter (fun m => mRepoID m =? repoID) (merge_requests db))).

(** [GetMergeRequestsByRepoIDAndState]: [... WHERE repo_id = ? AND state = ?
    ORDER BY created_at DESC]. *)
Definition GetMergeRequestsByRepoIDAndState (db : DB) (repoID : Z)
    (state : MergeRequestState) : Result (list MergeRequest) :=
  Ok (order_by_desc mCreatedAt
        (filter (fun m => (mRepoID m =? repoID) && (mState m =? state))
                (merge_requests db))).

(** Modelled from the spec: the statement that removes a repository row is
    not part of the sources; the schema declares [repo_id_fk ... ON DELETE
    CASCADE] on [issues] and on [merge_requests], and [issue_id_fk] /
    [depends_on_id_fk ... ON DELETE CASCADE] on [issue_dependencies], so the
    removal takes with it the repository's issues (and, through them, the
    edges that name one of them) and its merge requests. *)
Definition DeleteRepo (db : DB) (repoID : Z) : DB :=
  let db1 := delete_issues_where (fun i => iRepoID i =? repoID) db in
  mkDB (delete_where (fun r => rID r =? repoID) (repos db1)) (users db1)
       (issues db1)
       (delete_where (fun m => mRepoID m =? repoID) (merge_requests db1))
       (issue_dependencies db1)
       (seq_issues db1) (seq_merge_requests db1) (seq_issue_dependencies db1).

(** ** The version-control collaborator *)

(** A repository on disk as the engine uses it: its path, the names of its
    refs, and the git commands run in it so far, oldest first. *)
Record GitRepository : Type := mkGitRepository {
  Path : string;
  refs : list string;
  history : list (list string)
}.

(** ** The facade ([pkg/backend]) *)

Module Backend.

(** [context.Context] as the facade reads it: the acting user, if any. *)
Record Context : Type := mkContext { ctxUser : option User }.

(** What a facade call can read and change: the database and the
    repositories on disk, keyed by repository name. *)
Record World : Type := mkWorld {
  db : DB;
  git : list (string * GitRepository)
}.

(** Facade calls: a result or an error, and the world after the call. *)
Definition M (A : Type) : Type := World -> Result A * World.

Definition ret {A : Type} (a : A) : M A := fun w => (Ok a, w).
Definition fail {A : Type} (e : error) : M A := fun w => (Err e, w).
Definition bind {A B : Type} (m : M A) (k : A -> M B) : M B :=
  fun w => match m w with
           | (Ok a, w') => k a w'
           | (Err e, w') => (Err e, w')
           end.

Notation "x <- m ;; k" := (bind m (fun x => k))
  (at level 61, m at next level, right associativity).

(** A store call of type [error] as a transaction body. *)
Definition exec (f : DB -> option error * DB) : DB -> Result unit * DB :=
  fun d => match f d with
           | (None, d') => (Ok tt, d')
           | (Some e, d') => (Err e, d')
           end.

(** Modelled from the spec: [db.TransactionContext] is not part of the
    sources; the body runs on the database, its changes are committed when it
    returns no error and rolled back when it returns one. *)
Definition TransactionContext {A : Type} (body : DB -> Result A * DB) : M A :=
  fun w => match body (db w) with
           | (Ok a, d') => (Ok a, mkWorld d' (git w))
           | (Err e, _) => (Err e, w)
           end.

(** Modelled from the spec: [Backend.Repository] is not part of the sources;
    it resolves a repository by name. *)
Definition Repository (repoName : string) : M Repo :=
  fun w => match find (fun r => String.eqb (rName r) repoName) (repos (db w)) with
           | Some r => (Ok r, w)
           | None => (Err ErrRepoNotFound, w)
           end.

(** [proto.UserFromContext]. *)
Definition UserFromContext (ctx : Context) : option User := ctxUser ctx.

(** Modelled from the spec: [Repository.Open] is not part of the sources; it
    yields the repository on disk, or fails when there is none. *)
Definition Open (r : Repo) : M GitRepository :=
  fun w => match find (fun e => String.eqb (fst e) (rName r)) (git w) with
           | Some (_, gr) => (Ok gr, w)
           | None => (Err (ErrorString "repository does not exist"), w)
           end.

(** The repository on disk after commands were run in it. *)
Definition put_git (r : Repo) (gr : GitRepository) : M unit :=
  fun w => (Ok tt,
            mkWorld (db w)
              (map (fun e => if String.eqb (fst e) (rName r) then (fst e, gr) else e)
                   (git w))).

(** Modelled from the spec: [ShowRefVerify] ([git show-ref --verify]) is
    not part of the sources; it succeeds exactly on the name of a ref of the
    repository. *)
Definition ShowRefVerify (gr : GitRepository) (ref : string) : option error :=
  if existsb (String.eqb ref) (refs gr) then None
  else Some (ErrorString "reference does not exist").

Section Facade.

(** [utils.SanitizeRepo], [db.WrapError] and [strconv.Quote] (the [%q] verb)
    are not part of the sources. *)
Variable SanitizeRepo : string -> string.
Variable WrapError : error -> error.
Variable Quote : string -> string.

(** Whether a git command fails in a working tree, and with which error:
    the collaborator is a black box. *)
Variable git_fails : list string -> GitRepository -> option error.

(** [if err := ...; err != nil { return db.WrapError(err) }]. *)
Definition wrapped {A : Type} (m : M A) : M A :=
  fun w => match m w with
           | (Err e, w') => (Err (WrapError e), w')
           | r => r
           end.

Definition requireUser (ctx : Context) : M User :=
  match UserFromContext ctx with
  | Some u => ret u
  | None => fail ErrUserNotFound
  end.

(** [git.NewCommand(args...).RunInDir(repo.Path)]. *)
Definition RunInDir (args : list string) (gr : GitRepository)
    : option error * GitRepository :=
  (git_fails args gr, mkGitRepository (Path gr) (refs gr) (history gr ++ [args])).

(** [fmt.Sprintf("Merge branch '%s' into '%s'", sourceBranch, targetBranch)]. *)
Definition commitMsg (sourceBranch targetBranch : string) : string :=
  "Merge branch '" ++ sourceBranch ++ "' into '" ++ targetBranch ++ "'".

(** [performMerge]: check out the target branch, then merge the source branch
    with [--no-ff] and the commit message.  The parameter [author] is not used
    by the body. *)
Definition performMerge (repo : GitRepository) (sourceBranch targetBranch author : string)
    : option error * GitRepository :=
  match RunInDir ["checkout"; targetBranch] repo with
  | (Some err, repo1) => (Some (ErrorWrap "failed to checkout target branch" err), repo1)
  | (None, repo1) =>
      match RunInDir ["merge"; "--no-ff"; "-m"; commitMsg sourceBranch targetBranch;
                      sourceBranch] repo1 with
      | (Some err, repo2) => (Some (ErrorWrap "failed to merge branches" err), repo2)
      | (None, repo2) => (None, repo2)
      end
  end.

(** [Backend.CreateIssue]. *)
Definition CreateIssue (ctx : Context) (repoName title description : string) (now : Z)
    : M Z :=
  let repoName := SanitizeRepo repoName in
  r <- Repository repoName ;;
  user <- requireUser ctx ;;
  wrapped (TransactionContext
             (fun tx => CreateIssue tx (rID r) (uID user) title description now)).

(** [Backend.UpdateIssue]. *)
Definition UpdateIssue (ctx : Context) (repoName : string) (issueID : Z)
    (title description : string) (now : Z) : M unit :=
  let repoName := SanitizeRepo repoName in
  r <- Repository repoName ;;
  wrapped (TransactionContext
             (exec (fun tx => UpdateIssue tx (rID r) issueID title description now))).

(** [Backend.CloseIssue]. *)
Definition CloseIssue (ctx : Context) (repoName : string) (issueID now : Z) : M unit :=
  let repoName := SanitizeRepo repoName in
  r <- Repository repoName ;;
  user <- requireUser ctx ;;
  wrapped (TransactionContext
             (exec (fun tx => CloseIssue tx (rID r) issueID (uID user) now))).

(** [Backend.ReopenIssue]. *)
Definition ReopenIssue (ctx : Context) (repoName : string) (issueID now : Z) : M unit :=
  let repoName := SanitizeRepo repoName in
  r <- Repository repoName ;;
  wrapped (TransactionContext (exec (fun tx => ReopenIssue tx (rID r) issueID now))).

(** [Backend.AddIssueDependency]. *)
Definition AddIssueDependency (ctx : Context) (repoName : string)
    (issueID dependsOnID now : Z) : M unit :=
  let repoName := SanitizeRepo repoName in
  r <- Repository repoName ;;
  wrapped (TransactionContext
             (exec (fun tx => AddIssueDependency tx (rID r) issueID dependsOnID now))).

(** [Backend.GetIssue]. *)
Definition GetIssue (ctx : Context) (repoName : string) (issueID : Z) : M Issue :=
  let repoName := SanitizeRepo repoName in
  r <- Repository repoName ;;
  wrapped (TransactionContext (fun tx => (GetIssueByID tx (rID r) issueID, tx))).

(** [Backend.ListIssues]; [state] is the optional filter, a nil pointer being
    [None]. *)
Definition ListIssues (ctx : Context) (repoName : string) (state : option IssueState)
    : M (list Issue) :=
  let repoName := SanitizeRepo repoName in
  r <- Repository repoName ;;
  wrapped (TransactionContext
             (fun tx => (match state with
                         | None => GetIssuesByRepoID tx (rID r)
                         | Some st => GetIssuesByRepoIDAndState tx (rID r) st
                         end, tx))).

(** [Backend.RemoveIssueDependency]. *)
Definition RemoveIssueDependency (ctx : Context) (repoName : string)
    (issueID dependsOnID : Z) : M unit :=
  let repoName := SanitizeRepo repoName in
  r <- Repository repoName ;;
  wrapped (TransactionContext
             (exec (fun tx => RemoveIssueDependency tx (rID r) issueID dependsOnID))).

(** [Backend.GetIssueDependencies]. *)
Definition GetIssueDependencies (ctx : Context) (repoName : string) (issueID : Z)
    : M (list Issue) :=
  let repoName := SanitizeRepo repoName in
  r <- Repository repoName ;;
  wrapped (TransactionContext (fun tx => (GetIssueDependencies tx (rID r) issueID, tx))).

(** [Backend.GetIssueDependents]. *)
Definition GetIssueDependents (ctx : Context) (repoName : string) (issueID : Z)
    : M (list Issue) :=
  let repoName := SanitizeRepo repoName in
  r <- Repository repoName ;;
  wrapped (TransactionContext (fun tx => (GetIssueDependents tx (rID r) issueID, tx))).

(** [Backend.CreateMergeRequest]: the repository, the acting user, the two
    [ShowRefVerify] checks on [refs/heads/<branch>], then the insert. *)
Definition CreateMergeRequest (ctx : Context)
    (repoName title description sourceBranch targetBranch : string) (now : Z) : M Z :=
  let repoName := SanitizeRepo repoName in
  r <- Repository repoName ;;
  user <- requireUser ctx ;;
  gr <- (fun w => match Open r w with
                  | (Err err, w') => (Err (ErrorWrap "failed to open repository" err), w')
                  | ok => ok
                  end) ;;
  match ShowRefVerify gr ("refs/heads/" ++ sourceBranch) with
  | Some _ =>
      fail (ErrorString ("source branch " ++ Quote sourceBranch ++ " does not exist"))
  | None =>
      match ShowRefVerify gr ("refs/heads/" ++ targetBranch) with
      | Some _ =>
          fail (ErrorString ("target branch " ++ Quote targetBranch ++ " does not exist"))
      | None =>
          wrapped (TransactionContext
                     (fun tx => CreateMergeRequest tx (rID r) (uID user) title description
                                                   sourceBranch targetBranch now))
      end
  end.

(** [Backend.GetMergeRequest]. *)
Definition GetMergeRequest (ctx : Context) (repoName : string) (mrID : Z)
    : M MergeRequest :=
  let repoName := SanitizeRepo repoName in
  r <- Repository repoName ;;
  wrapped (TransactionContext (fun tx => (GetMergeRequestByID tx (rID r) mrID, tx))).

(** [Backend.ListMergeRequests]. *)
Definition ListMergeRequests (ctx : Context) (repoName : string)
    (state : option MergeRequestState) : M (list MergeRequest) :=
  let repoName := SanitizeRepo repoName in
  r <- Repository repoName ;;
  wrapped (TransactionContext
             (fun tx => (match state with
                         | None => GetMergeRequestsByRepoID tx (rID r)
                         | Some st => GetMergeRequestsByRepoIDAndState tx (rID r) st
                         end, tx))).

(** [Backend.UpdateMergeRequest]. *)
Definition UpdateMergeRequest (ctx : Context) (repoName : string) (mrID : Z)
    (title description : string) (now : Z) : M unit :=
  let repoName := SanitizeRepo repoName in
  r <- Repository repoName ;;
  wrapped (TransactionContext
             (exec (fun tx => UpdateMergeRequest tx (rID r) mrID title description now))).

(** [Backend.CloseMergeRequest]. *)
Definition CloseMergeRequest (ctx : Context) (repoName : string) (mrID now : Z) : M unit :=
  let repoName := SanitizeRepo repoName in
  r <- Repository repoName ;;
  user <- requireUser ctx ;;
  wrapped (TransactionContext
             (exec (fun tx => CloseMergeRequest tx (rID r) mrID (uID user) now))).

(** [Backend.ReopenMergeRequest]. *)
Definition ReopenMergeRequest (ctx : Context) (repoName : string) (mrID now : Z) : M unit :=
  let repoName := SanitizeRepo repoName in
  r <- Repository repoName ;;
  wrapped (TransactionContext (exec (fun tx => ReopenMergeRequest tx (rID r) mrID now))).

(** [Backend.MergeMergeRequest], with what other callers do to the database
    between the external merge and the guarded update made explicit as
    [concurrent]: the call reads the merge request in one transaction, runs
    git outside any transaction, and updates the row in a second one. *)
Definition MergeMergeRequestAmid (concurrent : DB -> DB) (ctx : Context)
    (repoName : string) (mrID now : Z) : M unit :=
  let repoName := SanitizeRepo repoName in
  r <- Repository repoName ;;
  user <- requireUser ctx ;;
  mr <- GetMergeRequest ctx repoName mrID ;;
  if negb (mState mr =? MergeRequestStateOpen)
  then fail (ErrorString "merge request is not open")
  else
    gr <- (fun w => match Open r w with
                    | (Err err, w') => (Err (ErrorWrap "failed to open repository" err), w')
                    | ok => ok
                    end) ;;
    _ <- (fun w =>
            match performMerge gr (mSourceBranch mr) (mTargetBranch mr) (uUsername user) with
            | (Some err, gr') =>
                (Err (ErrorWrap "failed to merge" err), snd (put_git r gr' w))
            | (None, gr') => put_git r gr' w
            end) ;;
    _ <- (fun w => (Ok tt, mkWorld (concurrent (db w)) (git w))) ;;
    wrapped (TransactionContext
               (exec (fun tx => MergeMergeRequest tx (rID r) mrID (uID user) now))).

(** [Backend.MergeMergeRequest] when no other caller interferes. *)
Definition MergeMergeRequest : Context -> string -> Z -> Z -> M unit :=
  MergeMergeRequestAmid (fun d => d).

End Facade.
End Backend.

(** ** The command line ([pkg/ssh/cmd]) *)

Module Cmd.

(** Whether every byte of [s] is below [utf8.RuneSelf]. *)
Fixpoint isASCII (s : string) : bool :=
  match s with
  | EmptyString => true
  | String c s' => (Ascii.nat_of_ascii c <? 128)%nat && isASCII s'
  end.

(** ['A' <= c && c <= 'Z'] gives [c + 'a' - 'A']. *)
Definition lower_byte (c : Ascii.ascii) : Ascii.ascii :=
  let n := Ascii.nat_of_ascii c in
  if ((65 <=? n) && (n <=? 90))%nat then Ascii.ascii_of_nat (n + 32) else c.

Fixpoint map_bytes (f : Ascii.ascii -> Ascii.ascii) (s : string) : string :=
  match s with
  | EmptyString => EmptyString
  | String c s' => String (f c) (map_bytes f s')
  end.

Section Parse.

(** [strings.Map(unicode.ToLower, s)], which [strings.ToLower] applies to a
    string that has a byte outside ASCII; it is not part of the sources. *)
Variable MapUnicodeToLower : string -> string.

(** [strings.ToLower]: an ASCII-only string has its upper-case letters
    lowered byte by byte. *)
Definition ToLower (s : string) : string :=
  if isASCII s then map_bytes lower_byte s else MapUnicodeToLower s.

(** [parseIssueState]. *)
Definition parseIssueState (s : string) : IssueState :=
  let l := ToLower s in
  if String.eqb l "open" then IssueStateOpen
  else if String.eqb l "closed" then IssueStateClosed
  else -1.

(** [parseState]. *)
Definition parseState (s : string) : MergeRequestState :=
  let l := ToLower s in
  if String.eqb l "open" then MergeRequestStateOpen
  else if String.eqb l "merged" then MergeRequestStateMerged
  else if String.eqb l "closed" then MergeRequestStateClosed
  else -1.

End Parse.
End Cmd.

(** ** Sample data *)

Definition alice : User := mkUser 7 "alice".
Definition bob : User := mkUser 8 "bob".

(** Repository 1 ("soft") with a closed issue 1, an open issue 2, an open
    merge request 1 from "feature" into "main" and a merged merge request 2. *)
Definition sample_db : DB :=
  mkDB [mkRepo 1 "soft"] [alice; bob]
       [mkIssue 1 1 "Fix bug" "crash" IssueStateClosed 7 (Some 7) (Some 20) 10 20;
        mkIssue 2 1 "Add docs" "readme" IssueStateOpen 8 None None 11 11]
       [mkMergeRequest 1 1 "Feature" "adds it" "feature" "main" MergeRequestStateOpen 7
                       None None None None 12 12;
        mkMergeRequest 2 1 "Hotfix" "fixes it" "hotfix" "main" MergeRequestStateMerged 8
                       (Some 7) (Some 30) None None 13 30]
       [] 2 2 0.

Definition sample_git : GitRepository :=
  mkGitRepository "/repos/soft.git" ["refs/heads/main"; "refs/heads/feature"] [].

Definition sample_world : Backend.World :=
  Backend.mkWorld sample_db [("soft", sample_git)].

(** ** Vocabulary of the statements *)

(** The five guarded transitions of the state machine. *)
Inductive Transition : Type :=
| TCloseIssue | TReopenIssue | TCloseMergeRequest | TReopenMergeRequest | TMergeMergeRequest.

(** The store call behind each transition. *)
Definition run_transition (t : Transition) (db : DB) (repoID id actor now : Z)
    : option error * DB :=
  match t with
  | TCloseIssue => CloseIssue db repoID id actor now
  | TReopenIssue => ReopenIssue db repoID id now
  | TCloseMergeRequest => CloseMergeRequest db repoID id actor now
  | TReopenMergeRequest => ReopenMergeRequest db repoID id now
  | TMergeMergeRequest => MergeMergeRequest db repoID id actor now
  end.

(** The number of rows the [WHERE] clause of each transition matches. *)
Definition transition_rows (t : Transition) (db : DB) (repoID id : Z) : Z :=
  match t with
  | TCloseIssue => rows_matched (issue_at_state repoID id IssueStateOpen) (issues db)
  | TReopenIssue => rows_matched (issue_at_state repoID id IssueStateClosed) (issues db)
  | TCloseMergeRequest =>
      rows_matched (mr_at_state repoID id MergeRequestStateOpen) (merge_requests db)
  | TReopenMergeRequest =>
      rows_matched (mr_at_state repoID id MergeRequestStateClosed) (merge_requests db)
  | TMergeMergeRequest =>
      rows_matched (mr_at_state repoID id MergeRequestStateOpen) (merge_requests db)
  end.

(** What [update] does to one issue row: title, description and [updated_at]
    are rewritten, every other column is kept. *)
Definition issue_text_rewritten (title description : string) (now : Z) (i i' : Issue)
    : Prop :=
  iTitle i' = title /\ iDescription i' = description /\ iUpdatedAt i' = now /\
  iID i' = iID i /\ iRepoID i' = iRepoID i /\ iState i' = iState i /\
  iAuthorID i' = iAuthorID i /\ iClosedBy i' = iClosedBy i /\
  iClosedAt i' = iClosedAt i /\ iCreatedAt i' = iCreatedAt i.

(** The same for one merge-request row. *)
Definition mr_text_rewritten (title description : string) (now : Z) (m m' : MergeRequest)
    : Prop :=
  mTitle m' = title /\ mDescription m' = description /\ mUpdatedAt m' = now /\
  mID m' = mID m /\ mRepoID m' = mRepoID m /\ mState m' = mState m /\
  mSourceBranch m' = mSourceBranch m /\ mTargetBranch m' = mTargetBranch m /\
  mAuthorID m' = mAuthorID m /\ mMergedBy m' = mMergedBy m /\ mMergedAt m' = mMergedAt m /\
  mClosedBy m' = mClosedBy m /\ mClosedAt m' = mClosedAt m /\ mCreatedAt m' = mCreatedAt m.

(** The store operations on an existing merge request that the claim names. *)
Inductive MROp : Type :=
| OpClose (repoID id closedBy now : Z)
| OpReopen (repoID id now : Z)
| OpMerge (repoID id mergedBy now : Z)
| OpUpdate (repoID id : Z) (title description : string) (now : Z).

Definition run_mr_op (op : MROp) (db : DB) : option error * DB :=
  match op with
  | OpClose repoID id closedBy now => CloseMergeRequest db repoID id closedBy now
  | OpReopen repoID id now => ReopenMergeRequest db repoID id now
  | OpMerge repoID id mergedBy now => MergeMergeRequest db repoID id mergedBy now
  | OpUpdate repoID id title description now =>
      UpdateMergeRequest db repoID id title description now
  end.

(** A sequence of operations, each on the database the previous one left. *)
Definition run_mr_ops (ops : list MROp) (db : DB) : DB :=
  fold_left (fun d op => snd (run_mr_op op d)) ops db.

(** Row [m'] is row [m] later on: same key, and if [m] was Merged then [m']
    is Merged with the same [mergedBy] and [mergedAt]. *)
Definition merged_kept (m m' : MergeRequest) : Prop :=
  mID m' = mID m /\ mRepoID m' = mRepoID m /\
  (mState m = MergeRequestStateMerged ->
   mState m' = MergeRequestStateMerged /\
   mMergedBy m' = mMergedBy m /\ mMergedAt m' = mMergedAt m).

(** Row [m'] differs from [m] in [mergedBy] or [mergedAt] only if [op] is the
    merge of that very row, found Open and left Merged. *)
Definition merged_written_by_merge_only (op : MROp) (m m' : MergeRequest) : Prop :=
  (mMergedBy m' <> mMergedBy m \/ mMergedAt m' <> mMergedAt m) ->
  exists mergedBy now,
    op = OpMerge (mRepoID m) (mID m) mergedBy now /\
    mState m = MergeRequestStateOpen /\ mState m' = MergeRequestStateMerged /\
    mMergedBy m' = Some mergedBy /\ mMergedAt m' = Some now.

(** What the merge of [(repoID, id)] by [mergedBy] at [now] does to a row:
    a row at that key that is Open becomes row [m'], which is Merged with
    [mergedBy] the actor and [mergedAt] now, the other columns kept but
    [updated_at]. *)
Definition merged_by_merge (repoID id mergedBy now : Z) (m m' : MergeRequest) : Prop :=
  mRepoID m = repoID -> mID m = id -> mState m = MergeRequestStateOpen ->
  mState m' = MergeRequestStateMerged /\
  mMergedBy m' = Some mergedBy /\ mMergedAt m' = Some now /\
  mID m' = mID m /\ mRepoID m' = mRepoID m /\
  mTitle m' = mTitle m /\ mDescription m' = mDescription m /\
  mSourceBranch m' = mSourceBranch m /\ mTargetBranch m' = mTargetBranch m /\
  mAuthorID m' = mAuthorID m /\ mClosedBy m' = mClosedBy m /\
  mClosedAt m' = mClosedAt m /\ mCreatedAt m' = mCreatedAt m.

(** Whether [needle] occurs in [s]. *)
Definition occurs (needle s : string) : bool :=
  match String.index 0 needle s with
  | Some _ => true
  | None => false
  end.

(** A collaborator in which every git command succeeds. *)
Definition git_always_ok : list string -> GitRepository -> option error :=
  fun _ _ => None.

(** A collaborator in which [git checkout] fails. *)
Definition git_checkout_fails : list string -> GitRepository -> option error :=
  fun args _ => match args with
                | "checkout" :: _ => Some (ErrorString "exit status 1")
                | _ => None
                end.

(** A collaborator in which [git merge] fails. *)
Definition git_merge_fails : list string -> GitRepository -> option error :=
  fun args _ => match args with
                | "merge" :: _ => Some (ErrorString "exit status 1")
                | _ => None
                end.

(** A concurrent caller that closes merge request 1 of repository 1 as user
    8 at time 39. *)
Definition concurrent_close : DB -> DB :=
  fun d => snd (CloseMergeRequest d 1 1 8 39).

(** Every issue and every merge request belongs to a repository row, and
    every edge joins two issue rows. *)
Definition ref_integrity (db : DB) : Prop :=
  (forall i, In i (issues db) -> repo_exists db (iRepoID i) = true) /\
  (forall m, In m (merge_requests db) -> repo_exists db (mRepoID m) = true) /\
  (forall d, In d (issue_dependencies db) ->
             issue_exists db (dIssueID d) = true /\
             issue_exists db (dDependsOnID d) = true).

(** The statements that change the tables: those of the two stores, and the
    removal of a repository. *)
Inductive StoreOp : Type :=
| SCreateIssue (repoID authorID : Z) (title description : string) (now : Z)
| SUpdateIssue (repoID id : Z) (title description : string) (now : Z)
| SCloseIssue (repoID id closedBy now : Z)
| SReopenIssue (repoID id now : Z)
| SDeleteIssue (repoID id : Z)
| SAddIssueDependency (repoID issueID dependsOnID now : Z)
| SRemoveIssueDependency (repoID issueID dependsOnID : Z)
| SCreateMergeRequest (repoID authorID : Z) (title description source target : string)
                      (now : Z)
| SMergeRequestOp (op : MROp)
| SDeleteMergeRequest (repoID id : Z)
| SDeleteRepo (repoID : Z).

Definition run_store_op (op : StoreOp) (db : DB) : DB :=
  match op with
  | SCreateIssue repoID authorID title description now =>
      snd (CreateIssue db repoID authorID title description now)
  | SUpdateIssue repoID id title description now =>
      snd (UpdateIssue db repoID id title description now)
  | SCloseIssue repoID id closedBy now => snd (CloseIssue db repoID id closedBy now)
  | SReopenIssue repoID id now => snd (ReopenIssue db repoID id now)
  | SDeleteIssue repoID id => snd (DeleteIssue db repoID id)
  | SAddIssueDependency repoID issueID dependsOnID now =>
      snd (AddIssueDependency db repoID issueID dependsOnID now)
  | SRemoveIssueDependency repoID issueID dependsOnID =>
      snd (RemoveIssueDependency db repoID issueID dependsOnID)
  | SCreateMergeRequest repoID authorID title description source target now =>
      snd (CreateMergeRequest db repoID authorID title description source target now)
  | SMergeRequestOp op => snd (run_mr_op op db)
  | SDeleteMergeRequest repoID id => snd (DeleteMergeRequest db repoID id)
  | SDeleteRepo repoID => DeleteRepo db repoID
  end.

Definition run_store_ops (ops : list StoreOp) (db : DB) : DB :=
  fold_left (fun d op => run_store_op op d) ops db.

(** Two repositories, each with two issues, one merge request and one edge:
    issue 1 depends on issue 2 in repository 1, issue 3 on issue 4 in
    repository 2. *)
Definition sample_db_edges : DB :=
  mkDB [mkRepo 1 "soft"; mkRepo 2 "serve"] [alice; bob]
       [mkIssue 1 1 "Fix bug" "crash" IssueStateClosed 7 (Some 7) (Some 20) 10 20;
        mkIssue 2 1 "Add docs" "readme" IssueStateOpen 8 None None 11 11;
        mkIssue 3 2 "Port" "to arm" IssueStateOpen 7 None None 12 12;
        mkIssue 4 2 "Bench" "speed" IssueStateOpen 7 None None 13 13]
       [mkMergeRequest 1 1 "Feature" "adds it" "feature" "main" MergeRequestStateOpen 7
                       None None None None 12 12;
        mkMergeRequest 2 2 "Hotfix" "fixes it" "hotfix" "main" MergeRequestStateOpen 8
                       None None None None 13 13]
       [mkIssueDependency 1 1 2 14; mkIssueDependency 2 3 4 15]
       4 2 2.

(** A list of rows is in the order of [ORDER BY created_at DESC]. *)
Definition newest_first {A : Type} (createdAt : A -> Z) (l : list A) : Prop :=
  StronglySorted (fun a b => createdAt b <= createdAt a) l.

(** Primary keys: in each of the three tables the ids are pairwise distinct
    and none is above the table's [AUTOINCREMENT] counter. *)
Definition keys_ok (db : DB) : Prop :=
  NoDup (map iID (issues db)) /\
  (forall i, In i (issues db) -> iID i <= seq_issues db) /\
  NoDup (map mID (merge_requests db)) /\
  (forall m, In m (merge_requests db) -> mID m <= seq_merge_requests db) /\
  NoDup (map dID (issue_dependencies db)) /\
  (forall d, In d (issue_dependencies db) -> dID d <= seq_issue_dependencies db).

(** The audit columns of an issue agree with its state: an Open issue has
    neither [closed_by] nor [closed_at], a Closed one has both. *)
Definition issue_audit_ok (i : Issue) : Prop :=
  (iState i = IssueStateOpen /\ iClosedBy i = None /\ iClosedAt i = None) \/
  (iState i = IssueStateClosed /\ iClosedBy i <> None /\ iClosedAt i <> None).

(** The audit columns of a merge request agree with its state. *)
Definition mr_audit_ok (m : MergeRequest) : Prop :=
  (mState m = MergeRequestStateOpen /\
   mMergedBy m = None /\ mMergedAt m = None /\ mClosedBy m = None /\ mClosedAt m = None) \/
  (mState m = MergeRequestStateMerged /\
   mMergedBy m <> None /\ mMergedAt m <> None /\ mClosedBy m = None /\ mClosedAt m = None) \/
  (mState m = MergeRequestStateClosed /\
   mMergedBy m = None /\ mMergedAt m = None /\ mClosedBy m <> None /\ mClosedAt m <> None).

Definition audit_ok (db : DB) : Prop :=
  Forall issue_audit_ok (issues db) /\ Forall mr_audit_ok (merge_requests db).

(** The repository of issue [id], if the issue exists. *)
Definition repo_of_issue (db : DB) (id : Z) : option Z :=
  option_map iRepoID (find (fun i => iID i =? id) (issues db)).

(** The edges are pairwise distinct as pairs, none joins an issue to itself,
    and each joins two issues of one repository. *)
Definition edges_ok (db : DB) : Prop :=
  NoDup (map (fun d => (dIssueID d, dDependsOnID d)) (issue_dependencies db)) /\
  (forall d, In d (issue_dependencies db) ->
     dIssueID d <> dDependsOnID d /\
     exists r, repo_of_issue db (dIssueID d) = Some r /\
               repo_of_issue db (dDependsOnID d) = Some r).

(** ** Tables: rewriting and counting *)

Section Tables.
Context {A : Type}.
Implicit Types (p : A -> bool) (f : A -> A) (t : list A).

Lemma rows_matched_nonneg p t : 0 <= rows_matched p t.
Proof. unfold rows_matched. lia. Qed.

Lemma rows_matched_zero p t : rows_matched p t = 0 <-> existsb p t = false.
Proof.
  unfold rows_matched. induction t as [|x t IH]; simpl.
  - split; reflexivity.
  - destruct (p x); simpl.
    + split; [lia | discriminate].
    + exact IH.
Qed.

Lemma update_where_unmatched p f t : existsb p t = false -> update_where p f t = t.
Proof.
  unfold update_where. induction t as [|x t IH]; simpl; intros H.
  - reflexivity.
  - apply orb_false_iff in H. destruct H as [Hx Ht].
    rewrite Hx, (IH Ht). reflexivity.
Qed.

Lemma update_where_length p f t : List.length (update_where p f t) = List.length t.
Proof. unfold update_where. apply length_map. Qed.

Lemma update_where_Forall2 p f t :
  Forall2 (fun r r' => r' = if p r then f r else r) t (update_where p f t).
Proof.
  unfold update_where. induction t as [|x t IH]; simpl; constructor; auto.
Qed.

Lemma find_update_where p q f t :
  (forall r, q (if p r then f r else r) = q r) ->
  find q (update_where p f t) = option_map (fun r => if p r then f r else r) (find q t).
Proof.
  intros Hq. unfold update_where. induction t as [|x t IH]; simpl.
  - reflexivity.
  - rewrite Hq. destruct (q x); simpl; [reflexivity | exact IH].
Qed.

End Tables.

Lemma with_issues_same db : with_issues db (issues db) (seq_issues db) = db.
Proof. destruct db; reflexivity. Qed.

Lemma with_merge_requests_same db :
  with_merge_requests db (merge_requests db) (seq_merge_requests db) = db.
Proof. destruct db; reflexivity. Qed.

(** ** Guarded transitions *)

(** C1, as amended.  A guarded transition (close or reopen an issue; close,
    reopen or merge a merge request) whose conditional update matches zero
    rows returns no error and leaves the database as it was: the store
    discards the affected-row count, so the caller sees success. *)
Theorem guarded_transition_zero_rows_succeeds :
  forall (t : Transition) (db : DB) (repoID id actor now : Z),
    transition_rows t db repoID id = 0 ->
    run_transition t db repoID id actor now = (None, db).
Proof.
  intros t db repoID id actor now H.
  destruct t; simpl in H; apply rows_matched_zero in H;
    unfold run_transition, CloseIssue, ReopenIssue, CloseMergeRequest,
      ReopenMergeRequest, MergeMergeRequest;
    rewrite ?H; simpl; rewrite update_where_unmatched by exact H;
    rewrite ?with_issues_same, ?with_merge_requests_same; reflexivity.
Qed.

Lemma guarded_transition_zero_rows_succeeds_witness :
  transition_rows TCloseIssue sample_db 1 1 = 0 /\
  run_transition TCloseIssue sample_db 1 1 8 40 = (None, sample_db).
Proof.
  split.
  - reflexivity.
  - apply (guarded_transition_zero_rows_succeeds TCloseIssue sample_db 1 1 8 40).
    reflexivity.
Defined.

(** C1, as stated, fails: closing the already closed issue 1 and reopening
    the already open issue 2 match zero rows, and neither call returns an
    error. *)
Lemma close_closed_reopen_open_return_no_error :
  (exists i, GetIssueByID sample_db 1 1 = Ok i /\ iState i = IssueStateClosed) /\
  (exists i, GetIssueByID sample_db 1 2 = Ok i /\ iState i = IssueStateOpen) /\
  ~ (exists e, fst (CloseIssue sample_db 1 1 8 40) = Some e) /\
  ~ (exists e, fst (ReopenIssue sample_db 1 2 40) = Some e).
Proof.
  split; [eexists; split; reflexivity |].
  split; [eexists; split; reflexivity |].
  split; intros [e He]; discriminate He.
Qed.

(** ** Update *)

Lemma Forall2_update_where {A : Type} (R : A -> A -> Prop) (p : A -> bool) (f : A -> A)
    (t : list A) :
  (forall r, p r = true -> R r (f r)) -> (forall r, p r = false -> R r r) ->
  Forall2 R t (update_where p f t).
Proof.
  intros Hyes Hno. unfold update_where.
  induction t as [|x t IH]; simpl; constructor; auto.
  destruct (p x) eqn:E; auto.
Qed.

(** C4, as amended.  [update(repoId, id, title, description)] on an issue or
    on a merge request never returns an error: when no row matches both
    [repoId] and [id] it succeeds and leaves the database as it was; a row
    that matches has its title and description rewritten and [updated_at]
    bumped, and keeps its state and audit columns; every other row and every
    other table is unchanged. *)
Theorem update_rewrites_text_and_never_fails :
  forall (db : DB) (repoID id : Z) (title description : string) (now : Z),
    (fst (UpdateIssue db repoID id title description now) = None /\
     (rows_matched (issue_at repoID id) (issues db) = 0 ->
      snd (UpdateIssue db repoID id title description now) = db) /\
     Forall2 (fun i i' => if issue_at repoID id i
                          then issue_text_rewritten title description now i i'
                          else i' = i)
             (issues db) (issues (snd (UpdateIssue db repoID id title description now))) /\
     merge_requests (snd (UpdateIssue db repoID id title description now))
       = merge_requests db /\
     issue_dependencies (snd (UpdateIssue db repoID id title description now))
       = issue_dependencies db)
    /\
    (fst (UpdateMergeRequest db repoID id title description now) = None /\
     (rows_matched (mr_at repoID id) (merge_requests db) = 0 ->
      snd (UpdateMergeRequest db repoID id title description now) = db) /\
     Forall2 (fun m m' => if mr_at repoID id m
                          then mr_text_rewritten title description now m m'
                          else m' = m)
             (merge_requests db)
             (merge_requests (snd (UpdateMergeRequest db repoID id title description now))) /\
     issues (snd (UpdateMergeRequest db repoID id title description now)) = issues db).
Proof.
  intros db repoID id title description now. split.
  - unfold UpdateIssue; simpl. repeat split.
    + intros H. apply rows_matched_zero in H.
      rewrite update_where_unmatched by exact H. apply with_issues_same.
    + apply Forall2_update_where; intros r Hr; rewrite Hr.
      * unfold issue_text_rewritten; simpl; repeat split.
      * reflexivity.
  - unfold UpdateMergeRequest; simpl. repeat split.
    + intros H. apply rows_matched_zero in H.
      rewrite update_where_unmatched by exact H. apply with_merge_requests_same.
    + apply Forall2_update_where; intros r Hr; rewrite Hr.
      * unfold mr_text_rewritten; simpl; repeat split.
      * reflexivity.
Qed.

(** C4, as stated, fails: repository 1 has no issue 99 and no merge request
    99; both updates match zero rows and neither returns an error. *)
Lemma update_missing_row_returns_no_error :
  GetIssueByID sample_db 1 99 = Err ErrNoRows /\
  GetMergeRequestByID sample_db 1 99 = Err ErrNoRows /\
  ~ (exists e, fst (UpdateIssue sample_db 1 99 "New title" "New text" 40) = Some e) /\
  ~ (exists e, fst (UpdateMergeRequest sample_db 1 99 "New title" "New text" 40) = Some e).
Proof.
  split; [reflexivity |]. split; [reflexivity |].
  split; intros [e He]; discriminate He.
Qed.

(** ** Create *)

(** C5, as amended.  [create] does not look at the title: for every title,
    the empty one included, when the repository and the author exist it
    inserts one new row whose state is Open, whose audit columns are null and
    whose [created_at] and [updated_at] are now, and returns the generated id;
    this holds for issues and for merge requests. *)
Theorem create_inserts_open_row_for_any_title :
  forall (db : DB) (repoID authorID : Z) (title description source target : string)
         (now : Z),
    repo_exists db repoID = true ->
    user_exists db authorID = true ->
    (exists row,
        CreateIssue db repoID authorID title description now
          = (Ok (iID row), with_issues db (issues db ++ [row]) (iID row)) /\
        iID row = seq_issues db + 1 /\ iRepoID row = repoID /\ iAuthorID row = authorID /\
        iTitle row = title /\ iDescription row = description /\
        iState row = IssueStateOpen /\ iClosedBy row = None /\ iClosedAt row = None /\
        iCreatedAt row = now /\ iUpdatedAt row = now)
    /\
    (exists row,
        CreateMergeRequest db repoID authorID title description source target now
          = (Ok (mID row), with_merge_requests db (merge_requests db ++ [row]) (mID row)) /\
        mID row = seq_merge_requests db + 1 /\ mRepoID row = repoID /\
        mAuthorID row = authorID /\ mTitle row = title /\ mDescription row = description /\
        mSourceBranch row = source /\ mTargetBranch row = target /\
        mState row = MergeRequestStateOpen /\
        mMergedBy row = None /\ mMergedAt row = None /\
        mClosedBy row = None /\ mClosedAt row = None /\
        mCreatedAt row = now /\ mUpdatedAt row = now).
Proof.
  intros db repoID authorID title description source target now Hrepo Huser.
  split.
  - eexists (mkIssue _ _ _ _ _ _ _ _ _ _).
    unfold CreateIssue. rewrite Hrepo, Huser. simpl.
    repeat split; reflexivity.
  - eexists (mkMergeRequest _ _ _ _ _ _ _ _ _ _ _ _ _ _).
    unfold CreateMergeRequest. rewrite Hrepo, Huser. simpl.
    repeat split; reflexivity.
Qed.

Lemma create_inserts_open_row_for_any_title_witness :
  exists row,
    CreateIssue sample_db 1 7 EmptyString "no title" 40
      = (Ok (iID row), with_issues sample_db (issues sample_db ++ [row]) (iID row)) /\
    iTitle row = EmptyString /\ iState row = IssueStateOpen.
Proof.
  destruct (create_inserts_open_row_for_any_title
              sample_db 1 7 EmptyString "no title" "feature" "main" 40
              eq_refl eq_refl) as [[row Hrow] _].
  exists row. repeat split; apply Hrow.
Defined.

(** C5, as stated, fails: with an empty title the store call and the facade
    call both return the new id 3 and insert the row, instead of failing. *)
Lemma create_with_empty_title_succeeds :
  CreateIssue sample_db 1 7 EmptyString "no title" 40
    = (Ok 3,
       with_issues sample_db
         (issues sample_db
            ++ [mkIssue 3 1 EmptyString "no title" IssueStateOpen 7 None None 40 40]) 3) /\
  fst (Backend.CreateIssue (fun s => s) (fun e => e) (Backend.mkContext (Some alice))
         "soft" EmptyString "no title" 40 sample_world) = Ok 3 /\
  ~ (exists e, fst (Backend.CreateIssue (fun s => s) (fun e => e)
                      (Backend.mkContext (Some alice))
                      "soft" EmptyString "no title" 40 sample_world) = Err e).
Proof.
  split; [reflexivity |]. split; [reflexivity |].
  intros [e He]. discriminate He.
Qed.

(** ** Close and reopen *)

Lemma issue_at_of_state repoID id st i :
  issue_at repoID id i = true -> iState i = st -> issue_at_state repoID id st i = true.
Proof.
  unfold issue_at, issue_at_state. intros H Hst. rewrite H, Hst, Z.eqb_refl. reflexivity.
Qed.

Lemma GetIssueByID_update_where db repoID id p f s :
  (forall r, issue_at repoID id (f r) = issue_at repoID id r) ->
  GetIssueByID (with_issues db (update_where p f (issues db)) s) repoID id
  = match GetIssueByID db repoID id with
    | Ok i => Ok (if p i then f i else i)
    | Err e => Err e
    end.
Proof.
  intros Hf. unfold GetIssueByID; simpl.
  rewrite find_update_where.
  - destruct (find (issue_at repoID id) (issues db)); reflexivity.
  - intros r. destruct (p r); [apply Hf | reflexivity].
Qed.

(** C8.  For an issue that is Open, [close(actor)] by an existing user
    followed by [reopen()] both succeed; in between the issue is Closed with
    [closedBy = actor]; afterwards it is Open again with [closedBy] and
    [closedAt] null, and its id, repository, title, description, author and
    creation time are those it had before. *)
Theorem reopen_after_close_restores_open :
  forall (db : DB) (repoID id actor t1 t2 : Z) (i : Issue),
    GetIssueByID db repoID id = Ok i ->
    iState i = IssueStateOpen ->
    user_exists db actor = true ->
    fst (CloseIssue db repoID id actor t1) = None /\
    fst (ReopenIssue (snd (CloseIssue db repoID id actor t1)) repoID id t2) = None /\
    (exists c,
        GetIssueByID (snd (CloseIssue db repoID id actor t1)) repoID id = Ok c /\
        iState c = IssueStateClosed /\ iClosedBy c = Some actor /\ iClosedAt c = Some t1) /\
    (exists i',
        GetIssueByID (snd (ReopenIssue (snd (CloseIssue db repoID id actor t1)) repoID id t2))
                     repoID id = Ok i' /\
        iState i' = IssueStateOpen /\ iClosedBy i' = None /\ iClosedAt i' = None /\
        iID i' = iID i /\ iRepoID i' = iRepoID i /\ iTitle i' = iTitle i /\
        iDescription i' = iDescription i /\ iAuthorID i' = iAuthorID i /\
        iCreatedAt i' = iCreatedAt i).
Proof.
  intros db repoID id actor t1 t2 i Hget Hopen Huser.
  assert (Hat : issue_at repoID id i = true).
  { unfold GetIssueByID in Hget.
    destruct (find (issue_at repoID id) (issues db)) as [x|] eqn:E; [|discriminate].
    injection Hget as ->. apply (find_some _ _ E). }
  assert (Hguard : issue_at_state repoID id IssueStateOpen i = true)
    by (apply issue_at_of_state; assumption).
  unfold CloseIssue. rewrite Huser, andb_false_r. simpl.
  split; [reflexivity |]. split; [reflexivity |].
  assert (Hclosed :
    GetIssueByID
      (with_issues db
         (update_where (issue_at_state repoID id IssueStateOpen)
                       (set_issue_closed actor t1) (issues db)) (seq_issues db))
      repoID id = Ok (set_issue_closed actor t1 i)).
  { rewrite GetIssueByID_update_where by (intros r; reflexivity).
    rewrite Hget, Hguard. reflexivity. }
  split.
  - exists (set_issue_closed actor t1 i). rewrite Hclosed. repeat split.
  - exists (set_issue_open t2 (set_issue_closed actor t1 i)).
    unfold ReopenIssue; simpl snd.
    set (db1 := with_issues db _ _) in *.
    change (seq_issues db1) with (seq_issues db).
    rewrite (GetIssueByID_update_where db1 repoID id) by (intros r; reflexivity).
    rewrite Hclosed.
    assert (Hg2 : issue_at_state repoID id IssueStateClosed (set_issue_closed actor t1 i)
                  = true) by (apply issue_at_of_state; [exact Hat | reflexivity]).
    rewrite Hg2. repeat split.
Qed.

Lemma reopen_after_close_restores_open_witness :
  exists i',
    GetIssueByID (snd (ReopenIssue (snd (CloseIssue sample_db 1 2 7 40)) 1 2 41)) 1 2
      = Ok i' /\
    iState i' = IssueStateOpen /\ iClosedBy i' = None /\ iClosedAt i' = None.
Proof.
  destruct (reopen_after_close_restores_open sample_db 1 2 7 40 41
              (mkIssue 2 1 "Add docs" "readme" IssueStateOpen 8 None None 11 11)
              eq_refl eq_refl eq_refl) as (_ & _ & _ & i' & H).
  exists i'. repeat split; apply H.
Defined.

(** ** Self-dependency *)

Section Keys.
Context {A : Type}.
Variable key : A -> Z.

Lemma filter_key_absent (a : Z) (t : list A) :
  ~ In a (map key t) -> filter (fun x => key x =? a) t = [].
Proof.
  induction t as [|x t IH]; simpl; intros H.
  - reflexivity.
  - destruct (key x =? a) eqn:E.
    + apply Z.eqb_eq in E. exfalso. apply H. left. exact E.
    + apply IH. intros Hin. apply H. right. exact Hin.
Qed.

(** A primary key selects at most one row. *)
Lemma primary_key_selects_at_most_one (a : Z) (t : list A) :
  NoDup (map key t) -> (List.length (filter (fun x => (key x =? a)%Z) t) <= 1)%nat.
Proof.
  induction t as [|x t IH]; simpl; intros Hnd.
  - auto.
  - inversion Hnd as [|k ks Hnotin Hnd' Heq]; subst.
    destruct (key x =? a) eqn:E.
    + apply Z.eqb_eq in E. rewrite E in Hnotin.
      rewrite (filter_key_absent a t Hnotin). simpl. auto.
    + apply IH. exact Hnd'.
Qed.

Lemma filter_length_mono (p q : A -> bool) (t : list A) :
  (forall x, p x = true -> q x = true) ->
  (List.length (filter p t) <= List.length (filter q t))%nat.
Proof.
  intros Hpq. induction t as [|x t IH]; simpl.
  - auto.
  - destruct (p x) eqn:Ep.
    + rewrite (Hpq x Ep). simpl. apply le_n_S. exact IH.
    + destruct (q x); simpl; auto.
Qed.

End Keys.

(** C6, on the code.  With [id] the primary key of [issues], a self-edge
    [addDependency(repoId, a, a)] always ends in the existence check: the
    count of rows with [id = a OR id = a] is at most 1, never 2, so the call
    returns [sql.ErrNoRows] and inserts nothing, whether or not issue [a]
    exists; the [no_self_dependency] check of the schema is not reached. *)
Theorem self_dependency_returns_no_rows :
  forall (db : DB) (repoID issueID now : Z),
    NoDup (map iID (issues db)) ->
    AddIssueDependency db repoID issueID issueID now = (Some ErrNoRows, db).
Proof.
  intros db repoID issueID now Hpk. unfold AddIssueDependency.
  set (count := rows_matched _ _).
  assert (Hle : count <= 1).
  { unfold count, rows_matched.
    pose proof (primary_key_selects_at_most_one iID issueID (issues db) Hpk) as H1.
    pose proof (filter_length_mono
                  (fun i => (iRepoID i =? repoID)
                            && ((iID i =? issueID) || (iID i =? issueID)))
                  (fun i => iID i =? issueID) (issues db)) as H2.
    assert (Hpq : forall x : Issue,
               (iRepoID x =? repoID) && ((iID x =? issueID) || (iID x =? issueID)) = true ->
               (iID x =? issueID) = true).
    { intros x Hx. apply andb_true_iff in Hx. destruct Hx as [_ Hx].
      apply orb_true_iff in Hx. destruct Hx; assumption. }
    specialize (H2 Hpq). lia. }
  destruct (count =? 2) eqn:E.
  - apply Z.eqb_eq in E. lia.
  - reflexivity.
Qed.

Lemma sample_db_primary_key : NoDup (map iID (issues sample_db)).
Proof.
  simpl. repeat constructor; simpl; intuition discriminate.
Qed.

Lemma self_dependency_returns_no_rows_witness :
  NoDup (map iID (issues sample_db)) /\
  AddIssueDependency sample_db 1 2 2 40 = (Some ErrNoRows, sample_db).
Proof.
  split.
  - exact sample_db_primary_key.
  - apply (self_dependency_returns_no_rows sample_db 1 2 40). exact sample_db_primary_key.
Defined.

(** Issue 2 exists in repository 1; the self-edge on it fails with the very
    error an edge to the missing issue 99 fails with. *)
Lemma self_dependency_on_existing_issue :
  (exists i, GetIssueByID sample_db 1 2 = Ok i) /\
  fst (AddIssueDependency sample_db 1 2 2 40) = Some ErrNoRows /\
  fst (AddIssueDependency sample_db 1 2 99 40) = Some ErrNoRows /\
  fst (AddIssueDependency sample_db 1 2 1 40) = None.
Proof.
  split; [eexists; reflexivity |]. repeat split; reflexivity.
Qed.

(** ** Merged is terminal *)

Section Rows.
Context {A : Type}.
Variable R : A -> A -> Prop.

Lemma Forall2_same (t : list A) : (forall x, R x x) -> Forall2 R t t.
Proof. intros Hrefl. induction t; constructor; auto. Qed.

Lemma Forall2_chain (t1 t2 t3 : list A) :
  (forall x y z, R x y -> R y z -> R x z) ->
  Forall2 R t1 t2 -> Forall2 R t2 t3 -> Forall2 R t1 t3.
Proof.
  intros Htrans H12. revert t3.
  induction H12 as [|x y l1 l2 Hxy _ IH]; intros t3 H23.
  - inversion H23. constructor.
  - inversion H23 as [|y' z l2' l3 Hyz Hrest]; subst.
    constructor; [eapply Htrans; eassumption | apply IH; assumption].
Qed.

End Rows.

Lemma mr_at_state_inv repoID id st m :
  mr_at_state repoID id st m = true -> mRepoID m = repoID /\ mID m = id /\ mState m = st.
Proof.
  unfold mr_at_state. intros H.
  apply andb_true_iff in H. destruct H as [H Hst].
  apply andb_true_iff in H. destruct H as [Hr Hi].
  apply Z.eqb_eq in Hr, Hi, Hst. auto.
Qed.

Lemma merged_kept_same m : merged_kept m m.
Proof. unfold merged_kept. auto. Qed.

Lemma merged_kept_chain m1 m2 m3 : merged_kept m1 m2 -> merged_kept m2 m3 -> merged_kept m1 m3.
Proof.
  unfold merged_kept. intros (Hi & Hr & H12) (Hi' & Hr' & H23).
  split; [congruence |]. split; [congruence |].
  intros Hm. destruct (H12 Hm) as (Hs & Hb & Ha).
  destruct (H23 Hs) as (Hs' & Hb' & Ha'). repeat split; congruence.
Qed.

Ltac guarded_rows :=
  apply Forall2_update_where;
  [ let r := fresh "r" in
    let Hr := fresh "Hr" in
    intros r Hr; apply mr_at_state_inv in Hr; destruct Hr as (? & ? & ?)
  | intros ? _ ].

Lemma run_mr_op_merged_kept op db :
  Forall2 merged_kept (merge_requests db) (merge_requests (snd (run_mr_op op db))).
Proof.
  destruct op as [repoID id closedBy now | repoID id now | repoID id mergedBy now
                  | repoID id title description now];
    unfold run_mr_op, CloseMergeRequest, ReopenMergeRequest, MergeMergeRequest,
      UpdateMergeRequest.
  - destruct (existsb _ _ && negb _); simpl.
    + apply Forall2_same, merged_kept_same.
    + guarded_rows; [| apply merged_kept_same].
      unfold merged_kept; simpl. repeat split.
      all: unfold MergeRequestStateOpen, MergeRequestStateMerged in *; congruence.
  - simpl. guarded_rows; [| apply merged_kept_same].
    unfold merged_kept; simpl. repeat split.
    all: unfold MergeRequestStateClosed, MergeRequestStateMerged in *; congruence.
  - destruct (existsb _ _ && negb _); simpl.
    + apply Forall2_same, merged_kept_same.
    + guarded_rows; [| apply merged_kept_same].
      unfold merged_kept; simpl. repeat split.
      all: unfold MergeRequestStateOpen, MergeRequestStateMerged in *; congruence.
  - simpl. apply Forall2_update_where; [intros r _ | intros r _; apply merged_kept_same].
    unfold merged_kept; simpl. auto.
Qed.

Lemma run_mr_op_written_by_merge_only op db :
  Forall2 (merged_written_by_merge_only op)
          (merge_requests db) (merge_requests (snd (run_mr_op op db))).
Proof.
  assert (Hsame : forall m, merged_written_by_merge_only op m m).
  { intros m [H | H]; exfalso; apply H; reflexivity. }
  destruct op as [repoID id closedBy now | repoID id now | repoID id mergedBy now
                  | repoID id title description now];
    unfold run_mr_op, CloseMergeRequest, ReopenMergeRequest, MergeMergeRequest,
      UpdateMergeRequest.
  - destruct (existsb _ _ && negb _); simpl.
    + apply Forall2_same, Hsame.
    + apply Forall2_update_where; [| intros; apply Hsame].
      intros r _ [H | H]; exfalso; apply H; reflexivity.
  - simpl. apply Forall2_update_where; [| intros; apply Hsame].
    intros r _ [H | H]; exfalso; apply H; reflexivity.
  - destruct (existsb _ _ && negb _); simpl.
    + apply Forall2_same, Hsame.
    + guarded_rows; [| apply Hsame].
      intros _. exists mergedBy, now. subst. repeat split; assumption.
  - simpl. apply Forall2_update_where; [| intros; apply Hsame].
    intros r _ [H | H]; exfalso; apply H; reflexivity.
Qed.

Lemma GetMergeRequestByID_update_where db repoID id p f s :
  (forall r, mr_at repoID id (f r) = mr_at repoID id r) ->
  GetMergeRequestByID (with_merge_requests db (update_where p f (merge_requests db)) s)
                      repoID id
  = match GetMergeRequestByID db repoID id with
    | Ok m => Ok (if p m then f m else m)
    | Err e => Err e
    end.
Proof.
  intros Hf. unfold GetMergeRequestByID; simpl.
  rewrite find_update_where.
  - destruct (find (mr_at repoID id) (merge_requests db)); reflexivity.
  - intros r. destruct (p r); [apply Hf | reflexivity].
Qed.

Lemma MergeMergeRequest_by_user db repoID id mergedBy now :
  user_exists db mergedBy = true ->
  MergeMergeRequest db repoID id mergedBy now
  = (None,
     with_merge_requests db
       (update_where (mr_at_state repoID id MergeRequestStateOpen)
                     (set_mr_merged mergedBy now) (merge_requests db))
       (seq_merge_requests db)).
Proof.
  intros Hu. unfold MergeMergeRequest. rewrite Hu, andb_false_r. reflexivity.
Qed.

Lemma run_mr_ops_merged_kept ops db :
  Forall2 merged_kept (merge_requests db) (merge_requests (run_mr_ops ops db)).
Proof.
  revert db. unfold run_mr_ops.
  induction ops as [|o ops IH]; intros db; simpl.
  - apply Forall2_same, merged_kept_same.
  - eapply Forall2_chain.
    + exact merged_kept_chain.
    + apply run_mr_op_merged_kept.
    + apply IH.
Qed.

(** A row that is read under a key is read under it later on, as the row
    that took its place. *)
Lemma find_merged_kept repoID id (t t' : list MergeRequest) (g : MergeRequest) :
  Forall2 merged_kept t t' ->
  find (mr_at repoID id) t = Some g ->
  exists g', find (mr_at repoID id) t' = Some g' /\ merged_kept g g'.
Proof.
  intros H. induction H as [|x y l l' Hxy _ IH]; simpl; intros Hf; [discriminate |].
  assert (Hat : mr_at repoID id y = mr_at repoID id x).
  { destruct Hxy as (Hi & Hr & _). unfold mr_at. rewrite Hi, Hr. reflexivity. }
  rewrite Hat. destruct (mr_at repoID id x).
  - inversion Hf; subst g. exists y. split; [reflexivity | exact Hxy].
  - apply IH. exact Hf.
Qed.

(** C7.  Close, reopen, merge and update, in any number and order, keep
    every merge request that is Merged in the state Merged with the
    [mergedBy] and [mergedAt] it has; and a single operation changes
    [mergedBy] or [mergedAt] of a row only when it is the merge of that row,
    found Open and left Merged with [mergedBy] the actor and [mergedAt] now.
    The merge does write them: merging a request that is read as Open, by an
    existing user, succeeds and leaves every Open row at that key Merged with
    [mergedBy] the actor and [mergedAt] now, its other columns kept; the
    request is read back so, and it is still read back so, with the same
    [mergedBy] and [mergedAt], after any further close, reopen, merge and
    update.  So the two columns are written once, by the Open -> Merged
    transition alone, and never again afterwards. *)
Theorem merged_is_terminal :
  forall (ops : list MROp) (op : MROp) (db : DB),
    Forall2 merged_kept (merge_requests db) (merge_requests (run_mr_ops ops db)) /\
    Forall2 (merged_written_by_merge_only op)
            (merge_requests db) (merge_requests (snd (run_mr_op op db))) /\
    (forall (repoID id mergedBy now : Z) (m : MergeRequest),
       GetMergeRequestByID db repoID id = Ok m ->
       mState m = MergeRequestStateOpen ->
       user_exists db mergedBy = true ->
       let merge := OpMerge repoID id mergedBy now in
       fst (run_mr_op merge db) = None /\
       Forall2 (merged_by_merge repoID id mergedBy now)
               (merge_requests db) (merge_requests (snd (run_mr_op merge db))) /\
       (exists g,
           GetMergeRequestByID (snd (run_mr_op merge db)) repoID id = Ok g /\
           mState g = MergeRequestStateMerged /\
           mMergedBy g = Some mergedBy /\ mMergedAt g = Some now) /\
       (exists g,
           GetMergeRequestByID (run_mr_ops ops (snd (run_mr_op merge db))) repoID id = Ok g /\
           mState g = MergeRequestStateMerged /\
           mMergedBy g = Some mergedBy /\ mMergedAt g = Some now)).
Proof.
  intros ops op db.
  split; [apply run_mr_ops_merged_kept |].
  split; [apply run_mr_op_written_by_merge_only |].
  intros repoID id mergedBy now m Hget Hopen Huser merge. unfold merge.
  cbn [run_mr_op].
  rewrite (MergeMergeRequest_by_user db repoID id mergedBy now Huser). cbn [fst snd].
  assert (Hat : mr_at_state repoID id MergeRequestStateOpen m = true).
  { unfold GetMergeRequestByID in Hget.
    destruct (find (mr_at repoID id) (merge_requests db)) as [x|] eqn:E; [| discriminate].
    inversion Hget; subst x. apply find_some in E. destruct E as [_ E].
    unfold mr_at in E. unfold mr_at_state. rewrite E, Hopen. reflexivity. }
  assert (Hback :
            GetMergeRequestByID
              (with_merge_requests db
                 (update_where (mr_at_state repoID id MergeRequestStateOpen)
                               (set_mr_merged mergedBy now) (merge_requests db))
                 (seq_merge_requests db)) repoID id
            = Ok (set_mr_merged mergedBy now m)).
  { rewrite GetMergeRequestByID_update_where by (intros r; reflexivity).
    rewrite Hget, Hat. reflexivity. }
  split; [reflexivity |]. split; [| split].
  - cbn [merge_requests with_merge_requests].
    apply Forall2_update_where.
    + intros r _ _ _ _. unfold merged_by_merge. simpl. repeat split; reflexivity.
    + intros r Hno Hr Hi Hs. exfalso.
      unfold mr_at_state in Hno. rewrite Hr, Hi, Hs, !Z.eqb_refl in Hno. discriminate.
  - exists (set_mr_merged mergedBy now m). split; [exact Hback |].
    simpl. repeat split; reflexivity.
  - unfold GetMergeRequestByID in Hback.
    match type of Hback with
    | context [find ?q (merge_requests ?d)] =>
        destruct (find q (merge_requests d)) as [x|] eqn:Ef; [| discriminate];
        destruct (find_merged_kept repoID id _ _ x (run_mr_ops_merged_kept ops d) Ef)
          as [g' [Hg' (_ & _ & Hkept)]]
    end.
    inversion Hback; subst x.
    destruct (Hkept eq_refl) as (Hs & Hb & Ha).
    exists g'. unfold GetMergeRequestByID. rewrite Hg'.
    split; [reflexivity |]. split; [exact Hs |].
    split; [rewrite Hb | rewrite Ha]; reflexivity.
Qed.

Lemma merged_is_terminal_witness :
  fst (run_mr_op (OpMerge 1 1 7 40) sample_db) = None /\
  exists g,
    GetMergeRequestByID
      (run_mr_ops [OpClose 1 1 8 41; OpReopen 1 1 42; OpMerge 1 1 8 43;
                   OpUpdate 1 1 "Renamed" "changed" 44]
                  (snd (run_mr_op (OpMerge 1 1 7 40) sample_db))) 1 1 = Ok g /\
    mState g = MergeRequestStateMerged /\ mMergedBy g = Some 7 /\ mMergedAt g = Some 40.
Proof.
  destruct (merged_is_terminal
              [OpClose 1 1 8 41; OpReopen 1 1 42; OpMerge 1 1 8 43;
               OpUpdate 1 1 "Renamed" "changed" 44]
              (OpMerge 1 1 7 40) sample_db) as (_ & _ & H).
  destruct (H 1 1 7 40
              (mkMergeRequest 1 1 "Feature" "adds it" "feature" "main"
                              MergeRequestStateOpen 7 None None None None 12 12)
              eq_refl eq_refl eq_refl) as (H1 & _ & _ & H4).
  split; [exact H1 | exact H4].
Defined.

(** On the sample data: merge request 2 is Merged by user 7 at time 30; a
    close, a reopen, a second merge by user 8 and an update all return no
    error and leave it Merged by user 7 at time 30. *)
Example merged_row_survives_every_operation :
  let db' := run_mr_ops [OpClose 1 2 8 40; OpReopen 1 2 41; OpMerge 1 2 8 42;
                         OpUpdate 1 2 "Renamed" "changed" 43] sample_db in
  exists m, GetMergeRequestByID db' 1 2 = Ok m /\
            mState m = MergeRequestStateMerged /\
            mMergedBy m = Some 7 /\ mMergedAt m = Some 30 /\ mTitle m = "Renamed".
Proof. eexists. repeat split. Qed.

(** ** The merge commands *)

(** C3, on the code.  When the checkout of the target branch succeeds,
    [performMerge] has run exactly two commands: the checkout of the target
    branch, then the merge of the source branch with [--no-ff] and the message
    [Merge branch '<source>' into '<target>']; the message names both
    branches, and neither the commands nor the result depend on the acting
    user handed in as [author]. *)
Theorem performMerge_commands_ignore_author :
  forall (git_fails : list string -> GitRepository -> option error)
         (repo : GitRepository) (sourceBranch targetBranch author : string),
    git_fails ["checkout"; targetBranch] repo = None ->
    history (snd (Backend.performMerge git_fails repo sourceBranch targetBranch author))
      = (history repo
         ++ [["checkout"; targetBranch];
             ["merge"; "--no-ff"; "-m";
              ("Merge branch '" ++ sourceBranch ++ "' into '" ++ targetBranch ++ "'")%string;
              sourceBranch]])%list /\
    forall author',
      Backend.performMerge git_fails repo sourceBranch targetBranch author'
      = Backend.performMerge git_fails repo sourceBranch targetBranch author.
Proof.
  intros git_fails repo sourceBranch targetBranch author Hco.
  split; [| reflexivity].
  unfold Backend.performMerge, Backend.RunInDir. rewrite Hco. clear Hco.
  match goal with
  | |- context [git_fails ?args ?r] => destruct (git_fails args r)
  end; simpl; rewrite <- app_assoc; reflexivity.
Qed.

Lemma performMerge_commands_ignore_author_witness :
  history (snd (Backend.performMerge git_always_ok sample_git "feature" "main" "alice"))
  = [["checkout"; "main"];
     ["merge"; "--no-ff"; "-m"; "Merge branch 'feature' into 'main'"; "feature"]].
Proof.
  apply (performMerge_commands_ignore_author git_always_ok sample_git
           "feature" "main" "alice").
  reflexivity.
Defined.

(** The merge of "feature" into "main" by "alice": the commit message is
    [Merge branch 'feature' into 'main'], and "alice" occurs in no argument
    of any command that was run. *)
Lemma merge_commit_message_omits_acting_user :
  Backend.commitMsg "feature" "main" = "Merge branch 'feature' into 'main'" /\
  occurs "feature" (Backend.commitMsg "feature" "main") = true /\
  occurs "main" (Backend.commitMsg "feature" "main") = true /\
  occurs "alice" (Backend.commitMsg "feature" "main") = false /\
  forallb (forallb (fun arg => negb (occurs "alice" arg)))
          (history (snd (Backend.performMerge git_always_ok sample_git
                           "feature" "main" "alice"))) = true.
Proof. repeat split; reflexivity. Qed.

(** ** Creating a merge request *)

Lemma mem_map_In {A : Type} (key : A -> Z) (x : A) (t : list A) :
  In x t -> mem (key x) (map key t) = true.
Proof.
  intros Hin. unfold mem. apply existsb_exists.
  exists (key x). split; [apply in_map; exact Hin | apply Z.eqb_refl].
Qed.

Lemma Repository_found repoName w r :
  Backend.Repository repoName w = (Ok r, w) -> repo_exists (Backend.db w) (rID r) = true.
Proof.
  unfold Backend.Repository, repo_exists. intros H.
  destruct (find _ (repos (Backend.db w))) as [r'|] eqn:E; [| discriminate].
  injection H as ->. apply mem_map_In. apply (find_some _ _ E).
Qed.

Lemma ShowRefVerify_ref gr ref :
  In ref (refs gr) -> Backend.ShowRefVerify gr ref = None.
Proof.
  intros Hin. unfold Backend.ShowRefVerify.
  assert (H : existsb (String.eqb ref) (refs gr) = true).
  { apply existsb_exists. exists ref. split; [exact Hin | apply String.eqb_refl]. }
  rewrite H. reflexivity.
Qed.

(** Creation succeeds as soon as both branches exist, whatever they are. *)
Lemma CreateMergeRequest_existing_branches
    (SanitizeRepo : string -> string) (WrapError : error -> error)
    (Quote : string -> string)
    ctx repoName title description sourceBranch targetBranch now w r user gr :
  Backend.Repository (SanitizeRepo repoName) w = (Ok r, w) ->
  Backend.ctxUser ctx = Some user ->
  user_exists (Backend.db w) (uID user) = true ->
  Backend.Open r w = (Ok gr, w) ->
  In ("refs/heads/" ++ sourceBranch)%string (refs gr) ->
  In ("refs/heads/" ++ targetBranch)%string (refs gr) ->
  Backend.CreateMergeRequest SanitizeRepo WrapError Quote ctx repoName title description
                             sourceBranch targetBranch now w
  = (Ok (seq_merge_requests (Backend.db w) + 1),
     Backend.mkWorld
       (with_merge_requests (Backend.db w)
          (merge_requests (Backend.db w)
             ++ [mkMergeRequest (seq_merge_requests (Backend.db w) + 1) (rID r)
                                title description sourceBranch targetBranch
                                MergeRequestStateOpen (uID user)
                                None None None None now now])
          (seq_merge_requests (Backend.db w) + 1))
       (Backend.git w)).
Proof.
  intros Hrepo Huser Hfk Hopen Hsrc Htgt.
  pose proof (Repository_found _ _ _ Hrepo) as Hrfk.
  unfold Backend.CreateMergeRequest, Backend.bind.
  rewrite Hrepo.
  unfold Backend.requireUser, Backend.UserFromContext. rewrite Huser.
  unfold Backend.ret. rewrite Hopen.
  rewrite (ShowRefVerify_ref _ _ Hsrc), (ShowRefVerify_ref _ _ Htgt).
  unfold Backend.wrapped, Backend.TransactionContext, CreateMergeRequest.
  rewrite Hrfk, Hfk. reflexivity.
Qed.

(** C9.  Creating a merge request does not compare the two branches: for a
    branch [b] of the repository, [CreateMergeRequest] with [sourceBranch =
    targetBranch = b], called by a known user on a repository that resolves
    and opens, passes both existence checks, inserts an Open merge request
    from [b] into [b] and returns its new id; and for any two existing
    branches the call succeeds in the same way, the two existence checks
    being the only conditions on the branch arguments. *)
Theorem create_merge_request_same_branch :
  forall (SanitizeRepo : string -> string) (WrapError : error -> error)
         (Quote : string -> string)
         (ctx : Backend.Context) (repoName title description b source target : string)
         (now : Z) (w : Backend.World) (r : Repo) (user : User) (gr : GitRepository),
    Backend.Repository (SanitizeRepo repoName) w = (Ok r, w) ->
    Backend.ctxUser ctx = Some user ->
    user_exists (Backend.db w) (uID user) = true ->
    Backend.Open r w = (Ok gr, w) ->
    In ("refs/heads/" ++ b)%string (refs gr) ->
    In ("refs/heads/" ++ source)%string (refs gr) ->
    In ("refs/heads/" ++ target)%string (refs gr) ->
    (Backend.ShowRefVerify gr ("refs/heads/" ++ b) = None /\
     fst (Backend.CreateMergeRequest SanitizeRepo WrapError Quote ctx repoName
            title description b b now w)
       = Ok (seq_merge_requests (Backend.db w) + 1) /\
     merge_requests (Backend.db (snd (Backend.CreateMergeRequest SanitizeRepo WrapError
                                        Quote ctx repoName title description b b now w)))
       = (merge_requests (Backend.db w)
            ++ [mkMergeRequest (seq_merge_requests (Backend.db w) + 1) (rID r)
                               title description b b
                               MergeRequestStateOpen (uID user)
                               None None None None now now])%list)
    /\
    fst (Backend.CreateMergeRequest SanitizeRepo WrapError Quote ctx repoName
           title description source target now w)
      = Ok (seq_merge_requests (Backend.db w) + 1).
Proof.
  intros SanitizeRepo WrapError Quote ctx repoName title description b source target
         now w r user gr Hrepo Huser Hfk Hopen Hb Hsrc Htgt.
  split; [split; [| split] |].
  - apply ShowRefVerify_ref. exact Hb.
  - rewrite (CreateMergeRequest_existing_branches SanitizeRepo WrapError Quote
               ctx repoName title description b b now w r user gr); auto.
  - rewrite (CreateMergeRequest_existing_branches SanitizeRepo WrapError Quote
               ctx repoName title description b b now w r user gr); auto.
  - rewrite (CreateMergeRequest_existing_branches SanitizeRepo WrapError Quote
               ctx repoName title description source target now w r user gr); auto.
Qed.

Lemma create_merge_request_same_branch_witness :
  fst (Backend.CreateMergeRequest (fun s => s) (fun e => e) (fun s => s)
         (Backend.mkContext (Some alice)) "soft" "Loop" "main into main"
         "main" "main" 40 sample_world) = Ok 3.
Proof.
  apply (create_merge_request_same_branch (fun s => s) (fun e => e) (fun s => s)
           (Backend.mkContext (Some alice)) "soft" "Loop" "main into main"
           "main" "main" "main" 40 sample_world (mkRepo 1 "soft") alice sample_git);
    try reflexivity; simpl; auto.
Defined.

(** ** The merge executor *)

Lemma MergeMergeRequest_zero_rows db repoID id mergedBy now :
  rows_matched (mr_at_state repoID id MergeRequestStateOpen) (merge_requests db) = 0 ->
  MergeMergeRequest db repoID id mergedBy now = (None, db).
Proof.
  intros H. apply rows_matched_zero in H. unfold MergeMergeRequest.
  rewrite H. simpl. rewrite update_where_unmatched by exact H.
  rewrite with_merge_requests_same. reflexivity.
Qed.

(** Reading a merge request leaves the world as it is. *)
Lemma GetMergeRequest_reads_only
    (SanitizeRepo : string -> string) (WrapError : error -> error) ctx repoName mrID w :
  snd (Backend.GetMergeRequest SanitizeRepo WrapError ctx repoName mrID w) = w.
Proof.
  unfold Backend.GetMergeRequest, Backend.bind, Backend.Repository.
  destruct (find _ (repos (Backend.db w))); [| reflexivity].
  unfold Backend.wrapped, Backend.TransactionContext.
  destruct (GetMergeRequestByID _ _ _); simpl; [destruct w |]; reflexivity.
Qed.

(** C2, as amended.  In the merge-execution protocol, if the repository and
    the acting user resolve, the merge request is read as Open, the external
    merge succeeds, and the guarded update Open -> Merged then matches zero
    rows because the state was changed in between, the operation returns
    plain success: no error is reported, the database is the one the
    concurrent change left (this call marks no merge request Merged), and the
    repository on disk is the one the completed merge left. *)
Theorem merge_not_recorded_returns_success :
  forall (SanitizeRepo : string -> string) (WrapError : error -> error)
         (git_fails : list string -> GitRepository -> option error)
         (concurrent : DB -> DB) (ctx : Backend.Context) (repoName : string)
         (mrID now : Z) (w : Backend.World)
         (r : Repo) (user : User) (mr : MergeRequest) (gr : GitRepository),
    Backend.Repository (SanitizeRepo repoName) w = (Ok r, w) ->
    Backend.ctxUser ctx = Some user ->
    fst (Backend.GetMergeRequest SanitizeRepo WrapError ctx (SanitizeRepo repoName) mrID w)
      = Ok mr ->
    mState mr = MergeRequestStateOpen ->
    Backend.Open r w = (Ok gr, w) ->
    fst (Backend.performMerge git_fails gr (mSourceBranch mr) (mTargetBranch mr)
                              (uUsername user)) = None ->
    rows_matched (mr_at_state (rID r) mrID MergeRequestStateOpen)
                 (merge_requests (concurrent (Backend.db w))) = 0 ->
    fst (Backend.MergeMergeRequestAmid SanitizeRepo WrapError git_fails concurrent
           ctx repoName mrID now w) = Ok tt /\
    Backend.db (snd (Backend.MergeMergeRequestAmid SanitizeRepo WrapError git_fails
                       concurrent ctx repoName mrID now w))
      = concurrent (Backend.db w) /\
    Backend.git (snd (Backend.MergeMergeRequestAmid SanitizeRepo WrapError git_fails
                        concurrent ctx repoName mrID now w))
      = Backend.git
          (snd (Backend.put_git r
                  (snd (Backend.performMerge git_fails gr (mSourceBranch mr)
                                             (mTargetBranch mr) (uUsername user))) w)).
Proof.
  intros SanitizeRepo WrapError git_fails concurrent ctx repoName mrID now w r user mr gr
         Hrepo Huser Hget Hstate Hopen Hmerge Hzero.
  unfold Backend.MergeMergeRequestAmid, Backend.bind.
  rewrite Hrepo.
  unfold Backend.requireUser, Backend.UserFromContext. rewrite Huser.
  unfold Backend.ret.
  pose proof (GetMergeRequest_reads_only SanitizeRepo WrapError ctx
                (SanitizeRepo repoName) mrID w) as Hw.
  destruct (Backend.GetMergeRequest SanitizeRepo WrapError ctx
              (SanitizeRepo repoName) mrID w) as [res w'].
  simpl in Hget, Hw. subst res w'.
  rewrite Hstate.
  change (negb (MergeRequestStateOpen =? MergeRequestStateOpen)) with false.
  cbv beta iota.
  rewrite Hopen.
  destruct (Backend.performMerge git_fails gr (mSourceBranch mr) (mTargetBranch mr)
                                 (uUsername user)) as [err gr'].
  simpl in Hmerge. subst err.
  unfold Backend.put_git, Backend.wrapped, Backend.TransactionContext, Backend.exec.
  simpl Backend.db.
  rewrite (MergeMergeRequest_zero_rows _ _ _ _ _ Hzero).
  simpl. auto.
Qed.

Lemma merge_not_recorded_returns_success_witness :
  fst (Backend.MergeMergeRequestAmid (fun s => s) (fun e => e) git_always_ok
         concurrent_close (Backend.mkContext (Some alice)) "soft" 1 40 sample_world)
  = Ok tt.
Proof.
  apply (merge_not_recorded_returns_success (fun s => s) (fun e => e) git_always_ok
           concurrent_close (Backend.mkContext (Some alice)) "soft" 1 40 sample_world
           (mkRepo 1 "soft") alice
           (mkMergeRequest 1 1 "Feature" "adds it" "feature" "main" MergeRequestStateOpen 7
                           None None None None 12 12)
           sample_git);
    reflexivity.
Defined.

(** C2, as stated, fails: user 7 merges merge request 1 while user 8 closes
    it between the read and the guarded update.  Git has merged "feature"
    into "main", the guarded update matches zero rows, the merge request
    stays Closed and unmerged, and the call returns no error at all. *)
Lemma merge_after_concurrent_close_reports_success :
  let result :=
    Backend.MergeMergeRequestAmid (fun s => s) (fun e => e) git_always_ok
      concurrent_close (Backend.mkContext (Some alice)) "soft" 1 40 sample_world in
  ~ (exists e, fst result = Err e) /\
  (exists m, GetMergeRequestByID (Backend.db (snd result)) 1 1 = Ok m /\
             mState m = MergeRequestStateClosed /\
             mMergedBy m = None /\ mMergedAt m = None) /\
  Backend.git (snd result)
  = [("soft",
      mkGitRepository "/repos/soft.git" ["refs/heads/main"; "refs/heads/feature"]
        [["checkout"; "main"];
         ["merge"; "--no-ff"; "-m"; "Merge branch 'feature' into 'main'"; "feature"]])].
Proof.
  split; [intros [e He]; discriminate He |].
  split; [eexists; repeat split | reflexivity].
Qed.

(** Without interference the same call records the merge. *)
Example merge_without_interference_is_recorded :
  let result :=
    Backend.MergeMergeRequest (fun s => s) (fun e => e) git_always_ok
      (Backend.mkContext (Some alice)) "soft" 1 40 sample_world in
  fst result = Ok tt /\
  exists m, GetMergeRequestByID (Backend.db (snd result)) 1 1 = Ok m /\
            mState m = MergeRequestStateMerged /\
            mMergedBy m = Some 7 /\ mMergedAt m = Some 40.
Proof. split; [reflexivity | eexists; repeat split]. Qed.

(** ** Referential integrity and the cascade *)

Lemma mem_In x ids : mem x ids = true <-> In x ids.
Proof.
  unfold mem. rewrite existsb_exists. split.
  - intros [y [Hin Heq]]. apply Z.eqb_eq in Heq. subst. exact Hin.
  - intros Hin. exists x. split; [exact Hin | apply Z.eqb_refl].
Qed.

Lemma mem_not_In x ids : mem x ids = false <-> ~ In x ids.
Proof.
  rewrite <- mem_In. destruct (mem x ids); split; intros H;
    try reflexivity; try discriminate; try (intros H'; discriminate H').
  exfalso. apply H. reflexivity.
Qed.

Lemma find_all_false {A : Type} (p : A -> bool) (t : list A) :
  (forall x, In x t -> p x = false) -> find p t = None.
Proof.
  induction t as [|x t IH]; simpl; intros H.
  - reflexivity.
  - rewrite (H x (or_introl eq_refl)). apply IH. intros y Hy. apply H. right. exact Hy.
Qed.

Lemma map_update_where {A B : Type} (key : A -> B) (p : A -> bool) (f : A -> A)
    (t : list A) :
  (forall r, key (f r) = key r) -> map key (update_where p f t) = map key t.
Proof.
  intros Hkey. unfold update_where. rewrite map_map. apply map_ext.
  intros r. destruct (p r); [apply Hkey | reflexivity].
Qed.

Lemma In_update_where {A : Type} (p : A -> bool) (f : A -> A) (t : list A) (y : A) :
  In y (update_where p f t) -> exists x, In x t /\ (y = x \/ y = f x).
Proof.
  unfold update_where. rewrite in_map_iff. intros [x [Hy Hx]].
  exists x. split; [exact Hx |]. destruct (p x); auto.
Qed.

(** An id that had a row and whose row was not removed still has a row. *)
Lemma kept_row_still_exists (p : Issue -> bool) (t : list Issue) (id : Z) :
  mem id (map iID t) = true ->
  mem id (map iID (filter p t)) = false ->
  mem id (map iID (delete_where p t)) = true.
Proof.
  intros Hin Hgone. apply mem_In in Hin. apply in_map_iff in Hin.
  destruct Hin as [i [Hid Hi]]. apply mem_In. apply in_map_iff.
  exists i. split; [exact Hid |]. unfold delete_where. apply filter_In.
  split; [exact Hi |]. destruct (p i) eqn:E; [| reflexivity].
  exfalso. apply mem_not_In in Hgone. apply Hgone. apply in_map_iff.
  exists i. split; [exact Hid | apply filter_In; auto].
Qed.

Lemma delete_issues_where_integrity (p : Issue -> bool) (db : DB) :
  ref_integrity db -> ref_integrity (delete_issues_where p db).
Proof.
  intros (Hi & Hm & Hd). unfold ref_integrity, delete_issues_where, repo_exists,
    issue_exists, delete_where in *; simpl.
  split; [| split].
  - intros i Hin. apply filter_In in Hin. apply Hi. apply Hin.
  - exact Hm.
  - intros d Hin. apply filter_In in Hin. destruct Hin as [Hin Hkeep].
    apply negb_true_iff, orb_false_iff in Hkeep. destruct Hkeep as [H1 H2].
    destruct (Hd d Hin) as [E1 E2].
    split; apply kept_row_still_exists; assumption.
Qed.

Lemma mem_app_l x l1 l2 : mem x l1 = true -> mem x (l1 ++ l2) = true.
Proof. rewrite !mem_In. intros H. apply in_or_app. left. exact H. Qed.

Lemma repo_row_kept (x r : Z) (t : list Repo) :
  mem x (map rID t) = true -> x <> r ->
  mem x (map rID (delete_where (fun q => rID q =? r) t)) = true.
Proof.
  rewrite !mem_In, !in_map_iff. intros [q [Hq Hin]] Hne.
  exists q. split; [exact Hq |]. unfold delete_where. apply filter_In.
  split; [exact Hin |]. apply negb_true_iff. apply Z.eqb_neq. congruence.
Qed.

Lemma DeleteRepo_integrity (db : DB) (repoID : Z) :
  ref_integrity db -> ref_integrity (DeleteRepo db repoID).
Proof.
  intros H. apply (delete_issues_where_integrity (fun i => iRepoID i =? repoID)) in H.
  destruct H as (Hi & Hm & Hd). unfold DeleteRepo.
  set (db1 := delete_issues_where _ db) in *.
  unfold ref_integrity, repo_exists, issue_exists in *; simpl.
  split; [| split].
  - intros i Hin. apply repo_row_kept; [apply Hi; exact Hin |].
    unfold db1, delete_issues_where, delete_where in Hin; simpl in Hin.
    apply filter_In in Hin. destruct Hin as [_ Hne].
    apply negb_true_iff, Z.eqb_neq in Hne. exact Hne.
  - intros m Hin. unfold delete_where in Hin. apply filter_In in Hin.
    destruct Hin as [Hin Hne]. apply negb_true_iff, Z.eqb_neq in Hne.
    apply repo_row_kept; [apply Hm; exact Hin | exact Hne].
  - exact Hd.
Qed.

Lemma issues_rewritten_integrity (p : Issue -> bool) (f : Issue -> Issue) (db : DB) :
  (forall i, iID (f i) = iID i) -> (forall i, iRepoID (f i) = iRepoID i) ->
  ref_integrity db ->
  ref_integrity (with_issues db (update_where p f (issues db)) (seq_issues db)).
Proof.
  intros Hid Hrepo (Hi & Hm & Hd).
  unfold ref_integrity, repo_exists, issue_exists in *; simpl.
  split; [| split].
  - intros y Hy. apply In_update_where in Hy. destruct Hy as [x [Hx [-> | ->]]].
    + apply Hi. exact Hx.
    + rewrite Hrepo. apply Hi. exact Hx.
  - exact Hm.
  - intros d Hin. rewrite (map_update_where iID p f (issues db) Hid).
    apply Hd. exact Hin.
Qed.

Lemma mrs_rewritten_integrity (p : MergeRequest -> bool) (f : MergeRequest -> MergeRequest)
    (db : DB) :
  (forall m, mRepoID (f m) = mRepoID m) ->
  ref_integrity db ->
  ref_integrity
    (with_merge_requests db (update_where p f (merge_requests db)) (seq_merge_requests db)).
Proof.
  intros Hrepo (Hi & Hm & Hd).
  unfold ref_integrity, repo_exists, issue_exists in *; simpl.
  split; [exact Hi | split; [| exact Hd]].
  intros y Hy. apply In_update_where in Hy. destruct Hy as [x [Hx [-> | ->]]].
  - apply Hm. exact Hx.
  - rewrite Hrepo. apply Hm. exact Hx.
Qed.

Lemma run_mr_op_integrity (op : MROp) (db : DB) :
  ref_integrity db -> ref_integrity (snd (run_mr_op op db)).
Proof.
  intros H.
  destruct op; unfold run_mr_op, CloseMergeRequest, ReopenMergeRequest,
    MergeMergeRequest, UpdateMergeRequest;
    try (destruct (existsb _ _ && negb _); simpl; [exact H |]);
    simpl; apply mrs_rewritten_integrity; auto.
Qed.

(** Every statement keeps referential integrity. *)
Lemma run_store_op_integrity (op : StoreOp) (db : DB) :
  ref_integrity db -> ref_integrity (run_store_op op db).
Proof.
  intros H. destruct op; unfold run_store_op.
  - (* create issue *)
    unfold CreateIssue.
    destruct (repo_exists db repoID) eqn:Er; simpl; [| exact H].
    destruct (user_exists db authorID); simpl; [| exact H].
    destruct H as (Hi & Hm & Hd).
    unfold ref_integrity, repo_exists, issue_exists in *; simpl.
    split; [| split].
    + intros i Hin. apply in_app_or in Hin. destruct Hin as [Hin | [<- | []]].
      * apply Hi. exact Hin.
      * exact Er.
    + exact Hm.
    + intros d Hin. rewrite map_app. destruct (Hd d Hin).
      split; apply mem_app_l; assumption.
  - unfold UpdateIssue; simpl. apply issues_rewritten_integrity; auto.
  - unfold CloseIssue. destruct (existsb _ _ && negb _); simpl; [exact H |].
    apply issues_rewritten_integrity; auto.
  - unfold ReopenIssue; simpl. apply issues_rewritten_integrity; auto.
  - unfold DeleteIssue; simpl. apply delete_issues_where_integrity. exact H.
  - (* add dependency *)
    unfold AddIssueDependency.
    destruct (negb (_ =? 2)); simpl; [exact H |].
    destruct (issue_exists db issueID) eqn:E1; simpl; [| exact H].
    destruct (issue_exists db dependsOnID) eqn:E2; simpl; [| exact H].
    destruct (existsb _ (issue_dependencies db)); simpl; [exact H |].
    destruct (issueID =? dependsOnID); simpl; [exact H |].
    destruct H as (Hi & Hm & Hd).
    unfold ref_integrity, repo_exists, issue_exists in *; simpl.
    split; [exact Hi | split; [exact Hm |]].
    intros d Hin. apply in_app_or in Hin. destruct Hin as [Hin | [<- | []]].
    + apply Hd. exact Hin.
    + simpl. auto.
  - (* remove dependency *)
    unfold RemoveIssueDependency.
    destruct (_ =? 0); simpl; [exact H |].
    destruct H as (Hi & Hm & Hd).
    unfold ref_integrity, repo_exists, issue_exists in *; simpl.
    split; [exact Hi | split; [exact Hm |]].
    intros d Hin. unfold delete_where in Hin. apply filter_In in Hin.
    apply Hd. apply Hin.
  - (* create merge request *)
    unfold CreateMergeRequest.
    destruct (repo_exists db repoID) eqn:Er; simpl; [| exact H].
    destruct (user_exists db authorID); simpl; [| exact H].
    destruct H as (Hi & Hm & Hd).
    unfold ref_integrity, repo_exists, issue_exists in *; simpl.
    split; [exact Hi | split; [| exact Hd]].
    intros m Hin. apply in_app_or in Hin. destruct Hin as [Hin | [<- | []]].
    + apply Hm. exact Hin.
    + exact Er.
  - apply run_mr_op_integrity. exact H.
  - unfold DeleteMergeRequest; simpl.
    destruct H as (Hi & Hm & Hd).
    unfold ref_integrity, repo_exists, issue_exists in *; simpl.
    split; [exact Hi | split; [| exact Hd]].
    intros m Hin. unfold delete_where in Hin. apply filter_In in Hin.
    apply Hm. apply Hin.
  - apply DeleteRepo_integrity. exact H.
Qed.

Lemma run_store_ops_integrity (ops : list StoreOp) (db : DB) :
  ref_integrity db -> ref_integrity (run_store_ops ops db).
Proof.
  unfold run_store_ops. revert db.
  induction ops as [|op ops IH]; intros db H; simpl.
  - exact H.
  - apply IH. apply run_store_op_integrity. exact H.
Qed.

Lemma gone_ids_spec (p : Issue -> bool) (t : list Issue) (x : Z) :
  mem x (map iID (filter p t)) = false <->
  (forall i, In i t -> p i = true -> x <> iID i).
Proof.
  rewrite mem_not_In, in_map_iff. split.
  - intros H i Hin Hp Heq. apply H. exists i. split; [auto | apply filter_In; auto].
  - intros H [i [Heq Hin]]. apply filter_In in Hin. destruct Hin as [Hin Hp].
    apply (H i Hin Hp). auto.
Qed.

(** C10.  With the cascades the schema declares, removing a repository
    removes the repository row, every issue and every merge request of that
    repository, and every edge one of whose ends is an issue of that
    repository; rows of other repositories are kept.  Afterwards no issue
    and no merge request can be read under the removed repository, and in the
    database so obtained, and after any further statements of the stores,
    every issue and merge request has its repository row and every edge has
    both its issue rows. *)
Theorem delete_repository_cascades :
  forall (db : DB) (repoID : Z) (ops : list StoreOp),
    ref_integrity db ->
    repo_exists (DeleteRepo db repoID) repoID = false /\
    (forall i, In i (issues (DeleteRepo db repoID)) <->
               In i (issues db) /\ iRepoID i <> repoID) /\
    (forall m, In m (merge_requests (DeleteRepo db repoID)) <->
               In m (merge_requests db) /\ mRepoID m <> repoID) /\
    (forall d, In d (issue_dependencies (DeleteRepo db repoID)) <->
               In d (issue_dependencies db) /\
               (forall i, In i (issues db) -> iRepoID i = repoID ->
                          dIssueID d <> iID i /\ dDependsOnID d <> iID i)) /\
    (forall id, GetIssueByID (DeleteRepo db repoID) repoID id = Err ErrNoRows) /\
    (forall id, GetMergeRequestByID (DeleteRepo db repoID) repoID id = Err ErrNoRows) /\
    ref_integrity (run_store_ops ops (DeleteRepo db repoID)).
Proof.
  intros db repoID ops Hint.
  assert (Hissues : forall i, In i (issues (DeleteRepo db repoID)) <->
                              In i (issues db) /\ iRepoID i <> repoID).
  { intros i. unfold DeleteRepo, delete_issues_where, delete_where; simpl.
    rewrite filter_In, negb_true_iff, Z.eqb_neq. reflexivity. }
  assert (Hmrs : forall m, In m (merge_requests (DeleteRepo db repoID)) <->
                           In m (merge_requests db) /\ mRepoID m <> repoID).
  { intros m. unfold DeleteRepo, delete_issues_where, delete_where; simpl.
    rewrite filter_In, negb_true_iff, Z.eqb_neq. reflexivity. }
  split; [| split; [exact Hissues | split; [exact Hmrs | split; [| split; [| split]]]]].
  - unfold DeleteRepo, repo_exists, delete_issues_where, delete_where; simpl.
    apply mem_not_In. rewrite in_map_iff. intros [q [Hq Hin]].
    apply filter_In in Hin. destruct Hin as [_ Hne].
    apply negb_true_iff, Z.eqb_neq in Hne. contradiction.
  - intros d. unfold DeleteRepo, delete_issues_where, delete_where; simpl.
    rewrite filter_In, negb_true_iff, orb_false_iff, !gone_ids_spec.
    split.
    + intros (Hin & H1 & H2). split; [exact Hin |].
      intros i Hi Hr. apply Z.eqb_eq in Hr. split; [apply H1 | apply H2]; assumption.
    + intros (Hin & H). split; [exact Hin |].
      split; intros i Hi Hr; apply Z.eqb_eq in Hr; apply (H i Hi Hr).
  - intros id. unfold GetIssueByID. rewrite find_all_false; [reflexivity |].
    intros i Hi. apply Hissues in Hi. destruct Hi as [_ Hne].
    unfold issue_at. apply Z.eqb_neq in Hne. rewrite Hne. reflexivity.
  - intros id. unfold GetMergeRequestByID. rewrite find_all_false; [reflexivity |].
    intros m Hm. apply Hmrs in Hm. destruct Hm as [_ Hne].
    unfold mr_at. apply Z.eqb_neq in Hne. rewrite Hne. reflexivity.
  - apply run_store_ops_integrity, DeleteRepo_integrity. exact Hint.
Qed.

Lemma sample_db_edges_integrity : ref_integrity sample_db_edges.
Proof.
  unfold ref_integrity. split; [| split].
  - intros i Hin. simpl in Hin.
    repeat (destruct Hin as [<- | Hin]; [reflexivity |]). contradiction.
  - intros m Hin. simpl in Hin.
    repeat (destruct Hin as [<- | Hin]; [reflexivity |]). contradiction.
  - intros d Hin. simpl in Hin.
    repeat (destruct Hin as [<- | Hin]; [split; reflexivity |]). contradiction.
Qed.

Lemma delete_repository_cascades_witness :
  ref_integrity sample_db_edges /\
  repo_exists (DeleteRepo sample_db_edges 1) 1 = false /\
  ref_integrity
    (run_store_ops [SCreateIssue 2 7 "New" "issue" 40; SAddIssueDependency 2 5 3 41]
                   (DeleteRepo sample_db_edges 1)).
Proof.
  split; [exact sample_db_edges_integrity |].
  destruct (delete_repository_cascades sample_db_edges 1
              [SCreateIssue 2 7 "New" "issue" 40; SAddIssueDependency 2 5 3 41]
              sample_db_edges_integrity) as (H1 & _ & _ & _ & _ & _ & H7).
  split; [exact H1 | exact H7].
Defined.

(** Removing repository 1 from the sample leaves repository 2 with its
    issues 3 and 4, its merge request 2 and its edge from 3 to 4. *)
Example delete_repository_1_of_sample :
  map rID (repos (DeleteRepo sample_db_edges 1)) = [2] /\
  map iID (issues (DeleteRepo sample_db_edges 1)) = [3; 4] /\
  map mID (merge_requests (DeleteRepo sample_db_edges 1)) = [2] /\
  issue_dependencies (DeleteRepo sample_db_edges 1) = [mkIssueDependency 2 3 4 15].
Proof. repeat split; reflexivity. Qed.

(** ** Listing: selection and order *)

Section OrderBy.
Context {A : Type}.
Variable key : A -> Z.

Lemma insert_desc_perm (x : A) (t : list A) : Permutation (insert_desc key x t) (x :: t).
Proof.
  induction t as [|y t IH]; simpl.
  - apply Permutation_refl.
  - destruct (key y <=? key x).
    + apply Permutation_refl.
    + apply Permutation_trans with (y :: x :: t).
      * apply perm_skip. exact IH.
      * apply perm_swap.
Qed.

Lemma order_by_desc_perm (t : list A) : Permutation (order_by_desc key t) t.
Proof.
  unfold order_by_desc. induction t as [|x t IH]; simpl.
  - apply Permutation_refl.
  - apply Permutation_trans with (x :: fold_right (insert_desc key) [] t).
    + apply insert_desc_perm.
    + apply perm_skip. exact IH.
Qed.

Lemma insert_desc_sorted (x : A) (t : list A) :
  newest_first key t -> newest_first key (insert_desc key x t).
Proof.
  unfold newest_first. induction t as [|y t IH]; simpl; intros Hs.
  - constructor; constructor.
  - inversion Hs as [|y' t' Hst Hall]; subst.
    destruct (key y <=? key x) eqn:E.
    + apply Z.leb_le in E. constructor; [exact Hs |].
      constructor; [exact E |].
      apply Forall_impl with (P := fun b => key b <= key y); [intros b Hb; lia | exact Hall].
    + apply Z.leb_gt in E. constructor; [apply IH; exact Hst |].
      apply Forall_forall. intros b Hb.
      apply (Permutation_in b (insert_desc_perm x t)) in Hb.
      destruct Hb as [<- | Hb]; [lia |].
      rewrite Forall_forall in Hall. apply Hall. exact Hb.
Qed.

Lemma order_by_desc_sorted (t : list A) : newest_first key (order_by_desc key t).
Proof.
  unfold order_by_desc. induction t as [|x t IH]; simpl.
  - constructor.
  - apply insert_desc_sorted. exact IH.
Qed.

Lemma order_by_desc_In (t : list A) (x : A) : In x (order_by_desc key t) <-> In x t.
Proof.
  split; intros H.
  - apply (Permutation_in x (order_by_desc_perm t)). exact H.
  - apply (Permutation_in x (Permutation_sym (order_by_desc_perm t))). exact H.
Qed.

Lemma order_by_desc_length (t : list A) :
  List.length (order_by_desc key t) = List.length t.
Proof. apply Permutation_length. apply order_by_desc_perm. Qed.

End OrderBy.

(** X1.  Listing the issues of a repository: the result holds exactly the rows of
    that repository, each as often as the table has it, newest first; a
    repository without issues gives the empty list and no error. *)
Theorem list_issues_of_repository :
  forall (db : DB) (repoID : Z),
  exists l,
    GetIssuesByRepoID db repoID = Ok l /\
    (forall i, In i l <-> In i (issues db) /\ iRepoID i = repoID) /\
    Z.of_nat (List.length l) = rows_matched (fun i => iRepoID i =? repoID) (issues db) /\
    newest_first iCreatedAt l /\
    ((forall i, In i (issues db) -> iRepoID i <> repoID) -> l = []).
Proof.
  intros db repoID. eexists. split; [reflexivity |].
  split; [| split; [| split]].
  - intros i. rewrite order_by_desc_In, filter_In, Z.eqb_eq. reflexivity.
  - rewrite order_by_desc_length. reflexivity.
  - apply order_by_desc_sorted.
  - intros Hnone.
    assert (Hf : filter (fun i => iRepoID i =? repoID) (issues db) = []).
    { induction (issues db) as [|x t IH]; simpl; [reflexivity |].
      destruct (iRepoID x =? repoID) eqn:E.
      - apply Z.eqb_eq in E. exfalso. apply (Hnone x); [left; reflexivity | exact E].
      - apply IH. intros i Hi. apply Hnone. right. exact Hi. }
    rewrite Hf. reflexivity.
Qed.

(** X2.  Listing by state selects from the listing of the repository: a row is in
    the filtered list exactly when it is in the full one and has that state,
    and the filtered list is newest first.  When every issue is Open or Closed
    the two filtered lists together have as many rows as the full one. *)
Theorem list_issues_by_state_partitions :
  forall (db : DB) (repoID : Z),
    (forall i, In i (issues db) ->
               iState i = IssueStateOpen \/ iState i = IssueStateClosed) ->
    exists all opened closed,
      GetIssuesByRepoID db repoID = Ok all /\
      GetIssuesByRepoIDAndState db repoID IssueStateOpen = Ok opened /\
      GetIssuesByRepoIDAndState db repoID IssueStateClosed = Ok closed /\
      (forall i, In i opened <-> In i all /\ iState i = IssueStateOpen) /\
      (forall i, In i closed <-> In i all /\ iState i = IssueStateClosed) /\
      newest_first iCreatedAt opened /\ newest_first iCreatedAt closed /\
      List.length all = (List.length opened + List.length closed)%nat.
Proof.
  intros db repoID Hst. do 3 eexists.
  split; [reflexivity |]. split; [reflexivity |]. split; [reflexivity |].
  split; [| split; [| split; [| split]]].
  - intros i. rewrite !order_by_desc_In, !filter_In, andb_true_iff, !Z.eqb_eq. tauto.
  - intros i. rewrite !order_by_desc_In, !filter_In, andb_true_iff, !Z.eqb_eq. tauto.
  - apply order_by_desc_sorted.
  - apply order_by_desc_sorted.
  - rewrite !order_by_desc_length.
    induction (issues db) as [|x t IH]; simpl; [reflexivity |].
    assert (Hx := Hst x (or_introl eq_refl)).
    assert (Ht : forall i, In i t ->
                 iState i = IssueStateOpen \/ iState i = IssueStateClosed).
    { intros i Hi. apply Hst. right. exact Hi. }
    specialize (IH Ht).
    destruct (iRepoID x =? repoID); simpl; [| exact IH].
    destruct Hx as [Hx | Hx]; rewrite Hx; simpl; rewrite IH; lia.
Qed.

Lemma list_issues_by_state_partitions_witness :
  exists all opened closed,
    GetIssuesByRepoID sample_db 1 = Ok all /\
    GetIssuesByRepoIDAndState sample_db 1 IssueStateOpen = Ok opened /\
    GetIssuesByRepoIDAndState sample_db 1 IssueStateClosed = Ok closed /\
    List.length all = (List.length opened + List.length closed)%nat.
Proof.
  assert (Hst : forall i, In i (issues sample_db) ->
                iState i = IssueStateOpen \/ iState i = IssueStateClosed).
  { intros i Hin. simpl in Hin.
    destruct Hin as [<- | [<- | []]]; [right | left]; reflexivity. }
  destruct (list_issues_by_state_partitions sample_db 1 Hst)
    as (all & opened & closed & H1 & H2 & H3 & _ & _ & _ & _ & H8).
  exists all, opened, closed. repeat split; assumption.
Defined.

(** ** Primary keys *)

Section KeyedTables.
Context {A K : Type}.
Variable key : A -> K.

Lemma NoDup_map_filter (p : A -> bool) (t : list A) :
  NoDup (map key t) -> NoDup (map key (filter p t)).
Proof.
  induction t as [|x t IH]; simpl; intros Hnd.
  - constructor.
  - inversion Hnd as [|k ks Hnotin Hnd' Heq]; subst.
    destruct (p x); simpl.
    + constructor; [| apply IH; exact Hnd'].
      intros Hin. apply Hnotin. apply in_map_iff in Hin.
      destruct Hin as [y [Hy Hin]]. apply filter_In in Hin.
      apply in_map_iff. exists y. tauto.
    + apply IH. exact Hnd'.
Qed.

Lemma NoDup_map_snoc (x : A) (t : list A) :
  NoDup (map key t) -> ~ In (key x) (map key t) -> NoDup (map key (t ++ [x])).
Proof.
  induction t as [|y t IH]; simpl; intros Hnd Hfresh.
  - constructor; [intros [] | constructor].
  - inversion Hnd as [|k ks Hnotin Hnd' Heq]; subst.
    constructor.
    + rewrite map_app, in_app_iff. simpl. intros [Hin | [Heq | []]].
      * apply Hnotin. exact Hin.
      * apply Hfresh. left. symmetry. exact Heq.
    + apply IH; [exact Hnd' |]. intros Hin. apply Hfresh. right. exact Hin.
Qed.

Lemma unique_row (t : list A) (x y : A) :
  NoDup (map key t) -> In x t -> In y t -> key x = key y -> x = y.
Proof.
  induction t as [|z t IH]; simpl; intros Hnd Hx Hy Heq; [contradiction |].
  inversion Hnd as [|k ks Hnotin Hnd' Hk]; subst.
  destruct Hx as [-> | Hx], Hy as [-> | Hy].
  - reflexivity.
  - exfalso. apply Hnotin. rewrite Heq. apply in_map. exact Hy.
  - exfalso. apply Hnotin. rewrite <- Heq. apply in_map. exact Hx.
  - apply IH; assumption.
Qed.

End KeyedTables.

Lemma bounded_key_fresh {A : Type} (key : A -> Z) (x : A) (t : list A) (s : Z) :
  (forall y, In y t -> key y <= s) -> key x = s + 1 -> ~ In (key x) (map key t).
Proof.
  intros Hb Hx Hin. apply in_map_iff in Hin. destruct Hin as [y [Hy Hin]].
  specialize (Hb y Hin). lia.
Qed.

Lemma find_filter_kept {A : Type} (q keep : A -> bool) (t : list A) :
  (forall y, In y t -> q y = true -> keep y = true) ->
  find q (filter keep t) = find q t.
Proof.
  induction t as [|x t IH]; simpl; intros H; [reflexivity |].
  assert (Ht : forall y, In y t -> q y = true -> keep y = true).
  { intros y Hy. apply H. right. exact Hy. }
  destruct (keep x) eqn:Ek; simpl.
  - destruct (q x); [reflexivity | apply IH; exact Ht].
  - destruct (q x) eqn:Eq.
    + rewrite (H x (or_introl eq_refl) Eq) in Ek. discriminate.
    + apply IH. exact Ht.
Qed.

Lemma find_snoc {A : Type} (q : A -> bool) (t : list A) (x : A) :
  find q (t ++ [x]) = match find q t with
                      | Some y => Some y
                      | None => if q x then Some x else None
                      end.
Proof.
  induction t as [|y t IH]; simpl; [reflexivity |].
  destruct (q y); [reflexivity | exact IH].
Qed.

Lemma filter_none {A : Type} (p : A -> bool) (t : list A) :
  existsb p t = false -> filter p t = [].
Proof.
  induction t as [|x t IH]; simpl; intros H; [reflexivity |].
  apply orb_false_iff in H. destruct H as [Hx Ht]. rewrite Hx. apply IH. exact Ht.
Qed.

Lemma delete_where_none {A : Type} (p : A -> bool) (t : list A) :
  existsb p t = false -> delete_where p t = t.
Proof.
  unfold delete_where. induction t as [|x t IH]; simpl; intros H; [reflexivity |].
  apply orb_false_iff in H. destruct H as [Hx Ht]. rewrite Hx. simpl.
  rewrite (IH Ht). reflexivity.
Qed.

Lemma In_delete_where {A : Type} (p : A -> bool) (t : list A) (x : A) :
  In x (delete_where p t) <-> In x t /\ p x = false.
Proof. unfold delete_where. rewrite filter_In, negb_true_iff. reflexivity. Qed.

Lemma keys_ok_issues_rewritten (p : Issue -> bool) (f : Issue -> Issue) (db : DB) :
  (forall r, iID (f r) = iID r) ->
  keys_ok db -> keys_ok (with_issues db (update_where p f (issues db)) (seq_issues db)).
Proof.
  intros Hf (H1 & H2 & H3 & H4 & H5 & H6). unfold keys_ok; simpl.
  rewrite (map_update_where iID p f _ Hf).
  repeat split; try assumption.
  intros i Hin. apply In_update_where in Hin. destruct Hin as [x [Hx [-> | ->]]].
  - apply H2. exact Hx.
  - rewrite Hf. apply H2. exact Hx.
Qed.

Lemma keys_ok_mrs_rewritten (p : MergeRequest -> bool) (f : MergeRequest -> MergeRequest)
    (db : DB) :
  (forall r, mID (f r) = mID r) ->
  keys_ok db ->
  keys_ok (with_merge_requests db (update_where p f (merge_requests db))
                               (seq_merge_requests db)).
Proof.
  intros Hf (H1 & H2 & H3 & H4 & H5 & H6). unfold keys_ok; simpl.
  rewrite (map_update_where mID p f _ Hf).
  repeat split; try assumption.
  intros m Hin. apply In_update_where in Hin. destruct Hin as [x [Hx [-> | ->]]].
  - apply H4. exact Hx.
  - rewrite Hf. apply H4. exact Hx.
Qed.

Lemma keys_ok_delete_issues_where (p : Issue -> bool) (db : DB) :
  keys_ok db -> keys_ok (delete_issues_where p db).
Proof.
  intros (H1 & H2 & H3 & H4 & H5 & H6). unfold keys_ok, delete_issues_where; simpl.
  repeat split; try assumption.
  - apply NoDup_map_filter. exact H1.
  - intros i Hin. apply In_delete_where in Hin. apply H2. tauto.
  - apply NoDup_map_filter. exact H5.
  - intros d Hin. apply In_delete_where in Hin. apply H6. tauto.
Qed.

Lemma run_mr_op_keys (op : MROp) (db : DB) : keys_ok db -> keys_ok (snd (run_mr_op op db)).
Proof.
  intros Hk.
  destruct op; simpl;
    unfold CloseMergeRequest, ReopenMergeRequest, MergeMergeRequest, UpdateMergeRequest;
    try match goal with |- context [if ?c then _ else _] => destruct c end;
    simpl; try exact Hk; apply keys_ok_mrs_rewritten; try exact Hk; reflexivity.
Qed.

Lemma run_store_op_keys (op : StoreOp) (db : DB) :
  keys_ok db -> keys_ok (run_store_op op db).
Proof.
  intros Hk. destruct op; simpl.
  - unfold CreateIssue.
    repeat match goal with |- context [if ?c then _ else _] => destruct c end;
      simpl; try exact Hk.
    destruct Hk as (H1 & H2 & H3 & H4 & H5 & H6). unfold keys_ok; simpl.
    repeat split; try assumption.
    + apply NoDup_map_snoc; [exact H1 |].
      apply (bounded_key_fresh iID _ _ (seq_issues db)); [exact H2 | reflexivity].
    + intros i Hin. apply in_app_iff in Hin. destruct Hin as [Hin | [<- | []]].
      * specialize (H2 i Hin). lia.
      * simpl. lia.
  - apply keys_ok_issues_rewritten; [reflexivity | exact Hk].
  - unfold CloseIssue.
    match goal with |- context [if ?c then _ else _] => destruct c end;
      simpl; [exact Hk |].
    apply keys_ok_issues_rewritten; [reflexivity | exact Hk].
  - apply keys_ok_issues_rewritten; [reflexivity | exact Hk].
  - apply keys_ok_delete_issues_where. exact Hk.
  - unfold AddIssueDependency.
    repeat match goal with |- context [if ?c then _ else _] => destruct c end;
      simpl; try exact Hk.
    destruct Hk as (H1 & H2 & H3 & H4 & H5 & H6). unfold keys_ok; simpl.
    repeat split; try assumption.
    + apply NoDup_map_snoc; [exact H5 |].
      apply (bounded_key_fresh dID _ _ (seq_issue_dependencies db));
        [exact H6 | reflexivity].
    + intros d Hin. apply in_app_iff in Hin. destruct Hin as [Hin | [<- | []]].
      * specialize (H6 d Hin). lia.
      * simpl. lia.
  - unfold RemoveIssueDependency.
    match goal with |- context [if ?c then _ else _] => destruct c end;
      simpl; [exact Hk |].
    destruct Hk as (H1 & H2 & H3 & H4 & H5 & H6). unfold keys_ok; simpl.
    repeat split; try assumption.
    + apply NoDup_map_filter. exact H5.
    + intros d Hin. apply In_delete_where in Hin. apply H6. tauto.
  - unfold CreateMergeRequest.
    repeat match goal with |- context [if ?c then _ else _] => destruct c end;
      simpl; try exact Hk.
    destruct Hk as (H1 & H2 & H3 & H4 & H5 & H6). unfold keys_ok; simpl.
    repeat split; try assumption.
    + apply NoDup_map_snoc; [exact H3 |].
      apply (bounded_key_fresh mID _ _ (seq_merge_requests db)); [exact H4 | reflexivity].
    + intros m Hin. apply in_app_iff in Hin. destruct Hin as [Hin | [<- | []]].
      * specialize (H4 m Hin). lia.
      * simpl. lia.
  - apply run_mr_op_keys. exact Hk.
  - destruct Hk as (H1 & H2 & H3 & H4 & H5 & H6). unfold keys_ok; simpl.
    repeat split; try assumption.
    + apply NoDup_map_filter. exact H3.
    + intros m Hin. apply In_delete_where in Hin. apply H4. tauto.
  - assert (Hk1 := keys_ok_delete_issues_where (fun i => iRepoID i =? repoID) db Hk).
    destruct Hk1 as (H1 & H2 & H3 & H4 & H5 & H6).
    unfold DeleteRepo, keys_ok. simpl. simpl in H1, H2, H3, H4, H5, H6.
    repeat split; try assumption.
    + apply NoDup_map_filter. exact H3.
    + intros m Hin. apply In_delete_where in Hin. apply H4. tauto.
Qed.

Lemma sample_db_keys : keys_ok sample_db.
Proof.
  unfold keys_ok; simpl.
  repeat split;
    try (repeat (constructor; [simpl; intuition discriminate |]); constructor);
    intros x Hin; repeat (destruct Hin as [<- | Hin]; [simpl; lia |]); contradiction.
Qed.

Lemma sample_db_edges_keys : keys_ok sample_db_edges.
Proof.
  unfold keys_ok; simpl.
  repeat split;
    try (repeat (constructor; [simpl; intuition discriminate |]); constructor);
    intros x Hin; repeat (destruct Hin as [<- | Hin]; [simpl; lia |]); contradiction.
Qed.

Lemma run_mr_op_seq (op : MROp) (db : DB) :
  seq_issues (snd (run_mr_op op db)) = seq_issues db /\
  issues (snd (run_mr_op op db)) = issues db.
Proof.
  destruct op; simpl;
    unfold CloseMergeRequest, ReopenMergeRequest, MergeMergeRequest, UpdateMergeRequest;
    try match goal with |- context [if ?c then _ else _] => destruct c end;
    simpl; split; reflexivity.
Qed.

Lemma run_store_op_seq_issues (op : StoreOp) (db : DB) :
  seq_issues db <= seq_issues (run_store_op op db).
Proof.
  destruct op; simpl;
    try (unfold CreateIssue, CloseIssue, AddIssueDependency, RemoveIssueDependency,
           CreateMergeRequest;
         repeat match goal with |- context [if ?c then _ else _] => destruct c end;
         simpl; lia).
  destruct (run_mr_op_seq op db) as [-> _]. lia.
Qed.

Lemma run_store_ops_seq_issues (ops : list StoreOp) (db : DB) :
  seq_issues db <= seq_issues (run_store_ops ops db).
Proof.
  unfold run_store_ops. revert db. induction ops as [|op ops IH]; simpl; intros db.
  - lia.
  - specialize (IH (run_store_op op db)).
    assert (H := run_store_op_seq_issues op db). lia.
Qed.

(** X3.  Primary keys are kept by every statement: in a database whose ids are
    pairwise distinct and not above the counters, they still are after any
    sequence of statements of the two stores and removals of repositories. *)
Theorem primary_keys_stay_unique :
  forall (ops : list StoreOp) (db : DB),
    keys_ok db -> keys_ok (run_store_ops ops db).
Proof.
  intros ops. unfold run_store_ops.
  induction ops as [|op ops IH]; simpl; intros db Hk.
  - exact Hk.
  - apply IH. apply run_store_op_keys. exact Hk.
Qed.

Lemma primary_keys_stay_unique_witness :
  keys_ok (run_store_ops [SCreateIssue 1 7 "New" "issue" 40; SDeleteIssue 1 1;
                          SCreateIssue 1 8 "Next" "issue" 41] sample_db).
Proof.
  apply (primary_keys_stay_unique
           [SCreateIssue 1 7 "New" "issue" 40; SDeleteIssue 1 1;
            SCreateIssue 1 8 "Next" "issue" 41] sample_db).
  exact sample_db_keys.
Defined.

(** X4.  An issue id is not handed out twice: the id that [CreateIssue] returns
    after any sequence of statements, deletions included, is above the id of
    every issue the database held before that sequence. *)
Theorem issue_ids_are_never_reused :
  forall (ops : list StoreOp) (db db' : DB) (repoID authorID : Z)
         (title description : string) (now id : Z),
    keys_ok db ->
    CreateIssue (run_store_ops ops db) repoID authorID title description now
      = (Ok id, db') ->
    forall i, In i (issues db) -> iID i < id.
Proof.
  intros ops db db' repoID authorID title description now id Hk Hc i Hin.
  destruct Hk as (_ & Hb & _).
  specialize (Hb i Hin).
  assert (Hs := run_store_ops_seq_issues ops db).
  unfold CreateIssue in Hc.
  repeat match type of Hc with context [if ?c then _ else _] => destruct c end;
    inversion Hc; subst. lia.
Qed.

Lemma issue_ids_are_never_reused_witness :
  Forall (fun i => iID i < 3) (issues sample_db).
Proof.
  apply Forall_forall.
  apply (issue_ids_are_never_reused [SDeleteIssue 1 2] sample_db
           (snd (CreateIssue (run_store_ops [SDeleteIssue 1 2] sample_db) 1 7
                             "New" "issue" 40))
           1 7 "New" "issue" 40 3).
  - exact sample_db_keys.
  - reflexivity.
Defined.

(** ** Insert, look up, delete *)

Lemma created_issue_row db db' repoID authorID title description now id :
  keys_ok db ->
  CreateIssue db repoID authorID title description now = (Ok id, db') ->
  exists i,
    GetIssueByID db' repoID id = Ok i /\
    iID i = id /\ iRepoID i = repoID /\ iAuthorID i = authorID /\
    iTitle i = title /\ iDescription i = description /\
    iState i = IssueStateOpen /\ iCreatedAt i = now.
Proof.
  intros Hk Hc. destruct Hk as (_ & Hb & _).
  unfold CreateIssue in Hc.
  repeat match type of Hc with context [if ?c then _ else _] => destruct c end;
    inversion Hc; subst; clear Hc.
  assert (Hfresh : find (issue_at repoID (seq_issues db + 1)) (issues db) = None).
  { apply find_all_false. intros x Hx. unfold issue_at.
    specialize (Hb x Hx). apply andb_false_iff. right. apply Z.eqb_neq. lia. }
  eexists. unfold GetIssueByID; simpl. rewrite find_snoc, Hfresh.
  unfold issue_at; simpl. rewrite !Z.eqb_refl. simpl.
  repeat split; reflexivity.
Qed.

(** X5.  A created issue can be read back: after a successful [CreateIssue],
    [GetIssueByID] under the returned id gives the inserted row, with the
    title, description and author passed in and state Open, and every other
    id reads as it did before. *)
Theorem created_issue_is_read_back :
  forall (db db' : DB) (repoID authorID : Z) (title description : string) (now id : Z),
    keys_ok db ->
    CreateIssue db repoID authorID title description now = (Ok id, db') ->
    (exists i,
        GetIssueByID db' repoID id = Ok i /\
        iID i = id /\ iRepoID i = repoID /\ iAuthorID i = authorID /\
        iTitle i = title /\ iDescription i = description /\
        iState i = IssueStateOpen /\ iCreatedAt i = now) /\
    (forall r x, x <> id -> GetIssueByID db' r x = GetIssueByID db r x) /\
    (forall r, GetIssueByID db r id = Err ErrNoRows).
Proof.
  intros db db' repoID authorID title description now id Hk Hc.
  destruct Hk as (_ & Hb & _).
  unfold CreateIssue in Hc.
  repeat match type of Hc with context [if ?c then _ else _] => destruct c end;
    inversion Hc; subst; clear Hc.
  assert (Hfresh : forall r, find (issue_at r (seq_issues db + 1)) (issues db) = None).
  { intros r. apply find_all_false. intros x Hx. unfold issue_at.
    specialize (Hb x Hx). apply andb_false_iff. right. apply Z.eqb_neq. lia. }
  split; [| split].
  - eexists. unfold GetIssueByID; simpl. rewrite find_snoc, Hfresh.
    unfold issue_at; simpl. rewrite !Z.eqb_refl. simpl.
    repeat split; reflexivity.
  - intros r x Hx. unfold GetIssueByID; simpl. rewrite find_snoc.
    destruct (find (issue_at r x) (issues db)); [reflexivity |].
    unfold issue_at; simpl.
    replace (seq_issues db + 1 =? x) with false
      by (symmetry; apply Z.eqb_neq; congruence).
    rewrite andb_false_r. reflexivity.
  - intros r. unfold GetIssueByID. rewrite Hfresh. reflexivity.
Qed.

Lemma created_issue_is_read_back_witness :
  exists i, GetIssueByID (snd (CreateIssue sample_db 1 7 "New" "issue" 40)) 1 3 = Ok i /\
            iTitle i = "New" /\ iState i = IssueStateOpen.
Proof.
  destruct (created_issue_is_read_back sample_db
              (snd (CreateIssue sample_db 1 7 "New" "issue" 40))
              1 7 "New" "issue" 40 3 sample_db_keys eq_refl)
    as [[i (H1 & _ & _ & _ & H5 & _ & H7 & _)] _].
  exists i. repeat split; assumption.
Defined.

(** X6.  [DeleteIssue] never reports an error.  Afterwards the issue is not found,
    every other issue reads as before, and, when the issue was there, exactly
    the edges that name it are gone; when it was not there, nothing changed. *)
Theorem deleted_issue_is_gone :
  forall (db : DB) (repoID id : Z),
    fst (DeleteIssue db repoID id) = None /\
    GetIssueByID (snd (DeleteIssue db repoID id)) repoID id = Err ErrNoRows /\
    (forall r x, (r, x) <> (repoID, id) ->
       GetIssueByID (snd (DeleteIssue db repoID id)) r x = GetIssueByID db r x) /\
    (forall i, GetIssueByID db repoID id = Ok i ->
       forall d, In d (issue_dependencies (snd (DeleteIssue db repoID id))) <->
                 In d (issue_dependencies db) /\ dIssueID d <> id /\ dDependsOnID d <> id) /\
    (GetIssueByID db repoID id = Err ErrNoRows -> snd (DeleteIssue db repoID id) = db).
Proof.
  intros db repoID id. split; [reflexivity |].
  split; [| split; [| split]].
  - unfold GetIssueByID, DeleteIssue, delete_issues_where; simpl.
    rewrite find_all_false; [reflexivity |].
    intros x Hx. apply In_delete_where in Hx. tauto.
  - intros r x Hne. unfold GetIssueByID, DeleteIssue, delete_issues_where; simpl.
    unfold delete_where. rewrite find_filter_kept; [reflexivity |].
    intros y _ Hy. apply negb_true_iff.
    unfold issue_at in *. apply andb_true_iff in Hy. destruct Hy as [Hr Hi].
    apply Z.eqb_eq in Hr. apply Z.eqb_eq in Hi.
    apply andb_false_iff.
    destruct (Z.eq_dec r repoID) as [-> | Hr'].
    + right. apply Z.eqb_neq. intros Heq. apply Hne. congruence.
    + left. apply Z.eqb_neq. congruence.
  - intros i Hget d. unfold GetIssueByID in Hget.
    destruct (find (issue_at repoID id) (issues db)) as [j|] eqn:Ef; [| discriminate].
    apply find_some in Ef. destruct Ef as [Hj Hat].
    assert (Hgone : forall x,
               mem x (map iID (filter (issue_at repoID id) (issues db))) = true
               <-> x = id).
    { intros x. rewrite mem_In, in_map_iff. split.
      - intros [y [Hy Hin]]. apply filter_In in Hin. destruct Hin as [_ Hin].
        unfold issue_at in Hin. apply andb_true_iff in Hin. destruct Hin as [_ Hin].
        apply Z.eqb_eq in Hin. congruence.
      - intros ->. exists j. split.
        + unfold issue_at in Hat. apply andb_true_iff in Hat. destruct Hat as [_ Hat].
          apply Z.eqb_eq in Hat. exact Hat.
        + apply filter_In. split; assumption. }
    unfold DeleteIssue, delete_issues_where; simpl.
    rewrite In_delete_where, orb_false_iff.
    split.
    + intros [Hin [H1 H2]]. split; [exact Hin |]. split.
      * intros Heq. apply Hgone in Heq. congruence.
      * intros Heq. apply Hgone in Heq. congruence.
    + intros [Hin [H1 H2]]. split; [exact Hin |]. split.
      * destruct (mem (dIssueID d) _) eqn:E; [| reflexivity].
        apply Hgone in E. contradiction.
      * destruct (mem (dDependsOnID d) _) eqn:E; [| reflexivity].
        apply Hgone in E. contradiction.
  - intros Hget. unfold GetIssueByID in Hget.
    destruct (find (issue_at repoID id) (issues db)) as [j|] eqn:Ef; [discriminate |].
    assert (Hex : existsb (issue_at repoID id) (issues db) = false).
    { destruct (existsb (issue_at repoID id) (issues db)) eqn:E; [| reflexivity].
      apply existsb_exists in E. destruct E as [x [Hx Hp]].
      apply (find_none _ _ Ef) in Hx. congruence. }
    unfold DeleteIssue, delete_issues_where; simpl.
    rewrite (filter_none _ _ Hex), (delete_where_none _ _ Hex). simpl.
    rewrite delete_where_none.
    + destruct db; reflexivity.
    + apply not_true_is_false. intros E. apply existsb_exists in E.
      destruct E as [x [_ Hp]]. discriminate.
Qed.

(** X7.  An id names an issue only within its repository: for an issue that
    belongs to another repository than the one given, the lookup finds no row
    and update, close, reopen and delete succeed without changing anything. *)
Theorem issue_of_another_repository_is_untouched :
  forall (db : DB) (i : Issue) (repoID actor now : Z) (title description : string),
    keys_ok db ->
    In i (issues db) ->
    iRepoID i <> repoID ->
    GetIssueByID db repoID (iID i) = Err ErrNoRows /\
    UpdateIssue db repoID (iID i) title description now = (None, db) /\
    CloseIssue db repoID (iID i) actor now = (None, db) /\
    ReopenIssue db repoID (iID i) now = (None, db) /\
    DeleteIssue db repoID (iID i) = (None, db).
Proof.
  intros db i repoID actor now title description Hk Hin Hne.
  destruct Hk as (Hnd & _).
  assert (Hno : forall x, In x (issues db) -> issue_at repoID (iID i) x = false).
  { intros x Hx. unfold issue_at. apply andb_false_iff.
    destruct (iID x =? iID i) eqn:E; [| right; reflexivity].
    apply Z.eqb_eq in E.
    assert (x = i) by (apply (unique_row iID (issues db)); assumption).
    subst x. left. apply Z.eqb_neq. exact Hne. }
  assert (Hex : existsb (issue_at repoID (iID i)) (issues db) = false).
  { apply not_true_is_false. intros E. apply existsb_exists in E.
    destruct E as [x [Hx Hp]]. rewrite (Hno x Hx) in Hp. discriminate. }
  assert (Hex' : forall st,
             existsb (issue_at_state repoID (iID i) st) (issues db) = false).
  { intros st. apply not_true_is_false. intros E. apply existsb_exists in E.
    destruct E as [x [Hx Hp]]. unfold issue_at_state in Hp.
    apply andb_true_iff in Hp. destruct Hp as [Hp _].
    specialize (Hno x Hx). unfold issue_at in Hno. congruence. }
  split; [| split; [| split; [| split]]].
  - unfold GetIssueByID. rewrite (find_all_false _ _ Hno). reflexivity.
  - unfold UpdateIssue. rewrite (update_where_unmatched _ _ _ Hex), with_issues_same.
    reflexivity.
  - unfold CloseIssue. rewrite (Hex' IssueStateOpen). simpl.
    rewrite (update_where_unmatched _ _ _ (Hex' IssueStateOpen)), with_issues_same.
    reflexivity.
  - unfold ReopenIssue.
    rewrite (update_where_unmatched _ _ _ (Hex' IssueStateClosed)), with_issues_same.
    reflexivity.
  - unfold DeleteIssue, delete_issues_where.
    rewrite (filter_none _ _ Hex), (delete_where_none _ _ Hex). simpl.
    rewrite delete_where_none.
    + destruct db; reflexivity.
    + apply not_true_is_false. intros E. apply existsb_exists in E.
      destruct E as [x [_ Hp]]. discriminate.
Qed.

Lemma issue_of_another_repository_is_untouched_witness :
  GetIssueByID sample_db_edges 1 3 = Err ErrNoRows /\
  DeleteIssue sample_db_edges 1 3 = (None, sample_db_edges).
Proof.
  destruct (issue_of_another_repository_is_untouched sample_db_edges
              (mkIssue 3 2 "Port" "to arm" IssueStateOpen 7 None None 12 12)
              1 7 40 "t" "d" sample_db_edges_keys)
    as (H1 & _ & _ & _ & H5).
  - simpl. right. right. left. reflexivity.
  - simpl. lia.
  - split; [exact H1 | exact H5].
Defined.

(** ** State and audit columns *)

Lemma Forall_update_where {A : Type} (P : A -> Prop) (p : A -> bool) (f : A -> A)
    (t : list A) :
  (forall x, P x -> p x = true -> P (f x)) ->
  Forall P t -> Forall P (update_where p f t).
Proof.
  intros Hf Ht. unfold update_where. induction Ht as [|x t Hx Ht IH]; simpl.
  - constructor.
  - constructor; [| exact IH]. destruct (p x) eqn:E; [apply Hf; assumption | exact Hx].
Qed.

Lemma Forall_delete_where {A : Type} (P : A -> Prop) (p : A -> bool) (t : list A) :
  Forall P t -> Forall P (delete_where p t).
Proof.
  intros Ht. rewrite Forall_forall in *. intros x Hx.
  apply In_delete_where in Hx. apply Ht. tauto.
Qed.

Lemma set_issue_text_audit title description now i :
  issue_audit_ok i -> issue_audit_ok (set_issue_text title description now i).
Proof. unfold issue_audit_ok. simpl. tauto. Qed.

Lemma set_issue_closed_audit closedBy now i : issue_audit_ok (set_issue_closed closedBy now i).
Proof. unfold issue_audit_ok. simpl. right. repeat split; discriminate. Qed.

Lemma set_issue_open_audit now i : issue_audit_ok (set_issue_open now i).
Proof. unfold issue_audit_ok. simpl. left. repeat split. Qed.

Lemma mr_audit_of_state m st :
  mr_audit_ok m -> mState m = st ->
  (st = MergeRequestStateOpen ->
   mMergedBy m = None /\ mMergedAt m = None /\ mClosedBy m = None /\ mClosedAt m = None) /\
  (st = MergeRequestStateClosed -> mMergedBy m = None /\ mMergedAt m = None).
Proof.
  unfold mr_audit_ok, MergeRequestStateOpen, MergeRequestStateMerged,
    MergeRequestStateClosed.
  intros [H | [H | H]] Hst; split; intros ->; intuition congruence.
Qed.

Lemma run_mr_op_audit (op : MROp) (db : DB) :
  audit_ok db -> audit_ok (snd (run_mr_op op db)).
Proof.
  intros [Hi Hm].
  destruct op; simpl;
    unfold CloseMergeRequest, ReopenMergeRequest, MergeMergeRequest, UpdateMergeRequest;
    try match goal with |- context [if ?c then _ else _] => destruct c end;
    simpl; try (split; assumption);
    (split; [exact Hi |]); simpl; apply Forall_update_where; try exact Hm;
    intros x Hx Hp;
    try (apply mr_at_state_inv in Hp; destruct Hp as (_ & _ & Hst);
         destruct (mr_audit_of_state x _ Hx Hst) as [Hopen Hclosed]).
  - destruct (Hopen eq_refl) as (H1 & H2 & _ & _).
    unfold mr_audit_ok; simpl. right. right. rewrite H1, H2.
    repeat split; discriminate.
  - destruct (Hclosed eq_refl) as (H1 & H2).
    unfold mr_audit_ok; simpl. left. rewrite H1, H2. repeat split.
  - destruct (Hopen eq_refl) as (_ & _ & H3 & H4).
    unfold mr_audit_ok; simpl. right. left. rewrite H3, H4.
    repeat split; discriminate.
  - unfold mr_audit_ok in *. simpl. exact Hx.
Qed.

Lemma Forall_snoc {A : Type} (P : A -> Prop) (t : list A) (x : A) :
  Forall P t -> P x -> Forall P (t ++ [x]).
Proof.
  intros Ht Hx. apply Forall_app. split; [exact Ht | constructor; [exact Hx | constructor]].
Qed.

Lemma run_store_op_audit (op : StoreOp) (db : DB) :
  audit_ok db -> audit_ok (run_store_op op db).
Proof.
  intros Ha. destruct op; simpl; try (apply run_mr_op_audit; exact Ha);
    destruct Ha as [Hi Hm].
  - unfold CreateIssue.
    repeat match goal with |- context [if ?c then _ else _] => destruct c end;
      simpl; try (split; assumption).
    split; [| exact Hm]. simpl. apply Forall_snoc; [exact Hi |].
    unfold issue_audit_ok; simpl. left. repeat split.
  - split; [| exact Hm]. simpl. apply Forall_update_where; [| exact Hi].
    intros x Hx _. apply set_issue_text_audit. exact Hx.
  - unfold CloseIssue.
    match goal with |- context [if ?c then _ else _] => destruct c end;
      simpl; [split; assumption |].
    split; [| exact Hm]. simpl. apply Forall_update_where; [| exact Hi].
    intros x _ _. apply set_issue_closed_audit.
  - split; [| exact Hm]. simpl. apply Forall_update_where; [| exact Hi].
    intros x _ _. apply set_issue_open_audit.
  - split; [| exact Hm]. simpl. apply Forall_delete_where. exact Hi.
  - unfold AddIssueDependency.
    repeat match goal with |- context [if ?c then _ else _] => destruct c end;
      simpl; split; assumption.
  - unfold RemoveIssueDependency.
    match goal with |- context [if ?c then _ else _] => destruct c end;
      simpl; split; assumption.
  - unfold CreateMergeRequest.
    repeat match goal with |- context [if ?c then _ else _] => destruct c end;
      simpl; try (split; assumption).
    split; [exact Hi |]. simpl. apply Forall_snoc; [exact Hm |].
    unfold mr_audit_ok; simpl. left. repeat split.
  - split; [exact Hi |]. simpl. apply Forall_delete_where. exact Hm.
  - unfold DeleteRepo, audit_ok; simpl. split; apply Forall_delete_where; assumption.
Qed.

Lemma sample_db_audit : audit_ok sample_db.
Proof.
  split; apply Forall_forall; intros x Hin; simpl in Hin;
    repeat (destruct Hin as [<- | Hin];
            [unfold issue_audit_ok, mr_audit_ok; simpl;
             first [ left; repeat split; (reflexivity || discriminate)
                   | right; left; repeat split; (reflexivity || discriminate)
                   | right; repeat split; (reflexivity || discriminate)
                   | right; right; repeat split; (reflexivity || discriminate) ] |]);
    contradiction.
Qed.

(** X8.  The audit columns follow the state, whatever statements run: an Open
    issue has no [closed_by] and no [closed_at] and a Closed one has both; an
    Open merge request has none of the four audit columns, a Merged one has
    [merged_by] and [merged_at] only, a Closed one [closed_by] and
    [closed_at] only; and no row ever has another state. *)
Theorem audit_columns_follow_state :
  forall (ops : list StoreOp) (db : DB),
    audit_ok db -> audit_ok (run_store_ops ops db).
Proof.
  intros ops. unfold run_store_ops.
  induction ops as [|op ops IH]; simpl; intros db Ha.
  - exact Ha.
  - apply IH. apply run_store_op_audit. exact Ha.
Qed.

Lemma audit_columns_follow_state_witness :
  audit_ok (run_store_ops [SCloseIssue 1 2 7 40; SMergeRequestOp (OpMerge 1 1 8 41);
                           SReopenIssue 1 1 42; SMergeRequestOp (OpClose 1 1 7 43)]
                          sample_db).
Proof.
  apply (audit_columns_follow_state
           [SCloseIssue 1 2 7 40; SMergeRequestOp (OpMerge 1 1 8 41);
            SReopenIssue 1 1 42; SMergeRequestOp (OpClose 1 1 7 43)] sample_db).
  exact sample_db_audit.
Defined.

(** ** Dependencies between issues *)

Section Counting.
Context {A K : Type}.
Variable key : A -> K.

Lemma filter_nonempty (p : A -> bool) (t : list A) :
  (1 <= List.length (filter p t))%nat -> exists y, In y t /\ p y = true.
Proof.
  intros H. destruct (filter p t) as [|y l] eqn:E; [simpl in H; lia |].
  assert (Hy : In y (filter p t)) by (rewrite E; left; reflexivity).
  apply filter_In in Hy. exists y. exact Hy.
Qed.

Lemma two_matches (p : A -> bool) (t : list A) :
  NoDup (map key t) -> (2 <= List.length (filter p t))%nat ->
  exists x y, In x t /\ In y t /\ p x = true /\ p y = true /\ key x <> key y.
Proof.
  induction t as [|z t IH]; simpl; intros Hnd H; [lia |].
  inversion Hnd as [|k ks Hnotin Hnd' Hk]; subst.
  destruct (p z) eqn:Ez.
  - simpl in H.
    destruct (filter_nonempty p t) as [y [Hy Hpy]]; [lia |].
    exists z, y. repeat split; auto.
    intros Heq. apply Hnotin. rewrite Heq. apply in_map. exact Hy.
  - destruct (IH Hnd' H) as (x & y & Hx & Hy & Hpx & Hpy & Hne).
    exists x, y. repeat split; auto.
Qed.

Lemma matches_at_least_two (p : A -> bool) (t : list A) (x y : A) :
  In x t -> In y t -> p x = true -> p y = true -> key x <> key y ->
  (2 <= List.length (filter p t))%nat.
Proof.
  induction t as [|z t IH]; simpl; intros Hx Hy Hpx Hpy Hne; [contradiction |].
  assert (Hone : forall u, In u t -> p u = true -> (1 <= List.length (filter p t))%nat).
  { intros u Hu Hpu.
    assert (Hin : In u (filter p t)) by (apply filter_In; auto).
    destruct (filter p t); [contradiction | simpl; lia]. }
  destruct Hx as [-> | Hx], Hy as [-> | Hy].
  - contradiction.
  - rewrite Hpx. simpl. specialize (Hone y Hy Hpy). lia.
  - rewrite Hpy. simpl. specialize (Hone x Hx Hpx). lia.
  - specialize (IH Hx Hy Hpx Hpy Hne). destruct (p z); simpl; lia.
Qed.

Lemma filter_or_length (p q : A -> bool) (t : list A) :
  (List.length (filter (fun x => p x || q x) t)
   <= List.length (filter p t) + List.length (filter q t))%nat.
Proof.
  induction t as [|z t IH]; simpl; [lia |].
  destruct (p z), (q z); simpl; lia.
Qed.

End Counting.

Lemma existsb_issue_at db repoID id :
  existsb (issue_at repoID id) (issues db) = true <->
  exists i, In i (issues db) /\ iRepoID i = repoID /\ iID i = id.
Proof.
  rewrite existsb_exists. unfold issue_at. split.
  - intros [i [Hin H]]. apply andb_true_iff in H. rewrite !Z.eqb_eq in H.
    exists i. tauto.
  - intros [i (Hin & Hr & Hi)]. exists i. split; [exact Hin |].
    rewrite Hr, Hi, !Z.eqb_refl. reflexivity.
Qed.

(** The count that [AddIssueDependency] compares with 2. *)
Lemma both_in_repository_count db repoID a b :
  NoDup (map iID (issues db)) ->
  (rows_matched (fun i => (iRepoID i =? repoID) && ((iID i =? a) || (iID i =? b)))
                (issues db) =? 2)
  = existsb (issue_at repoID a) (issues db) && existsb (issue_at repoID b) (issues db)
    && negb (a =? b).
Proof.
  intros Hnd. unfold rows_matched.
  set (P := fun i => (iRepoID i =? repoID) && ((iID i =? a) || (iID i =? b))).
  assert (HP : forall x, P x = true <-> iRepoID x = repoID /\ (iID x = a \/ iID x = b)).
  { intros x. unfold P. rewrite andb_true_iff, orb_true_iff, !Z.eqb_eq. reflexivity. }
  assert (Hle : (List.length (filter P (issues db)) <= 2)%nat).
  { apply Nat.le_trans
      with (List.length (filter (fun i => (iID i =? a) || (iID i =? b)) (issues db))).
    - apply filter_length_mono. intros x Hx. unfold P in Hx.
      apply andb_true_iff in Hx. tauto.
    - assert (H1 := primary_key_selects_at_most_one iID a (issues db) Hnd).
      assert (H2 := primary_key_selects_at_most_one iID b (issues db) Hnd).
      assert (H3 := filter_or_length (fun i => iID i =? a) (fun i => iID i =? b)
                      (issues db)).
      lia. }
  destruct (Z.of_nat (List.length (filter P (issues db))) =? 2) eqn:E.
  - apply Z.eqb_eq in E. symmetry.
    destruct (two_matches iID P (issues db) Hnd) as (x & y & Hx & Hy & Hpx & Hpy & Hne);
      [lia |].
    apply HP in Hpx. apply HP in Hpy.
    destruct Hpx as [Hrx [Hix | Hix]], Hpy as [Hry [Hiy | Hiy]];
      try (exfalso; apply Hne; congruence).
    + rewrite !andb_true_iff. repeat split.
      * apply existsb_issue_at. exists x. auto.
      * apply existsb_issue_at. exists y. auto.
      * apply negb_true_iff, Z.eqb_neq. congruence.
    + rewrite !andb_true_iff. repeat split.
      * apply existsb_issue_at. exists y. auto.
      * apply existsb_issue_at. exists x. auto.
      * apply negb_true_iff, Z.eqb_neq. congruence.
  - apply Z.eqb_neq in E. symmetry. apply not_true_is_false. intros H.
    rewrite !andb_true_iff, negb_true_iff, Z.eqb_neq in H.
    destruct H as [[Ha Hb] Hab].
    apply existsb_issue_at in Ha. destruct Ha as [x (Hx & Hrx & Hix)].
    apply existsb_issue_at in Hb. destruct Hb as [y (Hy & Hry & Hiy)].
    assert (H2 : (2 <= List.length (filter P (issues db)))%nat).
    { apply (matches_at_least_two iID P (issues db) x y); auto.
      - apply HP. auto.
      - apply HP. auto.
      - congruence. }
    apply E. lia.
Qed.

Lemma issue_at_exists db repoID id :
  existsb (issue_at repoID id) (issues db) = true -> issue_exists db id = true.
Proof.
  intros H. apply existsb_issue_at in H. destruct H as [i (Hin & _ & Hi)].
  unfold issue_exists. apply mem_In. rewrite <- Hi. apply in_map. exact Hin.
Qed.

(** What [AddIssueDependency] does, case by case. *)
Lemma AddIssueDependency_outcome db repoID a b now :
  NoDup (map iID (issues db)) ->
  AddIssueDependency db repoID a b now
  = if negb (existsb (issue_at repoID a) (issues db)
             && existsb (issue_at repoID b) (issues db) && negb (a =? b))
    then (Some ErrNoRows, db)
    else if existsb (edge_at a b) (issue_dependencies db)
    then (Some (ErrConstraint "unique_dependency"), db)
    else (None,
          with_issue_dependencies db
            (issue_dependencies db
             ++ [mkIssueDependency (seq_issue_dependencies db + 1) a b now])
            (seq_issue_dependencies db + 1)).
Proof.
  intros Hnd. unfold AddIssueDependency.
  rewrite (both_in_repository_count db repoID a b Hnd).
  destruct (existsb (issue_at repoID a) (issues db)) eqn:Ea; [| reflexivity].
  destruct (existsb (issue_at repoID b) (issues db)) eqn:Eb; [| reflexivity].
  destruct (a =? b) eqn:Eab; [reflexivity |]. simpl.
  rewrite (issue_at_exists _ _ _ Ea), (issue_at_exists _ _ _ Eb). simpl.
  destruct (existsb (edge_at a b) (issue_dependencies db)); reflexivity.
Qed.

Lemma GetIssueByID_found db repoID id :
  (exists i, GetIssueByID db repoID id = Ok i) <->
  existsb (issue_at repoID id) (issues db) = true.
Proof.
  unfold GetIssueByID. split.
  - intros [i H]. destruct (find (issue_at repoID id) (issues db)) as [j|] eqn:E;
      [| discriminate].
    apply find_some in E. apply existsb_exists. exists j. exact E.
  - intros H. apply existsb_exists in H. destruct H as [x [Hx Hp]].
    destruct (find (issue_at repoID id) (issues db)) as [j|] eqn:E.
    + exists j. reflexivity.
    + apply (find_none _ _ E) in Hx. congruence.
Qed.

Lemma rows_matched_pos {A : Type} (p : A -> bool) (t : list A) :
  (rows_matched p t =? 0) = negb (existsb p t).
Proof.
  destruct (existsb p t) eqn:E; simpl.
  - apply Z.eqb_neq. intros H. apply rows_matched_zero in H. congruence.
  - apply Z.eqb_eq. apply rows_matched_zero. exact E.
Qed.

Lemma rows_matched_gt {A : Type} (p : A -> bool) (t : list A) :
  (0 <? rows_matched p t) = existsb p t.
Proof.
  assert (H := rows_matched_pos p t). assert (Hn := rows_matched_nonneg p t).
  destruct (existsb p t); simpl in H.
  - apply Z.eqb_neq in H. apply Z.ltb_lt. lia.
  - apply Z.eqb_eq in H. apply Z.ltb_ge. lia.
Qed.

Lemma existsb_snoc {A : Type} (p : A -> bool) (t : list A) (x : A) :
  existsb p (t ++ [x]) = existsb p t || p x.
Proof. rewrite existsb_app. simpl. rewrite orb_false_r. reflexivity. Qed.

Lemma HasIssueDependency_outcome db repoID a b :
  HasIssueDependency db repoID a b
  = if existsb (issue_at repoID a) (issues db)
    then Ok (existsb (edge_at a b) (issue_dependencies db))
    else Err ErrNoRows.
Proof.
  unfold HasIssueDependency. rewrite rows_matched_pos, rows_matched_gt.
  destruct (existsb (issue_at repoID a) (issues db)); reflexivity.
Qed.

Lemma GetIssueByID_missing db repoID id :
  GetIssueByID db repoID id = Err ErrNoRows <->
  existsb (issue_at repoID id) (issues db) = false.
Proof.
  split.
  - intros H. apply not_true_is_false. intros E.
    apply GetIssueByID_found in E. destruct E as [i Hi]. congruence.
  - intros H. unfold GetIssueByID.
    destruct (find (issue_at repoID id) (issues db)) as [j|] eqn:E; [| reflexivity].
    apply find_some in E. destruct E as [Hin Hp].
    assert (Ht : existsb (issue_at repoID id) (issues db) = true)
      by (apply existsb_exists; exists j; auto).
    congruence.
Qed.

Lemma In_join_issues_edges (c : Issue -> IssueDependency -> bool) (db : DB) (j : Issue) :
  In j (join_issues_edges c db) <->
  In j (issues db) /\ exists d, In d (issue_dependencies db) /\ c j d = true.
Proof.
  unfold join_issues_edges. rewrite in_flat_map. split.
  - intros [i [Hi Hin]]. apply in_map_iff in Hin. destruct Hin as [d [-> Hd]].
    apply filter_In in Hd. split; [exact Hi |]. exists d. exact Hd.
  - intros [Hj [d [Hd Hc]]]. exists j. split; [exact Hj |].
    apply in_map_iff. exists d. split; [reflexivity |]. apply filter_In. auto.
Qed.

(** X9.  [AddIssueDependency], outcome by outcome.  It succeeds exactly when the
    two ids are different, both issues are in the given repository and the
    edge is not there yet.  When one of the issues is not in the repository
    it returns [sql.ErrNoRows]; when both are and the edge exists already it
    is refused by [unique_dependency]; a failed call changes nothing. *)
Theorem add_dependency_outcome :
  forall (db : DB) (repoID a b now : Z),
    keys_ok db ->
    (fst (AddIssueDependency db repoID a b now) = None <->
     a <> b /\
     (exists ia, GetIssueByID db repoID a = Ok ia) /\
     (exists ib, GetIssueByID db repoID b = Ok ib) /\
     HasIssueDependency db repoID a b = Ok false) /\
    (GetIssueByID db repoID a = Err ErrNoRows \/ GetIssueByID db repoID b = Err ErrNoRows ->
     AddIssueDependency db repoID a b now = (Some ErrNoRows, db)) /\
    (a <> b -> (exists ib, GetIssueByID db repoID b = Ok ib) ->
     HasIssueDependency db repoID a b = Ok true ->
     AddIssueDependency db repoID a b now
       = (Some (ErrConstraint "unique_dependency"), db)) /\
    (fst (AddIssueDependency db repoID a b now) <> None ->
     snd (AddIssueDependency db repoID a b now) = db).
Proof.
  intros db repoID a b now Hk. destruct Hk as (Hnd & _).
  rewrite (AddIssueDependency_outcome db repoID a b now Hnd).
  rewrite HasIssueDependency_outcome, !GetIssueByID_found, !GetIssueByID_missing.
  destruct (existsb (issue_at repoID a) (issues db)) eqn:Ea;
    destruct (existsb (issue_at repoID b) (issues db)) eqn:Eb;
    destruct (Z.eqb_spec a b) as [Eab | Eab];
    destruct (existsb (edge_at a b) (issue_dependencies db)) eqn:Ee; simpl;
    repeat split; try tauto; try congruence; try discriminate;
    try (intros; exfalso; intuition (congruence || discriminate)).
Qed.

Lemma add_dependency_outcome_witness :
  fst (AddIssueDependency sample_db_edges 1 2 1 40) = None /\
  AddIssueDependency sample_db_edges 1 1 3 40 = (Some ErrNoRows, sample_db_edges) /\
  AddIssueDependency sample_db_edges 1 1 2 40
    = (Some (ErrConstraint "unique_dependency"), sample_db_edges).
Proof.
  destruct (add_dependency_outcome sample_db_edges 1 2 1 40 sample_db_edges_keys)
    as (H1 & _).
  destruct (add_dependency_outcome sample_db_edges 1 1 3 40 sample_db_edges_keys)
    as (_ & H2 & _).
  destruct (add_dependency_outcome sample_db_edges 1 1 2 40 sample_db_edges_keys)
    as (_ & _ & H3 & _).
  split; [| split].
  - apply H1. split; [discriminate |].
    split; [eexists; reflexivity |]. split; [eexists; reflexivity | reflexivity].
  - apply H2. right. reflexivity.
  - apply H3; [discriminate | eexists; reflexivity | reflexivity].
Defined.

Lemma AddIssueDependency_reported :
  forall (db : DB) (repoID a b now : Z),
    keys_ok db ->
    fst (AddIssueDependency db repoID a b now) = None ->
    let db' := snd (AddIssueDependency db repoID a b now) in
    HasIssueDependency db' repoID a b = Ok true /\
    exists ia ib dependencies dependents,
      GetIssueByID db' repoID a = Ok ia /\
      GetIssueByID db' repoID b = Ok ib /\
      GetIssueDependencies db' repoID a = Ok dependencies /\ In ib dependencies /\
      GetIssueDependents db' repoID b = Ok dependents /\ In ia dependents.
Proof.
  intros db repoID a b now Hk Hok. destruct Hk as (Hnd & _).
  rewrite (AddIssueDependency_outcome db repoID a b now Hnd) in *.
  destruct (existsb (issue_at repoID a) (issues db)) eqn:Ea; [| discriminate].
  destruct (existsb (issue_at repoID b) (issues db)) eqn:Eb; [| discriminate].
  destruct (a =? b) eqn:Eab; [discriminate |].
  destruct (existsb (edge_at a b) (issue_dependencies db)) eqn:Ee; [discriminate |].
  simpl. clear Hok.
  split.
  - rewrite HasIssueDependency_outcome. simpl. rewrite Ea, existsb_snoc.
    unfold edge_at at 2. simpl. rewrite !Z.eqb_refl, orb_true_r. reflexivity.
  - destruct (proj2 (GetIssueByID_found db repoID a) Ea) as [ia Hia].
    destruct (proj2 (GetIssueByID_found db repoID b) Eb) as [ib Hib].
    exists ia, ib. do 2 eexists.
    split; [exact Hia |]. split; [exact Hib |].
    unfold GetIssueByID in Hia, Hib.
    destruct (find (issue_at repoID a) (issues db)) as [xa|] eqn:Fa; [| discriminate].
    destruct (find (issue_at repoID b) (issues db)) as [xb|] eqn:Fb; [| discriminate].
    inversion Hia; subst xa. inversion Hib; subst xb.
    apply find_some in Fa. apply find_some in Fb.
    destruct Fa as [Hina Hata], Fb as [Hinb Hatb].
    unfold issue_at in Hata, Hatb.
    apply andb_true_iff in Hata. apply andb_true_iff in Hatb.
    destruct Hata as [Hra Hida], Hatb as [Hrb Hidb].
    split; [reflexivity |]. split.
    + apply order_by_desc_In. apply In_join_issues_edges. simpl.
      split; [exact Hinb |].
      eexists. split; [apply in_or_app; right; left; reflexivity |].
      simpl. rewrite Hidb, Hrb, Z.eqb_refl. reflexivity.
    + split; [reflexivity |].
      apply order_by_desc_In. apply In_join_issues_edges. simpl.
      split; [exact Hina |].
      eexists. split; [apply in_or_app; right; left; reflexivity |].
      simpl. rewrite Hida, Hra, Z.eqb_refl. reflexivity.
Qed.

(** X10.  A dependency that was added is reported: after a successful
    [AddIssueDependency], [HasIssueDependency] answers true, the issue
    depended on is among the dependencies of the dependent issue, and the
    dependent issue is among the dependents of the issue depended on. *)
Theorem added_dependency_is_reported :
  forall (db : DB) (repoID a b now : Z),
    keys_ok db ->
    fst (AddIssueDependency db repoID a b now) = None ->
    let db' := snd (AddIssueDependency db repoID a b now) in
    HasIssueDependency db' repoID a b = Ok true /\
    exists ia ib dependencies dependents,
      GetIssueByID db' repoID a = Ok ia /\
      GetIssueByID db' repoID b = Ok ib /\
      GetIssueDependencies db' repoID a = Ok dependencies /\ In ib dependencies /\
      GetIssueDependents db' repoID b = Ok dependents /\ In ia dependents.
Proof.
  intros db repoID a b now Hk Hok. apply AddIssueDependency_reported; assumption.
Qed.

Lemma added_dependency_is_reported_witness :
  HasIssueDependency (snd (AddIssueDependency sample_db_edges 1 2 1 40)) 1 2 1 = Ok true.
Proof.
  exact (proj1 (added_dependency_is_reported sample_db_edges 1 2 1 40
                  sample_db_edges_keys eq_refl)).
Defined.

(** X11.  No cycle check is made: once [a] depends on [b], making [b] depend on
    [a] succeeds as well, unless that edge is there already. *)
Theorem mutual_dependency_is_accepted :
  forall (db : DB) (repoID a b t1 t2 : Z),
    keys_ok db ->
    fst (AddIssueDependency db repoID a b t1) = None ->
    HasIssueDependency db repoID b a = Ok false ->
    let db1 := snd (AddIssueDependency db repoID a b t1) in
    fst (AddIssueDependency db1 repoID b a t2) = None /\
    HasIssueDependency (snd (AddIssueDependency db1 repoID b a t2)) repoID a b = Ok true /\
    HasIssueDependency (snd (AddIssueDependency db1 repoID b a t2)) repoID b a = Ok true.
Proof.
  intros db repoID a b t1 t2 Hk Hok Hno. destruct Hk as (Hnd & _).
  rewrite (AddIssueDependency_outcome db repoID a b t1 Hnd) in *.
  rewrite HasIssueDependency_outcome in Hno.
  destruct (existsb (issue_at repoID a) (issues db)) eqn:Ea; [| discriminate].
  destruct (existsb (issue_at repoID b) (issues db)) eqn:Eb; [| discriminate].
  destruct (a =? b) eqn:Eab; [discriminate |].
  destruct (existsb (edge_at a b) (issue_dependencies db)) eqn:Ee; [discriminate |].
  simpl in *. clear Hok. inversion Hno as [Hba]. clear Hno.
  assert (Hnew : forall id t, edge_at b a (mkIssueDependency id a b t) = false).
  { intros id t. unfold edge_at; simpl. rewrite Eab. reflexivity. }
  assert (Hself : forall x y id t, edge_at x y (mkIssueDependency id x y t) = true).
  { intros x y id t. unfold edge_at; simpl. rewrite !Z.eqb_refl. reflexivity. }
  rewrite AddIssueDependency_outcome by exact Hnd.
  cbn [issues issue_dependencies with_issue_dependencies].
  rewrite Ea, Eb, (Z.eqb_sym b a), Eab, existsb_snoc, Hba, Hnew.
  cbn [andb orb negb fst snd].
  rewrite !HasIssueDependency_outcome.
  cbn [issues issue_dependencies with_issue_dependencies].
  rewrite Ea, Eb, !existsb_snoc, !Hself, !orb_true_r.
  repeat split; reflexivity.
Qed.

Lemma mutual_dependency_is_accepted_witness :
  fst (AddIssueDependency (snd (AddIssueDependency sample_db 1 1 2 40)) 1 2 1 41) = None.
Proof.
  exact (proj1 (mutual_dependency_is_accepted sample_db 1 1 2 40 41
                  sample_db_keys eq_refl eq_refl)).
Defined.

(** X12.  [RemoveIssueDependency] looks only at the dependent issue: when it is in
    the repository the call succeeds whether or not the edge existed, the
    edge is not reported afterwards, exactly the edges from [a] to [b] are
    gone and the issues are untouched; when it is not in the repository the
    call returns [sql.ErrNoRows] and changes nothing. *)
Theorem removed_dependency_is_not_reported :
  forall (db : DB) (repoID a b : Z),
    ((exists ia, GetIssueByID db repoID a = Ok ia) ->
     let db' := snd (RemoveIssueDependency db repoID a b) in
     fst (RemoveIssueDependency db repoID a b) = None /\
     HasIssueDependency db' repoID a b = Ok false /\
     issues db' = issues db /\
     (forall d, In d (issue_dependencies db') <->
                In d (issue_dependencies db) /\ ~ (dIssueID d = a /\ dDependsOnID d = b)) /\
     (HasIssueDependency db repoID a b = Ok false -> db' = db)) /\
    (GetIssueByID db repoID a = Err ErrNoRows ->
     RemoveIssueDependency db repoID a b = (Some ErrNoRows, db)).
Proof.
  intros db repoID a b. split.
  - intros Hex. apply GetIssueByID_found in Hex.
    unfold RemoveIssueDependency. rewrite rows_matched_pos, Hex. simpl.
    split; [reflexivity |]. split; [| split; [reflexivity | split]].
    + rewrite HasIssueDependency_outcome. simpl. rewrite Hex.
      f_equal. apply not_true_is_false. intros E. apply existsb_exists in E.
      destruct E as [d [Hd Hp]]. apply In_delete_where in Hd.
      destruct Hd as [_ Hd]. congruence.
    + intros d. rewrite In_delete_where. unfold edge_at.
      rewrite andb_false_iff, !Z.eqb_neq. split.
      * intros [Hin Hne]. split; [exact Hin | tauto].
      * intros [Hin Hne]. split; [exact Hin |].
        destruct (Z.eq_dec (dIssueID d) a); [right | left]; tauto.
    + rewrite HasIssueDependency_outcome, Hex. intros Hno. inversion Hno as [Hno'].
      simpl. rewrite (delete_where_none _ _ Hno'). destruct db; reflexivity.
  - intros Hmiss. apply GetIssueByID_missing in Hmiss.
    unfold RemoveIssueDependency. rewrite rows_matched_pos, Hmiss. reflexivity.
Qed.

Lemma removed_dependency_is_not_reported_witness :
  HasIssueDependency (snd (RemoveIssueDependency sample_db_edges 1 1 2)) 1 1 2 = Ok false /\
  RemoveIssueDependency sample_db_edges 2 1 2 = (Some ErrNoRows, sample_db_edges).
Proof.
  destruct (removed_dependency_is_not_reported sample_db_edges 1 1 2) as [H1 _].
  destruct (removed_dependency_is_not_reported sample_db_edges 2 1 2) as [_ H2].
  split.
  - apply H1. eexists. reflexivity.
  - apply H2. reflexivity.
Defined.

(** X13.  The dependencies of an issue are the issues of the repository that an
    edge from it points at, the dependents those that have an edge to it,
    both newest first; and the two listings are converse to each other:
    [ib] is a dependency of [ia] exactly when [ia] is a dependent of [ib]. *)
Theorem dependencies_and_dependents_are_converse :
  forall (db : DB) (repoID : Z),
    (forall a, exists l,
        GetIssueDependencies db repoID a = Ok l /\ newest_first iCreatedAt l /\
        forall j, In j l <->
                  In j (issues db) /\ iRepoID j = repoID /\
                  existsb (edge_at a (iID j)) (issue_dependencies db) = true) /\
    (forall b, exists l,
        GetIssueDependents db repoID b = Ok l /\ newest_first iCreatedAt l /\
        forall j, In j l <->
                  In j (issues db) /\ iRepoID j = repoID /\
                  existsb (edge_at (iID j) b) (issue_dependencies db) = true) /\
    (forall ia ib dependencies dependents,
        In ia (issues db) -> iRepoID ia = repoID ->
        In ib (issues db) -> iRepoID ib = repoID ->
        GetIssueDependencies db repoID (iID ia) = Ok dependencies ->
        GetIssueDependents db repoID (iID ib) = Ok dependents ->
        (In ib dependencies <-> In ia dependents)).
Proof.
  intros db repoID.
  assert (Hdeps : forall a j,
             In j (order_by_desc iCreatedAt
                     (join_issues_edges
                        (fun i d => (iID i =? dDependsOnID d) && (dIssueID d =? a)
                                    && (iRepoID i =? repoID)) db)) <->
             In j (issues db) /\ iRepoID j = repoID /\
             existsb (edge_at a (iID j)) (issue_dependencies db) = true).
  { intros a j. rewrite order_by_desc_In, In_join_issues_edges, existsb_exists.
    unfold edge_at. split.
    - intros [Hj [d [Hd Hc]]]. rewrite !andb_true_iff, !Z.eqb_eq in Hc.
      repeat split; try tauto. exists d. split; [exact Hd |].
      rewrite andb_true_iff, !Z.eqb_eq. intuition congruence.
    - intros (Hj & Hr & [d [Hd Hc]]). rewrite andb_true_iff, !Z.eqb_eq in Hc.
      split; [exact Hj |]. exists d. split; [exact Hd |].
      rewrite !andb_true_iff, !Z.eqb_eq. intuition congruence. }
  assert (Hdpts : forall b j,
             In j (order_by_desc iCreatedAt
                     (join_issues_edges
                        (fun i d => (iID i =? dIssueID d) && (dDependsOnID d =? b)
                                    && (iRepoID i =? repoID)) db)) <->
             In j (issues db) /\ iRepoID j = repoID /\
             existsb (edge_at (iID j) b) (issue_dependencies db) = true).
  { intros b j. rewrite order_by_desc_In, In_join_issues_edges, existsb_exists.
    unfold edge_at. split.
    - intros [Hj [d [Hd Hc]]]. rewrite !andb_true_iff, !Z.eqb_eq in Hc.
      repeat split; try tauto. exists d. split; [exact Hd |].
      rewrite andb_true_iff, !Z.eqb_eq. intuition congruence.
    - intros (Hj & Hr & [d [Hd Hc]]). rewrite andb_true_iff, !Z.eqb_eq in Hc.
      split; [exact Hj |]. exists d. split; [exact Hd |].
      rewrite !andb_true_iff, !Z.eqb_eq. intuition congruence. }
  split; [| split].
  - intros a. eexists. split; [reflexivity |].
    split; [apply order_by_desc_sorted | apply Hdeps].
  - intros b. eexists. split; [reflexivity |].
    split; [apply order_by_desc_sorted | apply Hdpts].
  - intros ia ib dependencies dependents Ha Hra Hb Hrb H1 H2.
    unfold GetIssueDependencies in H1. unfold GetIssueDependents in H2.
    inversion H1; subst dependencies. inversion H2; subst dependents.
    rewrite Hdeps, Hdpts. tauto.
Qed.

Lemma dependencies_and_dependents_are_converse_witness :
  exists dependents,
    GetIssueDependents sample_db_edges 1 2 = Ok dependents /\
    In (mkIssue 1 1 "Fix bug" "crash" IssueStateClosed 7 (Some 7) (Some 20) 10 20)
       dependents.
Proof.
  destruct (dependencies_and_dependents_are_converse sample_db_edges 1) as (_ & _ & H).
  eexists. split; [reflexivity |].
  refine (proj1 (H (mkIssue 1 1 "Fix bug" "crash" IssueStateClosed 7 (Some 7) (Some 20)
                            10 20)
                   (mkIssue 2 1 "Add docs" "readme" IssueStateOpen 8 None None 11 11)
                   _ _ _ eq_refl _ eq_refl eq_refl eq_refl) _).
  - simpl. left. reflexivity.
  - simpl. right. left. reflexivity.
  - simpl. left. reflexivity.
Defined.

(** *** The edges join issues of one repository *)

Lemma repo_of_issue_of_row (db : DB) (x : Issue) :
  NoDup (map iID (issues db)) -> In x (issues db) ->
  repo_of_issue db (iID x) = Some (iRepoID x).
Proof.
  intros Hnd Hx. unfold repo_of_issue.
  destruct (find (fun i => iID i =? iID x) (issues db)) as [y|] eqn:E.
  - apply find_some in E. destruct E as [Hy Heq]. apply Z.eqb_eq in Heq.
    assert (y = x) by (apply (unique_row iID (issues db)); assumption).
    subst y. reflexivity.
  - apply (find_none _ _ E) in Hx. rewrite Z.eqb_refl in Hx. discriminate.
Qed.

Lemma repo_of_issue_row (db : DB) (id r : Z) :
  repo_of_issue db id = Some r ->
  exists x, In x (issues db) /\ iID x = id /\ iRepoID x = r.
Proof.
  unfold repo_of_issue. intros H.
  destruct (find (fun i => iID i =? id) (issues db)) as [y|] eqn:E; [| discriminate].
  apply find_some in E. destruct E as [Hy Heq]. apply Z.eqb_eq in Heq.
  simpl in H. inversion H. exists y. auto.
Qed.

Lemma edges_ok_same_tables (db db' : DB) :
  issues db' = issues db -> issue_dependencies db' = issue_dependencies db ->
  edges_ok db -> edges_ok db'.
Proof.
  unfold edges_ok, repo_of_issue. intros -> ->. tauto.
Qed.

Lemma edges_ok_issues_rewritten (p : Issue -> bool) (f : Issue -> Issue) (db : DB) :
  (forall r, iID (f r) = iID r) -> (forall r, iRepoID (f r) = iRepoID r) ->
  edges_ok db -> edges_ok (with_issues db (update_where p f (issues db)) (seq_issues db)).
Proof.
  intros Hid Hrepo [Hnd He]. unfold edges_ok. simpl. split; [exact Hnd |].
  assert (Hsame : forall id,
             repo_of_issue (with_issues db (update_where p f (issues db)) (seq_issues db)) id
             = repo_of_issue db id).
  { intros id. unfold repo_of_issue. simpl. rewrite find_update_where.
    - destruct (find (fun i => iID i =? id) (issues db)) as [y|]; simpl; [| reflexivity].
      destruct (p y); [rewrite Hrepo |]; reflexivity.
    - intros r. destruct (p r); [rewrite Hid |]; reflexivity. }
  intros d Hd. rewrite !Hsame. apply He. exact Hd.
Qed.

Lemma edges_ok_delete_issues_where (p : Issue -> bool) (db : DB) :
  edges_ok db -> edges_ok (delete_issues_where p db).
Proof.
  intros [Hnd He]. unfold edges_ok, delete_issues_where. simpl. split.
  - apply NoDup_map_filter. exact Hnd.
  - intros d Hd. apply In_delete_where in Hd. destruct Hd as [Hd Hkeep].
    apply orb_false_iff in Hkeep. destruct Hkeep as [K1 K2].
    destruct (He d Hd) as [Hne [r [R1 R2]]].
    split; [exact Hne |]. exists r.
    assert (Hkept : forall x,
               mem x (map iID (filter p (issues db))) = false ->
               find (fun i => iID i =? x) (delete_where p (issues db))
               = find (fun i => iID i =? x) (issues db)).
    { intros x Hx. unfold delete_where. apply find_filter_kept.
      intros y Hy Heq. apply Z.eqb_eq in Heq. apply negb_true_iff.
      destruct (p y) eqn:Ep; [| reflexivity].
      exfalso. apply (proj1 (gone_ids_spec p (issues db) x) Hx y Hy Ep).
      symmetry. exact Heq. }
    unfold repo_of_issue in *. simpl. rewrite (Hkept _ K1), (Hkept _ K2). auto.
Qed.

Lemma edges_ok_issue_created (db : DB) (row : Issue) (s : Z) :
  edges_ok db -> edges_ok (with_issues db (issues db ++ [row]) s).
Proof.
  intros [Hnd He]. unfold edges_ok. simpl. split; [exact Hnd |].
  intros d Hd. destruct (He d Hd) as [Hne [r [R1 R2]]].
  split; [exact Hne |]. exists r. unfold repo_of_issue in *. simpl.
  rewrite !find_snoc.
  destruct (find (fun i => iID i =? dIssueID d) (issues db)); [| discriminate].
  destruct (find (fun i => iID i =? dDependsOnID d) (issues db)); [| discriminate].
  auto.
Qed.

Lemma run_mr_op_tables (op : MROp) (db : DB) :
  issues (snd (run_mr_op op db)) = issues db /\
  issue_dependencies (snd (run_mr_op op db)) = issue_dependencies db.
Proof.
  destruct op; simpl;
    unfold CloseMergeRequest, ReopenMergeRequest, MergeMergeRequest, UpdateMergeRequest;
    try match goal with |- context [if ?c then _ else _] => destruct c end;
    simpl; split; reflexivity.
Qed.

Lemma run_store_op_edges (op : StoreOp) (db : DB) :
  keys_ok db -> edges_ok db -> edges_ok (run_store_op op db).
Proof.
  intros Hk He. destruct op; simpl.
  - unfold CreateIssue.
    repeat match goal with |- context [if ?c then _ else _] => destruct c end;
      simpl; try exact He.
    apply edges_ok_issue_created. exact He.
  - apply edges_ok_issues_rewritten; [reflexivity | reflexivity | exact He].
  - unfold CloseIssue.
    match goal with |- context [if ?c then _ else _] => destruct c end;
      simpl; [exact He |].
    apply edges_ok_issues_rewritten; [reflexivity | reflexivity | exact He].
  - apply edges_ok_issues_rewritten; [reflexivity | reflexivity | exact He].
  - apply edges_ok_delete_issues_where. exact He.
  - destruct Hk as (Hnd & _).
    rewrite (AddIssueDependency_outcome db repoID issueID dependsOnID now Hnd).
    destruct (existsb (issue_at repoID issueID) (issues db)) eqn:Ea; [| exact He].
    destruct (existsb (issue_at repoID dependsOnID) (issues db)) eqn:Eb; [| exact He].
    destruct (Z.eqb_spec issueID dependsOnID) as [Eab | Eab]; [exact He |].
    destruct (existsb (edge_at issueID dependsOnID) (issue_dependencies db)) eqn:Ee;
      [exact He |].
    simpl. destruct He as [Hnde He]. unfold edges_ok. simpl. split.
    + apply NoDup_map_snoc; [exact Hnde |]. simpl.
      intros Hin. apply in_map_iff in Hin. destruct Hin as [d [Hpair Hd]].
      inversion Hpair as [[H1 H2]].
      assert (Ht : existsb (edge_at issueID dependsOnID) (issue_dependencies db) = true).
      { apply existsb_exists. exists d. split; [exact Hd |].
        unfold edge_at. rewrite H1, H2, !Z.eqb_refl. reflexivity. }
      congruence.
    + intros d Hd. apply in_app_iff in Hd. destruct Hd as [Hd | [<- | []]].
      * apply He. exact Hd.
      * simpl. split; [exact Eab |]. exists repoID.
        apply existsb_issue_at in Ea. destruct Ea as [x (Hx & Hrx & Hix)].
        apply existsb_issue_at in Eb. destruct Eb as [y (Hy & Hry & Hiy)].
        assert (Rx := repo_of_issue_of_row db x Hnd Hx).
        assert (Ry := repo_of_issue_of_row db y Hnd Hy).
        rewrite Hix, Hrx in Rx. rewrite Hiy, Hry in Ry.
        split; assumption.
  - unfold RemoveIssueDependency.
    match goal with |- context [if ?c then _ else _] => destruct c end;
      simpl; [exact He |].
    destruct He as [Hnde He]. unfold edges_ok. simpl. split.
    + apply NoDup_map_filter. exact Hnde.
    + intros d Hd. apply In_delete_where in Hd. apply He. tauto.
  - unfold CreateMergeRequest.
    repeat match goal with |- context [if ?c then _ else _] => destruct c end;
      simpl; exact He.
  - destruct (run_mr_op_tables op db) as [H1 H2].
    apply (edges_ok_same_tables db); assumption.
  - apply (edges_ok_same_tables db); [reflexivity | reflexivity | exact He].
  - apply (edges_ok_same_tables (delete_issues_where (fun i => iRepoID i =? repoID) db));
      [reflexivity | reflexivity |].
    apply edges_ok_delete_issues_where. exact He.
Qed.

Lemma sample_db_edges_ok : edges_ok sample_db_edges.
Proof.
  unfold edges_ok. simpl. split.
  - repeat (constructor; [simpl; intuition discriminate |]). constructor.
  - intros d Hd.
    destruct Hd as [<- | [<- | []]]; simpl; (split; [discriminate |]).
    + exists 1. split; reflexivity.
    + exists 2. split; reflexivity.
Qed.

(** X14.  Every edge joins two different issues of one repository, and no pair of
    issues is joined twice in the same direction, whatever statements run:
    [AddIssueDependency] lets in no other edge, no statement moves an issue
    to another repository, and removing an issue removes its edges. *)
Theorem edges_join_issues_of_one_repository :
  forall (ops : list StoreOp) (db : DB),
    keys_ok db -> edges_ok db -> edges_ok (run_store_ops ops db).
Proof.
  intros ops. unfold run_store_ops.
  induction ops as [|op ops IH]; simpl; intros db Hk He.
  - exact He.
  - apply IH.
    + apply run_store_op_keys. exact Hk.
    + apply run_store_op_edges; assumption.
Qed.

Lemma edges_join_issues_of_one_repository_witness :
  edges_ok (run_store_ops [SAddIssueDependency 1 2 1 40; SAddIssueDependency 1 1 3 41;
                           SDeleteIssue 2 4; SUpdateIssue 1 1 "t" "d" 42]
                          sample_db_edges).
Proof.
  apply (edges_join_issues_of_one_repository
           [SAddIssueDependency 1 2 1 40; SAddIssueDependency 1 1 3 41;
            SDeleteIssue 2 4; SUpdateIssue 1 1 "t" "d" 42] sample_db_edges).
  - exact sample_db_edges_keys.
  - exact sample_db_edges_ok.
Defined.

(** X15.  The two questions about an issue that is not in the repository are
    answered differently: [HasIssueDependency] returns [sql.ErrNoRows], while
    [GetIssueDependencies] and [GetIssueDependents] return an empty list and
    no error. *)
Theorem dependencies_of_a_missing_issue :
  forall (db : DB) (repoID a b : Z),
    keys_ok db -> edges_ok db ->
    GetIssueByID db repoID a = Err ErrNoRows ->
    HasIssueDependency db repoID a b = Err ErrNoRows /\
    GetIssueDependencies db repoID a = Ok [] /\
    GetIssueDependents db repoID a = Ok [].
Proof.
  intros db repoID a b Hk [_ He] Hmiss. destruct Hk as (Hnd & _).
  apply GetIssueByID_missing in Hmiss.
  assert (Hnone : forall x, In x (issues db) -> iID x = a -> iRepoID x <> repoID).
  { intros x Hx Hi Hr.
    assert (Ht : existsb (issue_at repoID a) (issues db) = true)
      by (apply existsb_issue_at; exists x; auto).
    congruence. }
  assert (Hempty : forall l : list Issue, (forall j, ~ In j l) -> l = []).
  { intros [|j l] H; [reflexivity |]. exfalso. apply (H j). left. reflexivity. }
  split; [| split].
  - rewrite HasIssueDependency_outcome, Hmiss. reflexivity.
  - unfold GetIssueDependencies. f_equal. apply Hempty. intros j Hj.
    apply order_by_desc_In, In_join_issues_edges in Hj.
    destruct Hj as [Hjin [d [Hd Hc]]]. rewrite !andb_true_iff, !Z.eqb_eq in Hc.
    destruct Hc as [[Hjd Hda] Hjr].
    destruct (He d Hd) as [_ [r [R1 R2]]].
    assert (Rj := repo_of_issue_of_row db j Hnd Hjin).
    rewrite Hjd, R2 in Rj. inversion Rj; subst r.
    apply repo_of_issue_row in R1. destruct R1 as [x (Hx & Hix & Hrx)].
    apply (Hnone x Hx); congruence.
  - unfold GetIssueDependents. f_equal. apply Hempty. intros j Hj.
    apply order_by_desc_In, In_join_issues_edges in Hj.
    destruct Hj as [Hjin [d [Hd Hc]]]. rewrite !andb_true_iff, !Z.eqb_eq in Hc.
    destruct Hc as [[Hjd Hda] Hjr].
    destruct (He d Hd) as [_ [r [R1 R2]]].
    assert (Rj := repo_of_issue_of_row db j Hnd Hjin).
    rewrite Hjd, R1 in Rj. inversion Rj; subst r.
    apply repo_of_issue_row in R2. destruct R2 as [x (Hx & Hix & Hrx)].
    apply (Hnone x Hx); congruence.
Qed.

Lemma dependencies_of_a_missing_issue_witness :
  HasIssueDependency sample_db_edges 2 1 2 = Err ErrNoRows /\
  GetIssueDependencies sample_db_edges 2 1 = Ok [].
Proof.
  destruct (dependencies_of_a_missing_issue sample_db_edges 2 1 2
              sample_db_edges_keys sample_db_edges_ok eq_refl) as (H1 & H2 & _).
  split; assumption.
Defined.

(** ** Merge requests: listing, round trip, life cycle *)

(** X16.  Listing the merge requests of a repository, with or without a state: the
    full list holds exactly the rows of the repository, the filtered list
    exactly those of them that have the state, both newest first; a state
    that no row has gives the empty list and no error. *)
Theorem list_merge_requests_of_repository :
  forall (db : DB) (repoID : Z) (state : MergeRequestState),
  exists all selected,
    GetMergeRequestsByRepoID db repoID = Ok all /\
    GetMergeRequestsByRepoIDAndState db repoID state = Ok selected /\
    (forall m, In m all <-> In m (merge_requests db) /\ mRepoID m = repoID) /\
    (forall m, In m selected <-> In m all /\ mState m = state) /\
    newest_first mCreatedAt all /\ newest_first mCreatedAt selected /\
    (List.length selected <= List.length all)%nat /\
    ((forall m, In m (merge_requests db) -> mState m <> state) -> selected = []).
Proof.
  intros db repoID state. do 2 eexists.
  split; [reflexivity |]. split; [reflexivity |].
  split; [| split; [| split; [| split; [| split]]]].
  - intros m. rewrite order_by_desc_In, filter_In, Z.eqb_eq. reflexivity.
  - intros m. rewrite !order_by_desc_In, !filter_In, andb_true_iff, !Z.eqb_eq. tauto.
  - apply order_by_desc_sorted.
  - apply order_by_desc_sorted.
  - rewrite !order_by_desc_length. apply filter_length_mono.
    intros x Hx. apply andb_true_iff in Hx. tauto.
  - intros Hnone. rewrite filter_none; [reflexivity |].
    apply not_true_is_false. intros E. apply existsb_exists in E.
    destruct E as [x [Hx Hp]]. apply andb_true_iff in Hp. destruct Hp as [_ Hp].
    apply Z.eqb_eq in Hp. apply (Hnone x Hx Hp).
Qed.

Lemma list_merge_requests_of_repository_witness :
  GetMergeRequestsByRepoIDAndState sample_db 1 MergeRequestStateClosed = Ok [].
Proof.
  destruct (list_merge_requests_of_repository sample_db 1 MergeRequestStateClosed)
    as (all & selected & _ & H2 & _ & _ & _ & _ & _ & H8).
  rewrite H2. f_equal. apply H8.
  intros m Hin. simpl in Hin.
  destruct Hin as [<- | [<- | []]]; discriminate.
Defined.

Lemma delete_where_snoc_fresh {A : Type} (p : A -> bool) (t : list A) (x : A) :
  existsb p t = false -> p x = true -> delete_where p (t ++ [x]) = t.
Proof.
  intros Ht Hx. unfold delete_where. rewrite filter_app. simpl. rewrite Hx. simpl.
  rewrite app_nil_r. apply (delete_where_none p t Ht).
Qed.

(** X17.  A merge request that is created can be read back with the branches,
    title and description passed in and state Open; deleting it afterwards
    succeeds, leaves the table as it was before the creation, and does not
    give the id back: the counter stays at the id that was handed out. *)
Theorem merge_request_create_get_delete :
  forall (db db1 : DB) (repoID authorID : Z) (title description source target : string)
         (now id : Z),
    keys_ok db ->
    CreateMergeRequest db repoID authorID title description source target now
      = (Ok id, db1) ->
    (exists m,
        GetMergeRequestByID db1 repoID id = Ok m /\
        mID m = id /\ mRepoID m = repoID /\ mAuthorID m = authorID /\
        mTitle m = title /\ mDescription m = description /\
        mSourceBranch m = source /\ mTargetBranch m = target /\
        mState m = MergeRequestStateOpen) /\
    (forall r x, x <> id -> GetMergeRequestByID db1 r x = GetMergeRequestByID db r x) /\
    fst (DeleteMergeRequest db1 repoID id) = None /\
    GetMergeRequestByID (snd (DeleteMergeRequest db1 repoID id)) repoID id = Err ErrNoRows /\
    merge_requests (snd (DeleteMergeRequest db1 repoID id)) = merge_requests db /\
    seq_merge_requests (snd (DeleteMergeRequest db1 repoID id)) = id /\
    seq_merge_requests db < id.
Proof.
  intros db db1 repoID authorID title description source target now id Hk Hc.
  destruct Hk as (_ & _ & _ & Hb & _).
  unfold CreateMergeRequest in Hc.
  repeat match type of Hc with context [if ?c then _ else _] => destruct c end;
    inversion Hc; subst; clear Hc.
  assert (Hno : forall r x, In x (merge_requests db) ->
                            mr_at r (seq_merge_requests db + 1) x = false).
  { intros r x Hx. unfold mr_at. specialize (Hb x Hx).
    apply andb_false_iff. right. apply Z.eqb_neq. lia. }
  assert (Hex : forall r,
             existsb (mr_at r (seq_merge_requests db + 1)) (merge_requests db) = false).
  { intros r. apply not_true_is_false. intros E. apply existsb_exists in E.
    destruct E as [x [Hx Hp]]. rewrite (Hno r x Hx) in Hp. discriminate. }
  assert (Hrow : forall t d s g a n,
             mr_at repoID (seq_merge_requests db + 1)
               (mkMergeRequest (seq_merge_requests db + 1) repoID t d s g
                               MergeRequestStateOpen a None None None None n n) = true).
  { intros. unfold mr_at. simpl. rewrite !Z.eqb_refl. reflexivity. }
  split; [| split; [| split; [| split; [| split; [| split]]]]].
  - eexists. unfold GetMergeRequestByID; simpl.
    rewrite find_snoc, (find_all_false _ _ (Hno repoID)), Hrow.
    repeat split; reflexivity.
  - intros r x Hx. unfold GetMergeRequestByID; simpl. rewrite find_snoc.
    destruct (find (mr_at r x) (merge_requests db)); [reflexivity |].
    unfold mr_at; simpl.
    replace (seq_merge_requests db + 1 =? x) with false
      by (symmetry; apply Z.eqb_neq; congruence).
    rewrite andb_false_r. reflexivity.
  - reflexivity.
  - unfold GetMergeRequestByID, DeleteMergeRequest; simpl.
    rewrite (delete_where_snoc_fresh _ _ _ (Hex repoID) (Hrow _ _ _ _ _ _)).
    rewrite (find_all_false _ _ (Hno repoID)). reflexivity.
  - unfold DeleteMergeRequest; simpl.
    apply (delete_where_snoc_fresh _ _ _ (Hex repoID) (Hrow _ _ _ _ _ _)).
  - reflexivity.
  - lia.
Qed.

Lemma merge_request_create_get_delete_witness :
  merge_requests
    (snd (DeleteMergeRequest
            (snd (CreateMergeRequest sample_db 1 7 "T" "D" "feature" "main" 40)) 1 3))
  = merge_requests sample_db.
Proof.
  destruct (merge_request_create_get_delete sample_db
              (snd (CreateMergeRequest sample_db 1 7 "T" "D" "feature" "main" 40))
              1 7 "T" "D" "feature" "main" 40 3 sample_db_keys eq_refl)
    as (_ & _ & _ & _ & H & _).
  exact H.
Defined.

Lemma CloseMergeRequest_by_user db repoID id closedBy now :
  user_exists db closedBy = true ->
  CloseMergeRequest db repoID id closedBy now
  = (None,
     with_merge_requests db
       (update_where (mr_at_state repoID id MergeRequestStateOpen)
                     (set_mr_closed closedBy now) (merge_requests db))
       (seq_merge_requests db)).
Proof.
  intros Hu. unfold CloseMergeRequest. rewrite Hu, andb_false_r. reflexivity.
Qed.

(** X18.  A closed merge request is merged only after it was reopened.  For an
    Open merge request and existing users: after [close], [merge] changes
    nothing and the request stays Closed; after [reopen], [merge] makes it
    Merged, with [merged_by] the merging user and no [closed_by] or
    [closed_at] left from the earlier close. *)
Theorem closed_merge_request_merges_only_after_reopen :
  forall (db : DB) (repoID id closer merger t1 t2 t3 t4 : Z) (m : MergeRequest),
    GetMergeRequestByID db repoID id = Ok m ->
    mState m = MergeRequestStateOpen ->
    user_exists db closer = true ->
    user_exists db merger = true ->
    let db1 := snd (CloseMergeRequest db repoID id closer t1) in
    let db2 := snd (MergeMergeRequest db1 repoID id merger t2) in
    let db3 := snd (ReopenMergeRequest db2 repoID id t3) in
    let db4 := snd (MergeMergeRequest db3 repoID id merger t4) in
    fst (MergeMergeRequest db1 repoID id merger t2) = None /\
    GetMergeRequestByID db2 repoID id = GetMergeRequestByID db1 repoID id /\
    (exists c, GetMergeRequestByID db2 repoID id = Ok c /\
               mState c = MergeRequestStateClosed /\ mClosedBy c = Some closer /\
               mMergedBy c = mMergedBy m /\ mMergedAt c = mMergedAt m) /\
    fst (MergeMergeRequest db3 repoID id merger t4) = None /\
    (exists g, GetMergeRequestByID db4 repoID id = Ok g /\
               mState g = MergeRequestStateMerged /\
               mMergedBy g = Some merger /\ mMergedAt g = Some t4 /\
               mClosedBy g = None /\ mClosedAt g = None /\
               mSourceBranch g = mSourceBranch m /\ mTargetBranch g = mTargetBranch m /\
               mTitle g = mTitle m /\ mAuthorID g = mAuthorID m).
Proof.
  intros db repoID id closer merger t1 t2 t3 t4 m Hget Hopen Hc Hm.
  assert (Hat : mr_at repoID id m = true).
  { unfold GetMergeRequestByID in Hget.
    destruct (find (mr_at repoID id) (merge_requests db)) as [x|] eqn:E; [| discriminate].
    inversion Hget; subst x. apply find_some in E. tauto. }
  assert (Hat' := Hat). unfold mr_at in Hat'. apply andb_true_iff in Hat'.
  destruct Hat' as [Hr Hi].
  assert (Hkey : forall f, (forall r, mRepoID (f r) = mRepoID r) ->
                           (forall r, mID (f r) = mID r) ->
                           forall r, mr_at repoID id (f r) = mr_at repoID id r).
  { intros f H1 H2 r. unfold mr_at. rewrite H1, H2. reflexivity. }
  rewrite (CloseMergeRequest_by_user db repoID id closer t1 Hc). cbn [snd].
  rewrite (MergeMergeRequest_by_user _ repoID id merger t2) by exact Hm. cbn [fst snd].
  unfold ReopenMergeRequest. cbn [snd].
  rewrite (MergeMergeRequest_by_user _ repoID id merger t4) by exact Hm. cbn [fst snd].
  rewrite !GetMergeRequestByID_update_where
    by (apply Hkey; intros; reflexivity).
  rewrite Hget.
  unfold mr_at_state. simpl.
  repeat (progress (rewrite ?Hr, ?Hi, ?Hopen; simpl)).
  split; [reflexivity |]. split; [reflexivity |].
  split; [eexists; repeat split; reflexivity |].
  split; [reflexivity |].
  eexists. repeat split; reflexivity.
Qed.

Lemma closed_merge_request_merges_only_after_reopen_witness :
  exists g,
    GetMergeRequestByID
      (snd (MergeMergeRequest
              (snd (ReopenMergeRequest
                      (snd (MergeMergeRequest
                              (snd (CloseMergeRequest sample_db 1 1 8 40)) 1 1 7 41))
                      1 1 42)) 1 1 7 43)) 1 1 = Ok g /\
    mState g = MergeRequestStateMerged /\ mClosedBy g = None.
Proof.
  destruct (closed_merge_request_merges_only_after_reopen sample_db 1 1 8 7 40 41 42 43
              (mkMergeRequest 1 1 "Feature" "adds it" "feature" "main"
                              MergeRequestStateOpen 7 None None None None 12 12)
              eq_refl eq_refl eq_refl eq_refl)
    as (_ & _ & _ & _ & g & H1 & H2 & _ & _ & H5 & _).
  exists g. repeat split; assumption.
Defined.

(** ** The facade: who may act, and what the merge executor leaves behind *)

Lemma GetMergeRequest_outcome
    (SanitizeRepo : string -> string) (WrapError : error -> error) ctx repoName mrID w r :
  Backend.Repository (SanitizeRepo repoName) w = (Ok r, w) ->
  Backend.GetMergeRequest SanitizeRepo WrapError ctx repoName mrID w
  = (match GetMergeRequestByID (Backend.db w) (rID r) mrID with
     | Ok m => Ok m
     | Err e => Err (WrapError e)
     end, w).
Proof.
  intros Hrepo. unfold Backend.GetMergeRequest, Backend.bind. rewrite Hrepo.
  unfold Backend.wrapped, Backend.TransactionContext.
  destruct (GetMergeRequestByID (Backend.db w) (rID r) mrID); simpl;
    [destruct w |]; reflexivity.
Qed.

Lemma find_replaced_git (name : string) (gr' : GitRepository)
    (l : list (string * GitRepository)) :
  find (fun e => String.eqb (fst e) name)
       (map (fun e => if String.eqb (fst e) name then (fst e, gr') else e) l)
  = option_map (fun e => (fst e, gr')) (find (fun e => String.eqb (fst e) name) l).
Proof.
  induction l as [|[n g] t IH]; simpl; [reflexivity |].
  destruct (String.eqb n name) eqn:E; simpl; rewrite E; [reflexivity | exact IH].
Qed.

Lemma Open_put_git r gr gr' w :
  Backend.Open r w = (Ok gr, w) ->
  fst (Backend.Open r (snd (Backend.put_git r gr' w))) = Ok gr'.
Proof.
  unfold Backend.Open, Backend.put_git. simpl. rewrite find_replaced_git.
  destruct (find (fun e => String.eqb (fst e) (rName r)) (Backend.git w)) as [[n g]|];
    [reflexivity | discriminate].
Qed.

(** X19.  Who acts is asked for after the repository and before anything else.
    With no user in the context, creating or closing an issue and creating,
    closing or merging a merge request return [proto.ErrUserNotFound] as it
    is, not wrapped, and change nothing; when the repository does not
    resolve, its error comes first, with or without a user. *)
Theorem acting_user_is_required :
  forall (SanitizeRepo : string -> string) (WrapError : error -> error)
         (Quote : string -> string)
         (git_fails : list string -> GitRepository -> option error)
         (concurrent : DB -> DB) (ctx : Backend.Context)
         (repoName title description source target : string) (id now : Z)
         (w : Backend.World),
    (forall r, Backend.Repository (SanitizeRepo repoName) w = (Ok r, w) ->
       Backend.ctxUser ctx = None ->
       Backend.CreateIssue SanitizeRepo WrapError ctx repoName title description now w
         = (Err ErrUserNotFound, w) /\
       Backend.CloseIssue SanitizeRepo WrapError ctx repoName id now w
         = (Err ErrUserNotFound, w) /\
       Backend.CreateMergeRequest SanitizeRepo WrapError Quote ctx repoName title
         description source target now w = (Err ErrUserNotFound, w) /\
       Backend.CloseMergeRequest SanitizeRepo WrapError ctx repoName id now w
         = (Err ErrUserNotFound, w) /\
       Backend.MergeMergeRequestAmid SanitizeRepo WrapError git_fails concurrent ctx
         repoName id now w = (Err ErrUserNotFound, w)) /\
    (forall e, Backend.Repository (SanitizeRepo repoName) w = (Err e, w) ->
       Backend.CreateIssue SanitizeRepo WrapError ctx repoName title description now w
         = (Err e, w) /\
       Backend.CloseIssue SanitizeRepo WrapError ctx repoName id now w = (Err e, w) /\
       Backend.CreateMergeRequest SanitizeRepo WrapError Quote ctx repoName title
         description source target now w = (Err e, w) /\
       Backend.CloseMergeRequest SanitizeRepo WrapError ctx repoName id now w
         = (Err e, w) /\
       Backend.MergeMergeRequestAmid SanitizeRepo WrapError git_fails concurrent ctx
         repoName id now w = (Err e, w)).
Proof.
  intros SanitizeRepo WrapError Quote git_fails concurrent ctx repoName title description
         source target id now w.
  split.
  - intros r Hrepo Huser.
    unfold Backend.CreateIssue, Backend.CloseIssue, Backend.CreateMergeRequest,
      Backend.CloseMergeRequest, Backend.MergeMergeRequestAmid, Backend.bind.
    rewrite Hrepo.
    unfold Backend.requireUser, Backend.UserFromContext. rewrite Huser.
    unfold Backend.fail. repeat split; reflexivity.
  - intros e Hrepo.
    unfold Backend.CreateIssue, Backend.CloseIssue, Backend.CreateMergeRequest,
      Backend.CloseMergeRequest, Backend.MergeMergeRequestAmid, Backend.bind.
    rewrite Hrepo. repeat split; reflexivity.
Qed.

Lemma acting_user_is_required_witness :
  Backend.CloseIssue (fun s => s) (fun e => e) (Backend.mkContext None) "soft" 2 40
                     sample_world
  = (Err ErrUserNotFound, sample_world) /\
  Backend.CloseIssue (fun s => s) (fun e => e) (Backend.mkContext (Some alice)) "hard" 2 40
                     sample_world
  = (Err ErrRepoNotFound, sample_world).
Proof.
  destruct (acting_user_is_required (fun s => s) (fun e => e) (fun s => s) git_always_ok
              (fun d => d) (Backend.mkContext None) "soft" "t" "d" "a" "b" 2 40
              sample_world) as [H1 _].
  destruct (acting_user_is_required (fun s => s) (fun e => e) (fun s => s) git_always_ok
              (fun d => d) (Backend.mkContext (Some alice)) "hard" "t" "d" "a" "b" 2 40
              sample_world) as [_ H2].
  split.
  - apply (H1 (mkRepo 1 "soft") eq_refl eq_refl).
  - apply (H2 ErrRepoNotFound eq_refl).
Defined.

(** X20.  A branch that does not verify stops the creation of a merge request:
    the source branch is checked first and reported by name, then the target
    branch; the error of the check itself is dropped, and nothing is
    inserted. *)
Theorem missing_branch_stops_creation :
  forall (SanitizeRepo : string -> string) (WrapError : error -> error)
         (Quote : string -> string) (ctx : Backend.Context)
         (repoName title description source target : string) (now : Z)
         (w : Backend.World) (r : Repo) (user : User) (gr : GitRepository),
    Backend.Repository (SanitizeRepo repoName) w = (Ok r, w) ->
    Backend.ctxUser ctx = Some user ->
    Backend.Open r w = (Ok gr, w) ->
    (forall e, Backend.ShowRefVerify gr ("refs/heads/" ++ source) = Some e ->
       Backend.CreateMergeRequest SanitizeRepo WrapError Quote ctx repoName title
         description source target now w
       = (Err (ErrorString ("source branch " ++ Quote source ++ " does not exist")), w)) /\
    (forall e, Backend.ShowRefVerify gr ("refs/heads/" ++ source) = None ->
       Backend.ShowRefVerify gr ("refs/heads/" ++ target) = Some e ->
       Backend.CreateMergeRequest SanitizeRepo WrapError Quote ctx repoName title
         description source target now w
       = (Err (ErrorString ("target branch " ++ Quote target ++ " does not exist")), w)).
Proof.
  intros SanitizeRepo WrapError Quote ctx repoName title description source target now
         w r user gr Hrepo Huser Hopen.
  split.
  - intros e Hsrc.
    unfold Backend.CreateMergeRequest, Backend.bind. rewrite Hrepo.
    unfold Backend.requireUser, Backend.UserFromContext. rewrite Huser.
    unfold Backend.ret. rewrite Hopen, Hsrc. reflexivity.
  - intros e Hsrc Htgt.
    unfold Backend.CreateMergeRequest, Backend.bind. rewrite Hrepo.
    unfold Backend.requireUser, Backend.UserFromContext. rewrite Huser.
    unfold Backend.ret. rewrite Hopen, Hsrc, Htgt. reflexivity.
Qed.

Lemma missing_branch_stops_creation_witness :
  Backend.CreateMergeRequest (fun s => s) (fun e => e) (fun s => s)
    (Backend.mkContext (Some alice)) "soft" "T" "D" "nope" "gone" 40 sample_world
  = (Err (ErrorString "source branch nope does not exist"), sample_world) /\
  Backend.CreateMergeRequest (fun s => s) (fun e => e) (fun s => s)
    (Backend.mkContext (Some alice)) "soft" "T" "D" "feature" "gone" 40 sample_world
  = (Err (ErrorString "target branch gone does not exist"), sample_world).
Proof.
  destruct (missing_branch_stops_creation (fun s => s) (fun e => e) (fun s => s)
              (Backend.mkContext (Some alice)) "soft" "T" "D" "nope" "gone" 40
              sample_world (mkRepo 1 "soft") alice sample_git eq_refl eq_refl eq_refl)
    as [H1 _].
  destruct (missing_branch_stops_creation (fun s => s) (fun e => e) (fun s => s)
              (Backend.mkContext (Some alice)) "soft" "T" "D" "feature" "gone" 40
              sample_world (mkRepo 1 "soft") alice sample_git eq_refl eq_refl eq_refl)
    as [_ H2].
  split.
  - apply (H1 (ErrorString "reference does not exist") eq_refl).
  - apply (H2 (ErrorString "reference does not exist") eq_refl eq_refl).
Defined.

(** X21.  The merge executor refuses a merge request that is not Open before it
    touches the repository: for a request that is Merged or Closed the call
    returns "merge request is not open", runs no git command and changes
    nothing, whatever other callers do. *)
Theorem merge_is_refused_unless_open :
  forall (SanitizeRepo : string -> string) (WrapError : error -> error)
         (git_fails : list string -> GitRepository -> option error)
         (concurrent : DB -> DB) (ctx : Backend.Context) (repoName : string)
         (mrID now : Z) (w : Backend.World) (r : Repo) (user : User) (mr : MergeRequest),
    SanitizeRepo (SanitizeRepo repoName) = SanitizeRepo repoName ->
    Backend.Repository (SanitizeRepo repoName) w = (Ok r, w) ->
    Backend.ctxUser ctx = Some user ->
    GetMergeRequestByID (Backend.db w) (rID r) mrID = Ok mr ->
    mState mr <> MergeRequestStateOpen ->
    Backend.MergeMergeRequestAmid SanitizeRepo WrapError git_fails concurrent ctx
      repoName mrID now w
    = (Err (ErrorString "merge request is not open"), w).
Proof.
  intros SanitizeRepo WrapError git_fails concurrent ctx repoName mrID now w r user mr
         Hidem Hrepo Huser Hget Hstate.
  unfold Backend.MergeMergeRequestAmid, Backend.bind. rewrite Hrepo.
  unfold Backend.requireUser, Backend.UserFromContext. rewrite Huser.
  unfold Backend.ret.
  rewrite (GetMergeRequest_outcome SanitizeRepo WrapError ctx (SanitizeRepo repoName)
             mrID w r) by (rewrite Hidem; exact Hrepo).
  rewrite Hget.
  apply Z.eqb_neq in Hstate. rewrite Hstate. reflexivity.
Qed.

Lemma merge_is_refused_unless_open_witness :
  Backend.MergeMergeRequest (fun s => s) (fun e => e) git_always_ok
    (Backend.mkContext (Some alice)) "soft" 2 40 sample_world
  = (Err (ErrorString "merge request is not open"), sample_world).
Proof.
  apply (merge_is_refused_unless_open (fun s => s) (fun e => e) git_always_ok
           (fun d => d) (Backend.mkContext (Some alice)) "soft" 2 40 sample_world
           (mkRepo 1 "soft") alice
           (mkMergeRequest 2 1 "Hotfix" "fixes it" "hotfix" "main" MergeRequestStateMerged 8
                           (Some 7) (Some 30) None None 13 30)).
  - reflexivity.
  - reflexivity.
  - reflexivity.
  - reflexivity.
  - discriminate.
Defined.

Lemma MergeMergeRequestAmid_after_checks
    (SanitizeRepo : string -> string) (WrapError : error -> error)
    (git_fails : list string -> GitRepository -> option error)
    (concurrent : DB -> DB) ctx repoName mrID now w r user mr gr :
  SanitizeRepo (SanitizeRepo repoName) = SanitizeRepo repoName ->
  Backend.Repository (SanitizeRepo repoName) w = (Ok r, w) ->
  Backend.ctxUser ctx = Some user ->
  GetMergeRequestByID (Backend.db w) (rID r) mrID = Ok mr ->
  mState mr = MergeRequestStateOpen ->
  Backend.Open r w = (Ok gr, w) ->
  Backend.MergeMergeRequestAmid SanitizeRepo WrapError git_fails concurrent ctx repoName
    mrID now w
  = match Backend.performMerge git_fails gr (mSourceBranch mr) (mTargetBranch mr)
            (uUsername user) with
    | (Some err, gr') =>
        (Err (ErrorWrap "failed to merge" err), snd (Backend.put_git r gr' w))
    | (None, gr') =>
        Backend.wrapped WrapError
          (Backend.TransactionContext
             (Backend.exec (fun tx => MergeMergeRequest tx (rID r) mrID (uID user) now)))
          (Backend.mkWorld (concurrent (Backend.db w))
                           (Backend.git (snd (Backend.put_git r gr' w))))
    end.
Proof.
  intros Hidem Hrepo Huser Hget Hstate Hopen.
  unfold Backend.MergeMergeRequestAmid, Backend.bind. rewrite Hrepo.
  unfold Backend.requireUser, Backend.UserFromContext. rewrite Huser.
  unfold Backend.ret.
  rewrite (GetMergeRequest_outcome SanitizeRepo WrapError ctx (SanitizeRepo repoName)
             mrID w r) by (rewrite Hidem; exact Hrepo).
  rewrite Hget, Hstate.
  change (negb (MergeRequestStateOpen =? MergeRequestStateOpen)) with false.
  cbv beta iota. rewrite Hopen.
  destruct (Backend.performMerge git_fails gr (mSourceBranch mr) (mTargetBranch mr)
                                 (uUsername user)) as [[err|] gr']; reflexivity.
Qed.

(** X22.  When git fails, nothing is recorded.  If the checkout of the target
    branch fails, the merge command is not run; if the merge command fails,
    the checkout has been made and stays.  In both cases the call returns
    the git error wrapped as "failed to merge" and the database is as it
    was, the merge request still Open. *)
Theorem failed_git_merge_records_nothing :
  forall (SanitizeRepo : string -> string) (WrapError : error -> error)
         (git_fails : list string -> GitRepository -> option error)
         (concurrent : DB -> DB) (ctx : Backend.Context) (repoName : string)
         (mrID now : Z) (w : Backend.World)
         (r : Repo) (user : User) (mr : MergeRequest) (gr : GitRepository),
    SanitizeRepo (SanitizeRepo repoName) = SanitizeRepo repoName ->
    Backend.Repository (SanitizeRepo repoName) w = (Ok r, w) ->
    Backend.ctxUser ctx = Some user ->
    GetMergeRequestByID (Backend.db w) (rID r) mrID = Ok mr ->
    mState mr = MergeRequestStateOpen ->
    Backend.Open r w = (Ok gr, w) ->
    let result := Backend.MergeMergeRequestAmid SanitizeRepo WrapError git_fails concurrent
                    ctx repoName mrID now w in
    let checkout := ["checkout"; mTargetBranch mr] in
    let merge := ["merge"; "--no-ff"; "-m";
                  Backend.commitMsg (mSourceBranch mr) (mTargetBranch mr);
                  mSourceBranch mr] in
    let gr1 := mkGitRepository (Path gr) (refs gr) (history gr ++ [checkout]) in
    (forall e, git_fails checkout gr = Some e ->
       fst result
         = Err (ErrorWrap "failed to merge"
                  (ErrorWrap "failed to checkout target branch" e)) /\
       Backend.db (snd result) = Backend.db w /\
       fst (Backend.Open r (snd result)) = Ok gr1) /\
    (forall e, git_fails checkout gr = None -> git_fails merge gr1 = Some e ->
       fst result
         = Err (ErrorWrap "failed to merge" (ErrorWrap "failed to merge branches" e)) /\
       Backend.db (snd result) = Backend.db w /\
       fst (Backend.Open r (snd result))
         = Ok (mkGitRepository (Path gr) (refs gr) (history gr ++ [checkout; merge]))).
Proof.
  intros SanitizeRepo WrapError git_fails concurrent ctx repoName mrID now w r user mr gr
         Hidem Hrepo Huser Hget Hstate Hopen result checkout merge gr1.
  assert (Hres := MergeMergeRequestAmid_after_checks SanitizeRepo WrapError git_fails
                    concurrent ctx repoName mrID now w r user mr gr
                    Hidem Hrepo Huser Hget Hstate Hopen).
  fold result in Hres.
  split.
  - intros e He. rewrite Hres. unfold Backend.performMerge, Backend.RunInDir.
    fold checkout. rewrite He. cbn [fst snd].
    split; [reflexivity |]. split; [reflexivity |].
    apply (Open_put_git r gr _ w Hopen).
  - intros e Hc He. rewrite Hres. unfold Backend.performMerge, Backend.RunInDir.
    fold checkout. rewrite Hc. cbn [Path refs history].
    fold gr1. fold merge. rewrite He. cbn [fst snd].
    split; [reflexivity |]. split; [reflexivity |].
    rewrite (Open_put_git r gr _ w Hopen). unfold gr1. cbn [Path refs history].
    rewrite <- app_assoc. reflexivity.
Qed.

Lemma failed_git_merge_records_nothing_witness :
  fst (Backend.MergeMergeRequest (fun s => s) (fun e => e) git_checkout_fails
         (Backend.mkContext (Some alice)) "soft" 1 40 sample_world)
  = Err (ErrorWrap "failed to merge"
           (ErrorWrap "failed to checkout target branch" (ErrorString "exit status 1"))) /\
  fst (Backend.MergeMergeRequest (fun s => s) (fun e => e) git_merge_fails
         (Backend.mkContext (Some alice)) "soft" 1 40 sample_world)
  = Err (ErrorWrap "failed to merge"
           (ErrorWrap "failed to merge branches" (ErrorString "exit status 1"))).
Proof.
  destruct (failed_git_merge_records_nothing (fun s => s) (fun e => e) git_checkout_fails
              (fun d => d) (Backend.mkContext (Some alice)) "soft" 1 40 sample_world
              (mkRepo 1 "soft") alice
              (mkMergeRequest 1 1 "Feature" "adds it" "feature" "main"
                              MergeRequestStateOpen 7 None None None None 12 12)
              sample_git eq_refl eq_refl eq_refl eq_refl eq_refl eq_refl) as [H1 _].
  destruct (failed_git_merge_records_nothing (fun s => s) (fun e => e) git_merge_fails
              (fun d => d) (Backend.mkContext (Some alice)) "soft" 1 40 sample_world
              (mkRepo 1 "soft") alice
              (mkMergeRequest 1 1 "Feature" "adds it" "feature" "main"
                              MergeRequestStateOpen 7 None None None None 12 12)
              sample_git eq_refl eq_refl eq_refl eq_refl eq_refl eq_refl) as [_ H2].
  split.
  - apply (H1 (ErrorString "exit status 1") eq_refl).
  - apply (H2 (ErrorString "exit status 1") eq_refl eq_refl).
Defined.

Lemma successful_merge_outcome
    (SanitizeRepo : string -> string) (WrapError : error -> error)
    (git_fails : list string -> GitRepository -> option error)
    ctx repoName mrID now w r user mr gr :
  SanitizeRepo (SanitizeRepo repoName) = SanitizeRepo repoName ->
  Backend.Repository (SanitizeRepo repoName) w = (Ok r, w) ->
  Backend.ctxUser ctx = Some user ->
  user_exists (Backend.db w) (uID user) = true ->
  GetMergeRequestByID (Backend.db w) (rID r) mrID = Ok mr ->
  mState mr = MergeRequestStateOpen ->
  Backend.Open r w = (Ok gr, w) ->
  git_fails ["checkout"; mTargetBranch mr] gr = None ->
  git_fails ["merge"; "--no-ff"; "-m";
             Backend.commitMsg (mSourceBranch mr) (mTargetBranch mr); mSourceBranch mr]
            (mkGitRepository (Path gr) (refs gr)
                             (history gr ++ [["checkout"; mTargetBranch mr]])) = None ->
  Backend.MergeMergeRequest SanitizeRepo WrapError git_fails ctx repoName mrID now w
  = (Ok tt,
     Backend.mkWorld
       (with_merge_requests (Backend.db w)
          (update_where (mr_at_state (rID r) mrID MergeRequestStateOpen)
                        (set_mr_merged (uID user) now) (merge_requests (Backend.db w)))
          (seq_merge_requests (Backend.db w)))
       (Backend.git
          (snd (Backend.put_git r
                  (mkGitRepository (Path gr) (refs gr)
                     ((history gr ++ [["checkout"; mTargetBranch mr]])
                      ++ [["merge"; "--no-ff"; "-m";
                           Backend.commitMsg (mSourceBranch mr) (mTargetBranch mr);
                           mSourceBranch mr]]))
                  w)))).
Proof.
  intros Hidem Hrepo Huser Hfk Hget Hstate Hopen Hc Hm.
  assert (Hres := MergeMergeRequestAmid_after_checks SanitizeRepo WrapError git_fails
                    (fun d => d) ctx repoName mrID now w r user mr gr
                    Hidem Hrepo Huser Hget Hstate Hopen).
  fold (Backend.MergeMergeRequest SanitizeRepo WrapError git_fails) in Hres.
  rewrite Hres. unfold Backend.performMerge, Backend.RunInDir.
  rewrite Hc. cbn [Path refs history]. rewrite Hm.
  unfold Backend.wrapped, Backend.TransactionContext, Backend.exec.
  cbn [Backend.db Backend.git].
  rewrite (MergeMergeRequest_by_user _ (rID r) mrID (uID user) now Hfk).
  reflexivity.
Qed.

Lemma open_row_matches_guard db repoID id m :
  GetMergeRequestByID db repoID id = Ok m -> mState m = MergeRequestStateOpen ->
  In m (merge_requests db) /\ mr_at_state repoID id MergeRequestStateOpen m = true.
Proof.
  intros Hget Hstate. unfold GetMergeRequestByID in Hget.
  destruct (find (mr_at repoID id) (merge_requests db)) as [x|] eqn:E; [| discriminate].
  inversion Hget; subst x. apply find_some in E. destruct E as [Hin E].
  split; [exact Hin |].
  unfold mr_at in E. unfold mr_at_state. rewrite E, Hstate. reflexivity.
Qed.

(** X23.  A merge that goes through is recorded.  For an Open merge request, a
    known user and a repository in which both git commands succeed, with no
    other caller in between, the call succeeds, the two commands (checkout of
    the target, then the merge of the source) are the ones run, and the
    merge request is read back as Merged, with [merged_by] the acting user
    and [merged_at] the time of the update; its branches, title and author
    are unchanged. *)
Theorem successful_merge_is_recorded :
  forall (SanitizeRepo : string -> string) (WrapError : error -> error)
         (git_fails : list string -> GitRepository -> option error)
         (ctx : Backend.Context) (repoName : string)
         (mrID now : Z) (w : Backend.World)
         (r : Repo) (user : User) (mr : MergeRequest) (gr : GitRepository),
    SanitizeRepo (SanitizeRepo repoName) = SanitizeRepo repoName ->
    Backend.Repository (SanitizeRepo repoName) w = (Ok r, w) ->
    Backend.ctxUser ctx = Some user ->
    user_exists (Backend.db w) (uID user) = true ->
    GetMergeRequestByID (Backend.db w) (rID r) mrID = Ok mr ->
    mState mr = MergeRequestStateOpen ->
    Backend.Open r w = (Ok gr, w) ->
    let result := Backend.MergeMergeRequest SanitizeRepo WrapError git_fails
                    ctx repoName mrID now w in
    let checkout := ["checkout"; mTargetBranch mr] in
    let merge := ["merge"; "--no-ff"; "-m";
                  Backend.commitMsg (mSourceBranch mr) (mTargetBranch mr);
                  mSourceBranch mr] in
    git_fails checkout gr = None ->
    git_fails merge (mkGitRepository (Path gr) (refs gr) (history gr ++ [checkout])) = None ->
    fst result = Ok tt /\
    fst (Backend.Open r (snd result))
      = Ok (mkGitRepository (Path gr) (refs gr) (history gr ++ [checkout; merge])) /\
    (exists g,
        GetMergeRequestByID (Backend.db (snd result)) (rID r) mrID = Ok g /\
        mState g = MergeRequestStateMerged /\
        mMergedBy g = Some (uID user) /\ mMergedAt g = Some now /\
        mSourceBranch g = mSourceBranch mr /\ mTargetBranch g = mTargetBranch mr /\
        mTitle g = mTitle mr /\ mAuthorID g = mAuthorID mr /\
        mClosedBy g = mClosedBy mr) /\
    issues (Backend.db (snd result)) = issues (Backend.db w).
Proof.
  intros SanitizeRepo WrapError git_fails ctx repoName mrID now w r user mr gr
         Hidem Hrepo Huser Hfk Hget Hstate Hopen result checkout merge Hc Hm.
  unfold result.
  rewrite (successful_merge_outcome SanitizeRepo WrapError git_fails ctx repoName mrID now
             w r user mr gr Hidem Hrepo Huser Hfk Hget Hstate Hopen Hc Hm).
  destruct (open_row_matches_guard _ _ _ _ Hget Hstate) as [_ Hat].
  cbn [fst snd Backend.db Backend.git].
  split; [reflexivity |]. split; [| split].
  - unfold Backend.Open. cbn [Backend.git Backend.put_git snd].
    rewrite find_replaced_git.
    unfold Backend.Open in Hopen.
    destruct (find (fun e => String.eqb (fst e) (rName r)) (Backend.git w)) as [[n g]|];
      [| discriminate].
    simpl. rewrite <- app_assoc. reflexivity.
  - rewrite GetMergeRequestByID_update_where.
    + rewrite Hget, Hat. eexists. repeat split; reflexivity.
    + intros x. reflexivity.
  - reflexivity.
Qed.

Lemma successful_merge_is_recorded_witness :
  fst (Backend.MergeMergeRequest (fun s => s) (fun e => e) git_always_ok
         (Backend.mkContext (Some bob)) "soft" 1 40 sample_world) = Ok tt.
Proof.
  exact (proj1 (successful_merge_is_recorded (fun s => s) (fun e => e) git_always_ok
                  (Backend.mkContext (Some bob)) "soft" 1 40 sample_world
                  (mkRepo 1 "soft") bob
                  (mkMergeRequest 1 1 "Feature" "adds it" "feature" "main"
                                  MergeRequestStateOpen 7 None None None None 12 12)
                  sample_git eq_refl eq_refl eq_refl eq_refl eq_refl eq_refl eq_refl
                  eq_refl eq_refl)).
Defined.

(** ** State names on the command line *)

Lemma lower_byte_idempotent (c : Ascii.ascii) :
  Cmd.lower_byte (Cmd.lower_byte c) = Cmd.lower_byte c.
Proof.
  destruct c as [[] [] [] [] [] [] [] []]; reflexivity.
Qed.

Lemma lower_byte_ascii (c : Ascii.ascii) :
  (Ascii.nat_of_ascii c <? 128)%nat = true ->
  (Ascii.nat_of_ascii (Cmd.lower_byte c) <? 128)%nat = true.
Proof.
  destruct c as [[] [] [] [] [] [] [] []]; intros H; try reflexivity; exact H.
Qed.

Lemma map_lower_ascii (s : string) :
  Cmd.isASCII s = true -> Cmd.isASCII (Cmd.map_bytes Cmd.lower_byte s) = true.
Proof.
  induction s as [|c s IH]; simpl; intros H; [reflexivity |].
  apply andb_true_iff in H. destruct H as [Hc Hs].
  rewrite (lower_byte_ascii c Hc), (IH Hs). reflexivity.
Qed.

Lemma map_lower_idempotent (s : string) :
  Cmd.map_bytes Cmd.lower_byte (Cmd.map_bytes Cmd.lower_byte s)
  = Cmd.map_bytes Cmd.lower_byte s.
Proof.
  induction s as [|c s IH]; simpl; [reflexivity |].
  rewrite lower_byte_idempotent, IH. reflexivity.
Qed.

Lemma ToLower_idempotent (U : string -> string) (s : string) :
  Cmd.isASCII s = true -> Cmd.ToLower U (Cmd.ToLower U s) = Cmd.ToLower U s.
Proof.
  intros H. unfold Cmd.ToLower. rewrite H, (map_lower_ascii s H).
  apply map_lower_idempotent.
Qed.

(** X24.  The names of the states and their parsers are inverse to each other on
    the states that exist: parsing the name of a state gives the state back,
    and a string that parses to a state is, in lower case, the name of that
    state.  Every other state value is named "unknown", which does not parse. *)
Theorem state_names_round_trip :
  forall (MapUnicodeToLower : string -> string),
    (forall st, st = IssueStateOpen \/ st = IssueStateClosed ->
       Cmd.parseIssueState MapUnicodeToLower (IssueState_String st) = st) /\
    (forall st, st = MergeRequestStateOpen \/ st = MergeRequestStateMerged \/
                st = MergeRequestStateClosed ->
       Cmd.parseState MapUnicodeToLower (MergeRequestState_String st) = st) /\
    (forall s, 0 <= Cmd.parseIssueState MapUnicodeToLower s ->
       IssueState_String (Cmd.parseIssueState MapUnicodeToLower s)
       = Cmd.ToLower MapUnicodeToLower s) /\
    (forall s, 0 <= Cmd.parseState MapUnicodeToLower s ->
       MergeRequestState_String (Cmd.parseState MapUnicodeToLower s)
       = Cmd.ToLower MapUnicodeToLower s) /\
    (forall st, st <> IssueStateOpen -> st <> IssueStateClosed ->
       IssueState_String st = "unknown" /\
       Cmd.parseIssueState MapUnicodeToLower (IssueState_String st) = -1) /\
    (forall st, st <> MergeRequestStateOpen -> st <> MergeRequestStateMerged ->
                st <> MergeRequestStateClosed ->
       MergeRequestState_String st = "unknown" /\
       Cmd.parseState MapUnicodeToLower (MergeRequestState_String st) = -1).
Proof.
  intros U. split; [| split; [| split; [| split; [| split]]]].
  - intros st [-> | ->]; reflexivity.
  - intros st [-> | [-> | ->]]; reflexivity.
  - intros s. unfold Cmd.parseIssueState.
    destruct (String.eqb_spec (Cmd.ToLower U s) "open") as [E | _];
      [intros _; rewrite E; reflexivity |].
    destruct (String.eqb_spec (Cmd.ToLower U s) "closed") as [E | _];
      [intros _; rewrite E; reflexivity |].
    intros H. exfalso. lia.
  - intros s. unfold Cmd.parseState.
    destruct (String.eqb_spec (Cmd.ToLower U s) "open") as [E | _];
      [intros _; rewrite E; reflexivity |].
    destruct (String.eqb_spec (Cmd.ToLower U s) "merged") as [E | _];
      [intros _; rewrite E; reflexivity |].
    destruct (String.eqb_spec (Cmd.ToLower U s) "closed") as [E | _];
      [intros _; rewrite E; reflexivity |].
    intros H. exfalso. lia.
  - intros st H0 H1. unfold IssueState_String.
    apply Z.eqb_neq in H0. apply Z.eqb_neq in H1. rewrite H0, H1.
    split; reflexivity.
  - intros st H0 H1 H2. unfold MergeRequestState_String.
    apply Z.eqb_neq in H0. apply Z.eqb_neq in H1. apply Z.eqb_neq in H2.
    rewrite H0, H1, H2. split; reflexivity.
Qed.

Lemma state_names_round_trip_witness :
  Cmd.parseState (fun s => s) (MergeRequestState_String MergeRequestStateMerged)
  = MergeRequestStateMerged /\
  MergeRequestState_String (Cmd.parseState (fun s => s) "Closed") = "closed" /\
  MergeRequestState_String 999 = "unknown".
Proof.
  destruct (state_names_round_trip (fun s => s)) as (_ & H2 & _ & H4 & _ & H6).
  split; [| split].
  - apply H2. right. left. reflexivity.
  - apply (H4 "Closed"). vm_compute. discriminate.
  - apply (H6 999); discriminate.
Defined.

(** X25.  A state filter is read without regard to case, and nothing but the names
    of the states is accepted: a string parses to a state exactly when, in
    lower case, it is the name of that state, it parses to -1 otherwise, and
    an ASCII string parses like its lower-case form. *)
Theorem state_filter_ignores_case :
  forall (MapUnicodeToLower : string -> string) (s : string),
    let l := Cmd.ToLower MapUnicodeToLower s in
    (Cmd.parseIssueState MapUnicodeToLower s = IssueStateOpen <-> l = "open") /\
    (Cmd.parseIssueState MapUnicodeToLower s = IssueStateClosed <-> l = "closed") /\
    (Cmd.parseIssueState MapUnicodeToLower s = -1 <-> l <> "open" /\ l <> "closed") /\
    (Cmd.parseState MapUnicodeToLower s = MergeRequestStateOpen <-> l = "open") /\
    (Cmd.parseState MapUnicodeToLower s = MergeRequestStateMerged <-> l = "merged") /\
    (Cmd.parseState MapUnicodeToLower s = MergeRequestStateClosed <-> l = "closed") /\
    (Cmd.parseState MapUnicodeToLower s = -1 <->
     l <> "open" /\ l <> "merged" /\ l <> "closed") /\
    (Cmd.isASCII s = true ->
     Cmd.parseIssueState MapUnicodeToLower l = Cmd.parseIssueState MapUnicodeToLower s /\
     Cmd.parseState MapUnicodeToLower l = Cmd.parseState MapUnicodeToLower s).
Proof.
  intros U s l.
  unfold Cmd.parseIssueState, Cmd.parseState. fold l.
  assert (Hidem : Cmd.isASCII s = true -> Cmd.ToLower U l = l)
    by (intros H; apply ToLower_idempotent; exact H).
  unfold IssueStateOpen, IssueStateClosed, MergeRequestStateOpen,
    MergeRequestStateMerged, MergeRequestStateClosed.
  destruct (String.eqb_spec l "open") as [E1 | E1];
    destruct (String.eqb_spec l "merged") as [E2 | E2];
    destruct (String.eqb_spec l "closed") as [E3 | E3];
    repeat split; intros;
    try congruence; try discriminate; try tauto;
    try (rewrite Hidem by assumption; fold l;
         repeat match goal with
                | |- context [String.eqb l ?x] =>
                    destruct (String.eqb_spec l x); try congruence
                end);
    try (exfalso; intuition (congruence || discriminate)).
Qed.

Lemma state_filter_ignores_case_witness :
  Cmd.parseState (fun s => s) "MeRgEd" = MergeRequestStateMerged /\
  Cmd.parseIssueState (fun s => s) "done" = -1.
Proof.
  destruct (state_filter_ignores_case (fun s => s) "MeRgEd")
    as (_ & _ & _ & _ & H & _).
  destruct (state_filter_ignores_case (fun s => s) "done") as (_ & _ & H' & _).
  split.
  - apply H. reflexivity.
  - apply H'. split; discriminate.
Defined.

(** ** Listings follow the state *)

Lemma In_update_where_iff {A : Type} (p : A -> bool) (f : A -> A) (t : list A) (x : A) :
  In x (update_where p f t) <-> exists y, In y t /\ x = if p y then f y else y.
Proof.
  unfold update_where. rewrite in_map_iff. split; intros [y [H1 H2]]; exists y; auto.
Qed.

Lemma CloseIssue_by_user db repoID id closedBy now :
  user_exists db closedBy = true ->
  CloseIssue db repoID id closedBy now
  = (None,
     with_issues db
       (update_where (issue_at_state repoID id IssueStateOpen)
                     (set_issue_closed closedBy now) (issues db))
       (seq_issues db)).
Proof.
  intros Hu. unfold CloseIssue. rewrite Hu, andb_false_r. reflexivity.
Qed.

(** X26.  Closing moves an issue from one listing to the other.  After an Open
    issue is closed by a known user, the listing of Open issues of its
    repository is the former one without that issue, and the listing of
    Closed issues holds it, closed by that user, with its title unchanged. *)
Theorem closing_moves_issue_between_listings :
  forall (db : DB) (repoID id actor now : Z) (i : Issue),
    GetIssueByID db repoID id = Ok i ->
    iState i = IssueStateOpen ->
    user_exists db actor = true ->
    let db' := snd (CloseIssue db repoID id actor now) in
    exists opened opened' closed',
      GetIssuesByRepoIDAndState db repoID IssueStateOpen = Ok opened /\
      GetIssuesByRepoIDAndState db' repoID IssueStateOpen = Ok opened' /\
      GetIssuesByRepoIDAndState db' repoID IssueStateClosed = Ok closed' /\
      In i opened /\
      (forall x, In x opened' <-> In x opened /\ iID x <> id) /\
      (exists c, In c closed' /\ iID c = id /\ iClosedBy c = Some actor /\
                 iClosedAt c = Some now /\ iTitle c = iTitle i /\
                 iDescription c = iDescription i).
Proof.
  intros db repoID id actor now i Hget Hopen Huser db'.
  unfold db'. rewrite (CloseIssue_by_user db repoID id actor now Huser). cbn [snd].
  unfold GetIssueByID in Hget.
  destruct (find (issue_at repoID id) (issues db)) as [j|] eqn:E; [| discriminate].
  inversion Hget; subst j. apply find_some in E. destruct E as [Hin Hat].
  unfold issue_at in Hat. apply andb_true_iff in Hat. destruct Hat as [Hr Hi].
  apply Z.eqb_eq in Hr. apply Z.eqb_eq in Hi.
  do 3 eexists. split; [reflexivity |]. split; [reflexivity |]. split; [reflexivity |].
  split; [| split].
  - apply order_by_desc_In, filter_In. split; [exact Hin |].
    rewrite Hr, Hopen, !Z.eqb_refl. reflexivity.
  - intros x. rewrite !order_by_desc_In, !filter_In. cbn [issues with_issues].
    rewrite In_update_where_iff, !andb_true_iff, !Z.eqb_eq. split.
    + intros [[y [Hy Hx]] [Hxr Hxs]].
      destruct (issue_at_state repoID id IssueStateOpen y) eqn:Eg.
      * subst x. simpl in Hxs. discriminate.
      * subst x. repeat split; auto.
        intros Hid. unfold issue_at_state in Eg.
        rewrite Hxr, Hid, Hxs, !Z.eqb_refl in Eg. discriminate.
    + intros [[Hx [Hxr Hxs]] Hid]. split; [| auto].
      exists x. split; [exact Hx |].
      unfold issue_at_state.
      replace (iID x =? id) with false by (symmetry; apply Z.eqb_neq; exact Hid).
      rewrite andb_false_r. reflexivity.
  - exists (set_issue_closed actor now i). split.
    + apply order_by_desc_In, filter_In. cbn [issues with_issues]. split.
      * apply In_update_where_iff. exists i. split; [exact Hin |].
        unfold issue_at_state. rewrite Hr, Hi, Hopen, !Z.eqb_refl. reflexivity.
      * simpl. rewrite Hr, Z.eqb_refl. reflexivity.
    + simpl. repeat split; auto.
Qed.

Lemma closing_moves_issue_between_listings_witness :
  exists opened',
    GetIssuesByRepoIDAndState (snd (CloseIssue sample_db 1 2 7 40)) 1 IssueStateOpen
      = Ok opened' /\
    forall x, In x opened' -> iID x <> 2.
Proof.
  destruct (closing_moves_issue_between_listings sample_db 1 2 7 40
              (mkIssue 2 1 "Add docs" "readme" IssueStateOpen 8 None None 11 11)
              eq_refl eq_refl eq_refl)
    as (opened & opened' & closed' & _ & H2 & _ & _ & H5 & _).
  exists opened'. split; [exact H2 |].
  intros x Hx. apply H5 in Hx. tauto.
Defined.

(** ** Through the facade *)

Lemma Repository_same_repos repoName w w' r :
  repos (Backend.db w') = repos (Backend.db w) ->
  Backend.Repository repoName w = (Ok r, w) ->
  Backend.Repository repoName w' = (Ok r, w').
Proof.
  unfold Backend.Repository. intros ->.
  destruct (find (fun r0 => String.eqb (rName r0) repoName) (repos (Backend.db w)));
    intros H; inversion H; reflexivity.
Qed.

Lemma GetIssue_outcome
    (SanitizeRepo : string -> string) (WrapError : error -> error) ctx repoName id w r :
  Backend.Repository (SanitizeRepo repoName) w = (Ok r, w) ->
  Backend.GetIssue SanitizeRepo WrapError ctx repoName id w
  = (match GetIssueByID (Backend.db w) (rID r) id with
     | Ok i => Ok i
     | Err e => Err (WrapError e)
     end, w).
Proof.
  intros Hrepo. unfold Backend.GetIssue, Backend.bind. rewrite Hrepo.
  unfold Backend.wrapped, Backend.TransactionContext.
  destruct (GetIssueByID (Backend.db w) (rID r) id); simpl; [destruct w |]; reflexivity.
Qed.

Lemma ListIssues_outcome
    (SanitizeRepo : string -> string) (WrapError : error -> error) ctx repoName st w r :
  Backend.Repository (SanitizeRepo repoName) w = (Ok r, w) ->
  Backend.ListIssues SanitizeRepo WrapError ctx repoName st w
  = (match st with
     | None => GetIssuesByRepoID (Backend.db w) (rID r)
     | Some s => GetIssuesByRepoIDAndState (Backend.db w) (rID r) s
     end, w).
Proof.
  intros Hrepo. unfold Backend.ListIssues, Backend.bind. rewrite Hrepo.
  unfold Backend.wrapped, Backend.TransactionContext.
  destruct st; simpl; destruct w; reflexivity.
Qed.

Lemma ListMergeRequests_outcome
    (SanitizeRepo : string -> string) (WrapError : error -> error) ctx repoName st w r :
  Backend.Repository (SanitizeRepo repoName) w = (Ok r, w) ->
  Backend.ListMergeRequests SanitizeRepo WrapError ctx repoName st w
  = (match st with
     | None => GetMergeRequestsByRepoID (Backend.db w) (rID r)
     | Some s => GetMergeRequestsByRepoIDAndState (Backend.db w) (rID r) s
     end, w).
Proof.
  intros Hrepo. unfold Backend.ListMergeRequests, Backend.bind. rewrite Hrepo.
  unfold Backend.wrapped, Backend.TransactionContext.
  destruct st; simpl; destruct w; reflexivity.
Qed.

(** X27.  An issue created through the facade is shown and listed.  For a
    repository that resolves and a known acting user, [CreateIssue] returns a
    new id; [GetIssue] under that id then gives an Open issue with the title
    and description passed in, whose author is the acting user; [ListIssues]
    holds it when asked for all issues or for the Open ones, and not when
    asked for the Closed ones; the repositories on disk are not touched. *)
Theorem created_issue_is_shown_and_listed :
  forall (SanitizeRepo : string -> string) (WrapError : error -> error)
         (ctx : Backend.Context) (repoName title description : string) (now : Z)
         (w : Backend.World) (r : Repo) (user : User),
    Backend.Repository (SanitizeRepo repoName) w = (Ok r, w) ->
    Backend.ctxUser ctx = Some user ->
    user_exists (Backend.db w) (uID user) = true ->
    keys_ok (Backend.db w) ->
    let w1 := snd (Backend.CreateIssue SanitizeRepo WrapError ctx repoName title
                     description now w) in
    exists id i every opened closed,
      fst (Backend.CreateIssue SanitizeRepo WrapError ctx repoName title description now w)
        = Ok id /\
      Backend.GetIssue SanitizeRepo WrapError ctx repoName id w1 = (Ok i, w1) /\
      iID i = id /\ iTitle i = title /\ iDescription i = description /\
      iAuthorID i = uID user /\ iState i = IssueStateOpen /\
      Backend.ListIssues SanitizeRepo WrapError ctx repoName None w1 = (Ok every, w1) /\
      Backend.ListIssues SanitizeRepo WrapError ctx repoName (Some IssueStateOpen) w1
        = (Ok opened, w1) /\
      Backend.ListIssues SanitizeRepo WrapError ctx repoName (Some IssueStateClosed) w1
        = (Ok closed, w1) /\
      In i every /\ In i opened /\ ~ In i closed /\
      Backend.git w1 = Backend.git w.
Proof.
  intros SanitizeRepo WrapError ctx repoName title description now w r user
         Hrepo Huser Hfk Hk w1.
  pose proof (Repository_found _ _ _ Hrepo) as Hrfk.
  assert (Hc : Backend.CreateIssue SanitizeRepo WrapError ctx repoName title description
                 now w
               = (Ok (seq_issues (Backend.db w) + 1),
                  Backend.mkWorld
                    (snd (CreateIssue (Backend.db w) (rID r) (uID user) title description
                                      now))
                    (Backend.git w))).
  { unfold Backend.CreateIssue, Backend.bind. rewrite Hrepo.
    unfold Backend.requireUser, Backend.UserFromContext. rewrite Huser.
    unfold Backend.ret, Backend.wrapped, Backend.TransactionContext, CreateIssue.
    rewrite Hrfk, Hfk. reflexivity. }
  assert (Hc' : CreateIssue (Backend.db w) (rID r) (uID user) title description now
                = (Ok (seq_issues (Backend.db w) + 1),
                   snd (CreateIssue (Backend.db w) (rID r) (uID user) title description
                                    now))).
  { unfold CreateIssue. rewrite Hrfk, Hfk. reflexivity. }
  destruct (created_issue_row (Backend.db w) _ (rID r) (uID user) title description now _
              Hk Hc') as [i (Hget & Hid & Hir & Hia & Hit & Hides & Hist & _)].
  assert (Hrepo1 : Backend.Repository (SanitizeRepo repoName) w1 = (Ok r, w1)).
  { apply (Repository_same_repos _ w); [| exact Hrepo].
    unfold w1. rewrite Hc. cbn [snd Backend.db]. unfold CreateIssue.
    rewrite Hrfk, Hfk. reflexivity. }
  assert (Hin : In i (issues (Backend.db w1))).
  { unfold w1. rewrite Hc. cbn [snd Backend.db].
    unfold GetIssueByID in Hget.
    destruct (find _ _) as [j|] eqn:E in Hget; [| discriminate].
    inversion Hget; subst j. apply find_some in E. tauto. }
  exists (seq_issues (Backend.db w) + 1), i. do 3 eexists.
  split; [rewrite Hc; reflexivity |].
  split.
  { rewrite (GetIssue_outcome SanitizeRepo WrapError ctx repoName _ w1 r Hrepo1).
    unfold w1 at 1. rewrite Hc. cbn [snd Backend.db]. rewrite Hget. reflexivity. }
  do 5 (split; [assumption |]).
  rewrite !(ListIssues_outcome SanitizeRepo WrapError ctx repoName _ w1 r Hrepo1).
  split; [reflexivity |]. split; [reflexivity |]. split; [reflexivity |].
  split; [| split; [| split]].
  - apply order_by_desc_In, filter_In. split; [exact Hin |].
    rewrite Hir, Z.eqb_refl. reflexivity.
  - apply order_by_desc_In, filter_In. split; [exact Hin |].
    rewrite Hir, Hist, !Z.eqb_refl. reflexivity.
  - intros H. apply order_by_desc_In, filter_In in H. destruct H as [_ H].
    rewrite Hist in H. apply andb_true_iff in H. destruct H as [_ H]. discriminate.
  - unfold w1. rewrite Hc. reflexivity.
Qed.

Lemma created_issue_is_shown_and_listed_witness :
  exists i,
    fst (Backend.GetIssue (fun s => s) (fun e => e) (Backend.mkContext (Some bob)) "soft" 3
           (snd (Backend.CreateIssue (fun s => s) (fun e => e)
                   (Backend.mkContext (Some bob)) "soft" "New" "issue" 40 sample_world)))
      = Ok i /\
    iAuthorID i = 8 /\ iState i = IssueStateOpen.
Proof.
  destruct (created_issue_is_shown_and_listed (fun s => s) (fun e => e)
              (Backend.mkContext (Some bob)) "soft" "New" "issue" 40 sample_world
              (mkRepo 1 "soft") bob eq_refl eq_refl eq_refl sample_db_keys)
    as (id & i & every & opened & closed & H1 & H2 & H3 & _ & _ & H6 & H7 & _).
  assert (Hid : id = 3).
  { assert (H : fst (Backend.CreateIssue (fun s => s) (fun e => e)
                       (Backend.mkContext (Some bob)) "soft" "New" "issue" 40
                       sample_world) = Ok 3) by reflexivity.
    rewrite H in H1. inversion H1. reflexivity. }
  rewrite Hid in H2. exists i. rewrite H2. repeat split; assumption.
Defined.

Lemma facade_AddIssueDependency_outcome
    (SanitizeRepo : string -> string) (WrapError : error -> error)
    ctx repoName a b now w r :
  Backend.Repository (SanitizeRepo repoName) w = (Ok r, w) ->
  Backend.AddIssueDependency SanitizeRepo WrapError ctx repoName a b now w
  = match AddIssueDependency (Backend.db w) (rID r) a b now with
    | (None, d') => (Ok tt, Backend.mkWorld d' (Backend.git w))
    | (Some e, _) => (Err (WrapError e), w)
    end.
Proof.
  intros Hrepo. unfold Backend.AddIssueDependency, Backend.bind. rewrite Hrepo.
  unfold Backend.wrapped, Backend.TransactionContext, Backend.exec.
  destruct (AddIssueDependency (Backend.db w) (rID r) a b now) as [[e|] d']; reflexivity.
Qed.

Lemma facade_RemoveIssueDependency_outcome
    (SanitizeRepo : string -> string) (WrapError : error -> error)
    ctx repoName a b w r :
  Backend.Repository (SanitizeRepo repoName) w = (Ok r, w) ->
  Backend.RemoveIssueDependency SanitizeRepo WrapError ctx repoName a b w
  = match RemoveIssueDependency (Backend.db w) (rID r) a b with
    | (None, d') => (Ok tt, Backend.mkWorld d' (Backend.git w))
    | (Some e, _) => (Err (WrapError e), w)
    end.
Proof.
  intros Hrepo. unfold Backend.RemoveIssueDependency, Backend.bind. rewrite Hrepo.
  unfold Backend.wrapped, Backend.TransactionContext, Backend.exec.
  destruct (RemoveIssueDependency (Backend.db w) (rID r) a b) as [[e|] d']; reflexivity.
Qed.

Lemma facade_dependency_queries
    (SanitizeRepo : string -> string) (WrapError : error -> error) ctx repoName a w r :
  Backend.Repository (SanitizeRepo repoName) w = (Ok r, w) ->
  Backend.GetIssueDependencies SanitizeRepo WrapError ctx repoName a w
    = (GetIssueDependencies (Backend.db w) (rID r) a, w) /\
  Backend.GetIssueDependents SanitizeRepo WrapError ctx repoName a w
    = (GetIssueDependents (Backend.db w) (rID r) a, w).
Proof.
  intros Hrepo.
  unfold Backend.GetIssueDependencies, Backend.GetIssueDependents, Backend.bind.
  rewrite Hrepo. unfold Backend.wrapped, Backend.TransactionContext. simpl.
  destruct w; split; reflexivity.
Qed.

(** X28.  Dependencies through the facade.  A dependency added with
    [AddIssueDependency] shows in [GetIssueDependencies] of the dependent
    issue and in [GetIssueDependents] of the other; [RemoveIssueDependency]
    then succeeds and leaves the table of edges as it was before the
    addition.  A store error reaches the caller through [db.WrapError], and
    the call that failed has changed nothing. *)
Theorem dependency_through_the_facade :
  forall (SanitizeRepo : string -> string) (WrapError : error -> error)
         (ctx : Backend.Context) (repoName : string) (a b now : Z)
         (w : Backend.World) (r : Repo),
    Backend.Repository (SanitizeRepo repoName) w = (Ok r, w) ->
    keys_ok (Backend.db w) ->
    let added := Backend.AddIssueDependency SanitizeRepo WrapError ctx repoName a b now w in
    let removed := Backend.RemoveIssueDependency SanitizeRepo WrapError ctx repoName a b
                     (snd added) in
    (fst added = Ok tt ->
     (exists ia ib dependencies dependents,
         Backend.GetIssueDependencies SanitizeRepo WrapError ctx repoName a (snd added)
           = (Ok dependencies, snd added) /\
         Backend.GetIssueDependents SanitizeRepo WrapError ctx repoName b (snd added)
           = (Ok dependents, snd added) /\
         In ib dependencies /\ iID ib = b /\ In ia dependents /\ iID ia = a) /\
     fst removed = Ok tt /\
     issue_dependencies (Backend.db (snd removed)) = issue_dependencies (Backend.db w) /\
     issues (Backend.db (snd removed)) = issues (Backend.db w)) /\
    (fst added <> Ok tt ->
     exists e, fst (AddIssueDependency (Backend.db w) (rID r) a b now) = Some e /\
               added = (Err (WrapError e), w)).
Proof.
  intros SanitizeRepo WrapError ctx repoName a b now w r Hrepo Hk added removed.
  assert (Hadd := facade_AddIssueDependency_outcome SanitizeRepo WrapError ctx repoName
                    a b now w r Hrepo).
  fold added in Hadd.
  destruct (AddIssueDependency (Backend.db w) (rID r) a b now) as [[e|] d'] eqn:Estore.
  - split.
    + intros Hok. rewrite Hadd in Hok. discriminate.
    + intros _. exists e. split; [reflexivity | exact Hadd].
  - split; [| intros Hne; rewrite Hadd in Hne; exfalso; apply Hne; reflexivity].
    intros _.
    assert (Hok : fst (AddIssueDependency (Backend.db w) (rID r) a b now) = None)
      by (rewrite Estore; reflexivity).
    destruct (AddIssueDependency_reported (Backend.db w) (rID r) a b now Hk Hok)
      as [_ (ia & ib & deps & dpts & Hia & Hib & Hdeps & Hinb & Hdpts & Hina)].
    rewrite Estore in Hia, Hib, Hdeps, Hdpts. cbn [snd] in Hia, Hib, Hdeps, Hdpts.
    assert (Hd' : d' = with_issue_dependencies (Backend.db w)
                         (issue_dependencies (Backend.db w)
                          ++ [mkIssueDependency
                                (seq_issue_dependencies (Backend.db w) + 1) a b now])
                         (seq_issue_dependencies (Backend.db w) + 1)
                  /\ existsb (edge_at a b) (issue_dependencies (Backend.db w)) = false).
    { destruct Hk as (Hnd & _).
      rewrite (AddIssueDependency_outcome _ (rID r) a b now Hnd) in Estore.
      repeat match type of Estore with context [if ?c then _ else _] =>
               destruct c eqn:?
             end; inversion Estore; subst. split; reflexivity. }
    destruct Hd' as [Hd' Hfresh].
    assert (Hrepo1 : Backend.Repository (SanitizeRepo repoName) (snd added)
                     = (Ok r, snd added)).
    { apply (Repository_same_repos _ w); [| exact Hrepo].
      rewrite Hadd, Hd'. reflexivity. }
    destruct (facade_dependency_queries SanitizeRepo WrapError ctx repoName a (snd added)
                r Hrepo1) as [Q1 _].
    destruct (facade_dependency_queries SanitizeRepo WrapError ctx repoName b (snd added)
                r Hrepo1) as [_ Q2].
    assert (Hdb1 : Backend.db (snd added) = d') by (rewrite Hadd; reflexivity).
    split; [| split; [| split]].
    + exists ia, ib, deps, dpts. rewrite Q1, Q2, Hdb1, Hdeps, Hdpts.
      split; [reflexivity |]. split; [reflexivity |].
      split; [exact Hinb |].
      unfold GetIssueByID in Hia, Hib.
      destruct (find (issue_at (rID r) a) (issues d')) as [x|] eqn:Fa; [| discriminate].
      destruct (find (issue_at (rID r) b) (issues d')) as [y|] eqn:Fb; [| discriminate].
      inversion Hia; subst x. inversion Hib; subst y.
      apply find_some in Fa. apply find_some in Fb.
      destruct Fa as [_ Fa], Fb as [_ Fb]. unfold issue_at in Fa, Fb.
      apply andb_true_iff in Fa. apply andb_true_iff in Fb.
      destruct Fa as [_ Fa], Fb as [_ Fb].
      apply Z.eqb_eq in Fa. apply Z.eqb_eq in Fb. auto.
    + unfold removed.
      rewrite (facade_RemoveIssueDependency_outcome SanitizeRepo WrapError ctx repoName
                 a b (snd added) r Hrepo1).
      rewrite Hdb1. unfold RemoveIssueDependency. rewrite rows_matched_pos.
      rewrite (proj1 (GetIssueByID_found d' (rID r) a) (ex_intro _ ia Hia)).
      reflexivity.
    + unfold removed.
      rewrite (facade_RemoveIssueDependency_outcome SanitizeRepo WrapError ctx repoName
                 a b (snd added) r Hrepo1).
      rewrite Hdb1. unfold RemoveIssueDependency. rewrite rows_matched_pos.
      rewrite (proj1 (GetIssueByID_found d' (rID r) a) (ex_intro _ ia Hia)).
      cbn [negb snd Backend.db issue_dependencies with_issue_dependencies].
      rewrite Hd'. cbn [issue_dependencies with_issue_dependencies].
      apply delete_where_snoc_fresh; [exact Hfresh |].
      unfold edge_at. simpl. rewrite !Z.eqb_refl. reflexivity.
    + unfold removed.
      rewrite (facade_RemoveIssueDependency_outcome SanitizeRepo WrapError ctx repoName
                 a b (snd added) r Hrepo1).
      rewrite Hdb1. unfold RemoveIssueDependency. rewrite rows_matched_pos.
      rewrite (proj1 (GetIssueByID_found d' (rID r) a) (ex_intro _ ia Hia)).
      cbn [negb snd Backend.db issues with_issue_dependencies].
      rewrite Hd'. reflexivity.
Qed.

Lemma dependency_through_the_facade_witness :
  Backend.AddIssueDependency (fun s => s) (fun e => ErrorWrap "db" e)
    (Backend.mkContext None) "soft" 2 2 40 sample_world
  = (Err (ErrorWrap "db" ErrNoRows), sample_world).
Proof.
  destruct (dependency_through_the_facade (fun s => s) (fun e => ErrorWrap "db" e)
              (Backend.mkContext None) "soft" 2 2 40 sample_world (mkRepo 1 "soft")
              eq_refl sample_db_keys) as [_ H].
  destruct H as [e [He Hr]]; [discriminate |].
  rewrite Hr. vm_compute in He. inversion He. reflexivity.
Defined.

(** X29.  A merge moves the request from the Open listing to the Merged one.
    After a merge that goes through, [ListMergeRequests] with state Merged
    holds the request, merged by the acting user, and [ListMergeRequests]
    with state Open holds no request of that id; both leave the world as it
    is. *)
Theorem merged_request_moves_between_listings :
  forall (SanitizeRepo : string -> string) (WrapError : error -> error)
         (git_fails : list string -> GitRepository -> option error)
         (ctx : Backend.Context) (repoName : string)
         (mrID now : Z) (w : Backend.World)
         (r : Repo) (user : User) (mr : MergeRequest) (gr : GitRepository),
    SanitizeRepo (SanitizeRepo repoName) = SanitizeRepo repoName ->
    Backend.Repository (SanitizeRepo repoName) w = (Ok r, w) ->
    Backend.ctxUser ctx = Some user ->
    user_exists (Backend.db w) (uID user) = true ->
    GetMergeRequestByID (Backend.db w) (rID r) mrID = Ok mr ->
    mState mr = MergeRequestStateOpen ->
    Backend.Open r w = (Ok gr, w) ->
    git_fails ["checkout"; mTargetBranch mr] gr = None ->
    git_fails ["merge"; "--no-ff"; "-m";
               Backend.commitMsg (mSourceBranch mr) (mTargetBranch mr); mSourceBranch mr]
              (mkGitRepository (Path gr) (refs gr)
                               (history gr ++ [["checkout"; mTargetBranch mr]])) = None ->
    let w1 := snd (Backend.MergeMergeRequest SanitizeRepo WrapError git_fails ctx repoName
                     mrID now w) in
    exists merged opened,
      Backend.ListMergeRequests SanitizeRepo WrapError ctx repoName
        (Some MergeRequestStateMerged) w1 = (Ok merged, w1) /\
      Backend.ListMergeRequests SanitizeRepo WrapError ctx repoName
        (Some MergeRequestStateOpen) w1 = (Ok opened, w1) /\
      (exists g, In g merged /\ mID g = mrID /\ mMergedBy g = Some (uID user) /\
                 mMergedAt g = Some now /\ mTitle g = mTitle mr) /\
      (forall x, In x opened -> mID x <> mrID) /\
      (forall x, In x opened -> In x (merge_requests (Backend.db w))).
Proof.
  intros SanitizeRepo WrapError git_fails ctx repoName mrID now w r user mr gr
         Hidem Hrepo Huser Hfk Hget Hstate Hopen Hc Hm w1.
  unfold w1.
  rewrite (successful_merge_outcome SanitizeRepo WrapError git_fails ctx repoName mrID now
             w r user mr gr Hidem Hrepo Huser Hfk Hget Hstate Hopen Hc Hm).
  cbn [snd].
  match goal with |- context [Backend.ListMergeRequests _ _ _ _ _ ?w'] => set (W := w') end.
  assert (Hrepo1 : Backend.Repository (SanitizeRepo repoName) W = (Ok r, W))
    by (apply (Repository_same_repos _ w); [reflexivity | exact Hrepo]).
  destruct (open_row_matches_guard _ _ _ _ Hget Hstate) as [Hin Hat].
  assert (Hat' := Hat). unfold mr_at_state in Hat'.
  rewrite !andb_true_iff, !Z.eqb_eq in Hat'. destruct Hat' as [[Hr Hi] _].
  do 2 eexists.
  rewrite !(ListMergeRequests_outcome SanitizeRepo WrapError ctx repoName _ W r Hrepo1).
  split; [reflexivity |]. split; [reflexivity |].
  split; [| split].
  - exists (set_mr_merged (uID user) now mr). split.
    + apply order_by_desc_In, filter_In. unfold W.
      cbn [Backend.db merge_requests with_merge_requests]. split.
      * apply In_update_where_iff. exists mr. split; [exact Hin |].
        rewrite Hat. reflexivity.
      * simpl. rewrite Hr, Z.eqb_refl. reflexivity.
    + simpl. auto.
  - intros x Hx. apply order_by_desc_In, filter_In in Hx. unfold W in Hx.
    cbn [Backend.db merge_requests with_merge_requests] in Hx.
    destruct Hx as [Hx Hp]. apply In_update_where_iff in Hx.
    destruct Hx as [y [Hy Hxy]].
    rewrite andb_true_iff, !Z.eqb_eq in Hp. destruct Hp as [Hxr Hxs].
    destruct (mr_at_state (rID r) mrID MergeRequestStateOpen y) eqn:Eg.
    + subst x. simpl in Hxs. discriminate.
    + subst x. intros Hid. unfold mr_at_state in Eg.
      rewrite Hxr, Hid, Hxs, !Z.eqb_refl in Eg. discriminate.
  - intros x Hx. apply order_by_desc_In, filter_In in Hx. unfold W in Hx.
    cbn [Backend.db merge_requests with_merge_requests] in Hx.
    destruct Hx as [Hx Hp]. apply In_update_where_iff in Hx.
    destruct Hx as [y [Hy Hxy]].
    rewrite andb_true_iff, !Z.eqb_eq in Hp. destruct Hp as [Hxr Hxs].
    destruct (mr_at_state (rID r) mrID MergeRequestStateOpen y) eqn:Eg.
    + subst x. simpl in Hxs. discriminate.
    + subst x. exact Hy.
Qed.

Lemma merged_request_moves_between_listings_witness :
  exists opened,
    fst (Backend.ListMergeRequests (fun s => s) (fun e => e) (Backend.mkContext None) "soft"
           (Some MergeRequestStateOpen)
           (snd (Backend.MergeMergeRequest (fun s => s) (fun e => e) git_always_ok
                   (Backend.mkContext (Some bob)) "soft" 1 40 sample_world)))
      = Ok opened /\
    Forall (fun x => mID x <> 1) opened.
Proof.
  destruct (merged_request_moves_between_listings (fun s => s) (fun e => e) git_always_ok
              (Backend.mkContext (Some bob)) "soft" 1 40 sample_world
              (mkRepo 1 "soft") bob
              (mkMergeRequest 1 1 "Feature" "adds it" "feature" "main"
                              MergeRequestStateOpen 7 None None None None 12 12)
              sample_git eq_refl eq_refl eq_refl eq_refl eq_refl eq_refl eq_refl
              eq_refl eq_refl)
    as (merged & opened & _ & H2 & _ & H4 & _).
  exists opened. split.
  - exact (f_equal fst H2).
  - apply Forall_forall. exact H4.
Defined.
